(** * etna: time-series cross-validation and change-point intervals

    A shallow embedding of
      - [etna/model_selection/backtest.py]
        (class [TimeSeriesCrossValidation]), and
      - [etna/transforms/decomposition/change_points_based/
         change_points_models/base.py]
        (static method [_build_intervals]),
    together with the properties of the fold planner, the validation step,
    the fold store and the aggregation queries.

    Python integers are [Z]; Python lists are [list]; a Python dict whose
    iteration order is observable is an association list with unique keys;
    exceptions are an explicit result type, and code that mutates [self]
    runs in a small state-and-exception monad in which, as in Python, the
    state written before a [raise] stays written. *)

From Stdlib Require Import ZArith List String Ascii Bool Lia QArith.
From Stdlib Require Import Permutation Sorting.Sorted Sorting.Mergesort Orders OrdersEx.
Import ListNotations.
Local Open Scope string_scope.
Local Open Scope list_scope.
Local Open Scope Z_scope.

(** ** Python built-ins used by the sources *)

Module Py.

(** [l[i]]: a negative index counts from the end, anything outside
    [-len(l) .. len(l)-1] raises [IndexError] (here [None]). *)
Definition getitem {A : Type} (l : list A) (i : Z) : option A :=
  let n := Z.of_nat (List.length l) in
  if 0 <=? i then
    if i <? n then nth_error l (Z.to_nat i) else None
  else
    if - n <=? i then nth_error l (Z.to_nat (i + n)) else None.

(** [range(n, 0, -1)] for a natural [n]: [n, n-1, ..., 1]. *)
Fixpoint countdown (n : nat) : list Z :=
  match n with
  | O => []
  | S m => Z.of_nat (S m) :: countdown m
  end.

(** [range(start, 0, -1)] on Python integers: empty when [start <= 0]. *)
Definition range_down (start : Z) : list Z := countdown (Z.to_nat start).

(** [enumerate(l)], counting from [i]. *)
Fixpoint enumerate_from {A : Type} (i : Z) (l : list A) : list (Z * A) :=
  match l with
  | [] => []
  | x :: r => (i, x) :: enumerate_from (i + 1) r
  end.

Definition enumerate {A : Type} (l : list A) : list (Z * A) :=
  enumerate_from 0 l.

(** [str.lower()] on the characters of a byte string: the letters
    [A]..[Z] move to [a]..[z], every other character stays. *)
Definition lower_char (c : ascii) : ascii :=
  let n := nat_of_ascii c in
  if (Nat.leb 65 n && Nat.leb n 90)%bool then ascii_of_nat (n + 32) else c.

Fixpoint lower (s : string) : string :=
  match s with
  | EmptyString => EmptyString
  | String c r => String (lower_char c) (lower r)
  end.

(** [d[k] = v] on a dict kept in insertion order: an existing key keeps
    its position and gets the new value, a new key goes to the end. *)
Fixpoint dict_set {K V : Type} (eqb : K -> K -> bool)
    (d : list (K * V)) (k : K) (v : V) : list (K * V) :=
  match d with
  | [] => [(k, v)]
  | (k', v') :: r =>
      if eqb k' k then (k, v) :: r else (k', v') :: dict_set eqb r k v
  end.

(** [d.get(k)]. *)
Fixpoint dict_get {K V : Type} (eqb : K -> K -> bool)
    (d : list (K * V)) (k : K) : option V :=
  match d with
  | [] => None
  | (k', v') :: r => if eqb k' k then Some v' else dict_get eqb r k
  end.

(** The distinct elements of a list in the order of their first
    appearance ([Index.unique()], the keys of a dict built in a loop). *)
Fixpoint unique_acc (seen : list string) (l : list string) : list string :=
  match l with
  | [] => []
  | x :: r =>
      if existsb (String.eqb x) seen then unique_acc seen r
      else x :: unique_acc (x :: seen) r
  end.

Definition unique (l : list string) : list string := unique_acc [] l.

(** [min(l)] and [max(l)] where the empty case gives no value. *)
Definition list_min (l : list Z) : option Z :=
  match l with
  | [] => None
  | x :: r => Some (fold_left Z.min r x)
  end.

Definition list_max (l : list Z) : option Z :=
  match l with
  | [] => None
  | x :: r => Some (fold_left Z.max r x)
  end.

End Py.

(** ** Exceptions *)

(** Modelled from the spec: [etna.metrics.MetricAggregationMode] is not in
    the sources at hand; a metric works in per-segment mode or in an
    aggregate mode, and only the first is accepted by the constructor. *)
Inductive MetricAggregationMode : Set := per_segment | macro.

(** The payload of the [ValueError]s of [backtest.py]; the fields are the
    values interpolated into the message.  [ScalarOnEmptyFrame] is the one
    that pandas raises from the [.loc] assignment of [get_forecasts]
    ("cannot set a frame with no defined index and a scalar"). *)
Inductive ValueErrorInfo : Set :=
| FoldsNumber (given : Z)
| NoMetrics
| MetricMode (metric_class : string) (mode : MetricAggregationMode)
| NotEnoughTimestamps (horizon n_folds min_required_length : Z)
                      (segment : string)
| ScalarOnEmptyFrame.

Inductive Exn : Set :=
| ValueError (info : ValueErrorInfo)
| KeyError (key : string)
| IndexError
| NotImplementedError
| CollaboratorError (what : string).

Inductive Res (A : Type) : Type :=
| Ok (a : A)
| Raise (e : Exn).
Arguments Ok {A} a.
Arguments Raise {A} e.

Definition is_raise {A : Type} (r : Res A) : bool :=
  match r with Ok _ => false | Raise _ => true end.

(** ** Data model *)

(** A cell of a data frame: a float (idealised as a rational), an
    integer, or a missing value. *)
Inductive cell : Set :=
| NaN
| Flt (x : Q)
| Int (n : Z).

Definition isna (c : cell) : bool :=
  match c with NaN => true | _ => false end.

Definition timestamp : Set := Z.

(** A column of the wide frame is addressed by (segment, feature). *)
Definition colkey : Set := (string * string)%type.

Definition colkey_eqb (a b : colkey) : bool :=
  (String.eqb (fst a) (fst b) && String.eqb (snd a) (snd b))%bool.

(** Modelled from the spec: the [TSDataset] class is not part of the
    sources at hand.  The spec's dataset view contract gives it an [index]
    (the ordered time axis) and per-segment column access by
    (segment, feature); the frame [df] is kept as its index and its
    columns in order. *)
Record TSDataset : Type := mkTS {
  index : list timestamp;
  columns : list (colkey * list cell)
}.

Record Timerange : Set := mkTimerange {
  start : option timestamp;
  end_ : option timestamp
}.

(** The value returned by a metric call: segment -> value. *)
Definition SegmentValues : Set := list (string * Q).

(** The dict built by [_run_fold]. *)
Record FoldResult : Type := mkFold {
  train_timerange : Timerange;
  test_timerange : Timerange;
  forecast : TSDataset;
  fold_metrics : list (string * SegmentValues)
}.

(** Collaborators: the model and the metrics are used through their
    call contract only; each call may raise.  [fit] changes the (copied)
    model in place; here it returns the [forecast] method of the fitted
    copy. *)
Definition Forecaster : Type := TSDataset -> Res TSDataset.

Record Model : Type := mkModel {
  fit : TSDataset -> Res Forecaster
}.

Record Metric : Type := mkMetric {
  class_name : string;
  metric_mode : MetricAggregationMode;
  call : TSDataset -> TSDataset -> Res SegmentValues
}.

Inductive CrossValidationMode : Set := expand | constant.

Record TimeSeriesCrossValidation : Type := mkCV {
  model : Model;
  horizon : Z;
  n_jobs : Z;
  n_folds : Z;
  metrics : list Metric;
  mode : CrossValidationMode;
  _constant_history_length : Z;
  _fold_column : string;
  _folds : list (Z * FoldResult)
}.

(** ** [TimeSeriesCrossValidation.__init__] *)

Definition MetricAggregationMode_eqb (a b : MetricAggregationMode) : bool :=
  match a, b with
  | per_segment, per_segment => true
  | macro, macro => true
  | _, _ => false
  end.

(** [CrossValidationMode[name]]: lookup of an enum member by name. *)
Definition CrossValidationMode_getitem (name : string) : Res CrossValidationMode :=
  if String.eqb name "expand" then Ok expand
  else if String.eqb name "constant" then Ok constant
  else Raise (KeyError name).

(** The [for metric in metrics] loop of the constructor. *)
Fixpoint check_metrics (ms : list Metric) : Res unit :=
  match ms with
  | [] => Ok tt
  | m :: r =>
      if negb (MetricAggregationMode_eqb (metric_mode m) per_segment)
      then Raise (ValueError (MetricMode (class_name m) (metric_mode m)))
      else check_metrics r
  end.

(** The constructor.  The enum has the two members [expand] and
    [constant], so the final [else: raise NotImplementedError] of the
    source cannot be reached once the lookup has succeeded. *)
Definition __init__ (model : Model) (horizon : Z) (metrics : list Metric)
    (n_folds : Z) (mode : string) (n_jobs : Z) : Res TimeSeriesCrossValidation :=
  if n_folds <? 1 then Raise (ValueError (FoldsNumber n_folds)) else
  match metrics with
  | [] => Raise (ValueError NoMetrics)
  | _ =>
    match check_metrics metrics with
    | Raise e => Raise e
    | Ok _ =>
      match CrossValidationMode_getitem (Py.lower mode) with
      | Raise e => Raise e
      | Ok md =>
          Ok (mkCV model horizon n_jobs n_folds metrics md
                (match md with expand => 0 | constant => 1 end)
                "fold_number" [])
      end
    end
  end.

(** ** The fold planner: the index arithmetic of
       [_generate_folds_dataframes] *)

Record FoldBounds : Set := mkBounds {
  min_train_idx : Z;
  max_train_idx : Z;
  min_test_idx : Z;
  max_test_idx : Z
}.

(** The body of the [for offset in range(self.n_folds, 0, -1)] loop up to
    the four indices; [len_timestamps] is [len(ts.index)]. *)
Definition fold_bounds (self : TimeSeriesCrossValidation)
    (len_timestamps : Z) (offset : Z) : FoldBounds :=
  let min_timestamp_idx := 0 in
  let max_timestamp_idx := len_timestamps in
  let min_train := min_timestamp_idx
      + (n_folds self - offset) * horizon self * _constant_history_length self in
  let max_train := max_timestamp_idx - horizon self * offset - 1 in
  mkBounds min_train max_train (max_train + 1) (max_train + horizon self).

(** The bounds of all folds, in the order in which the generator yields
    them. *)
Definition plan (self : TimeSeriesCrossValidation) (len_timestamps : Z)
  : list FoldBounds :=
  map (fold_bounds self len_timestamps) (Py.range_down (n_folds self)).

(** The four time stamps handed to [train_test_split]. *)
Record FoldTimes : Set := mkTimes {
  min_train : timestamp;
  max_train : timestamp;
  min_test : timestamp;
  max_test : timestamp
}.

Definition index_or_raise (timestamps : list timestamp) (i : Z) : Res timestamp :=
  match Py.getitem timestamps i with
  | Some t => Ok t
  | None => Raise IndexError
  end.

(** [timestamps[min_train_idx]], ... with Python's indexing. *)
Definition fold_times (timestamps : list timestamp) (b : FoldBounds)
  : Res FoldTimes :=
  match index_or_raise timestamps (min_train_idx b) with
  | Raise e => Raise e
  | Ok t1 =>
  match index_or_raise timestamps (max_train_idx b) with
  | Raise e => Raise e
  | Ok t2 =>
  match index_or_raise timestamps (min_test_idx b) with
  | Raise e => Raise e
  | Ok t3 =>
  match index_or_raise timestamps (max_test_idx b) with
  | Raise e => Raise e
  | Ok t4 => Ok (mkTimes t1 t2 t3 t4)
  end end end end.

(** An inclusive range [lo..hi] of positions of the axis and what it
    means for two of them to share a position.  The index pairs of the
    planner are read as such ranges where they are positions of the axis,
    which they are for [N > K*H] (train) and [N >= K*H] (test); a negative
    index is no position but is looked up from the end of the axis. *)
Definition in_range (lo hi x : Z) : Prop := lo <= x <= hi.

Definition ranges_overlap (lo1 hi1 lo2 hi2 : Z) : Prop :=
  exists x, in_range lo1 hi1 x /\ in_range lo2 hi2 x.

Definition train_overlaps_test (a b : FoldBounds) : Prop :=
  ranges_overlap (min_train_idx a) (max_train_idx a)
                 (min_test_idx b) (max_test_idx b).

(** The number of positions of the range [lo..hi], for [lo <= hi + 1]. *)
Definition range_len (lo hi : Z) : Z := hi - lo + 1.

(** [for x in l: ...] where the body may raise: the first exception ends
    the loop. *)
Fixpoint mapM {A B : Type} (f : A -> Res B) (l : list A) : Res (list B) :=
  match l with
  | [] => Ok []
  | x :: r =>
      match f x with
      | Raise e => Raise e
      | Ok y =>
          match mapM f r with
          | Raise e => Raise e
          | Ok ys => Ok (y :: ys)
          end
      end
  end.

(** The time ranges of all folds, as the generator computes them from
    [ts.index]: the first bad index raises [IndexError]. *)
Definition generate_fold_times (self : TimeSeriesCrossValidation)
    (timestamps : list timestamp) : Res (list FoldTimes) :=
  mapM (fold_times timestamps)
       (plan self (Z.of_nat (List.length timestamps))).

(** ** State and exceptions *)

(** The calls made to collaborators, in order: what a spy on the model,
    the metrics and the dataset would record. *)
Inductive Call : Set :=
| CallSplit
| CallFitTransform
| CallMakeFuture
| CallFit
| CallForecast
| CallMetric (metric_class : string).

Record World : Type := mkWorld {
  this : TimeSeriesCrossValidation;
  calls : list Call
}.

(** A method body: it reads and writes the world and returns or raises;
    what was written before a [raise] stays written. *)
Definition M (A : Type) : Type := World -> Res A * World.

Definition ret {A : Type} (a : A) : M A := fun w => (Ok a, w).

Definition bind {A B : Type} (m : M A) (f : A -> M B) : M B :=
  fun w =>
    match m w with
    | (Ok a, w') => f a w'
    | (Raise e, w') => (Raise e, w')
    end.

Definition raise {A : Type} (e : Exn) : M A := fun w => (Raise e, w).

Definition lift {A : Type} (r : Res A) : M A := fun w => (r, w).

Definition get_self : M TimeSeriesCrossValidation := fun w => (Ok (this w), w).

Definition with_folds (self : TimeSeriesCrossValidation)
    (d : list (Z * FoldResult)) : TimeSeriesCrossValidation :=
  mkCV (model self) (horizon self) (n_jobs self) (n_folds self)
       (metrics self) (mode self) (_constant_history_length self)
       (_fold_column self) d.

(** [self._folds = d], and the write of one entry [self._folds[i] = fold]. *)
Definition set_folds (d : list (Z * FoldResult)) : M unit :=
  fun w => (Ok tt, mkWorld (with_folds (this w) d) (calls w)).

Definition store_fold (i : Z) (fold : FoldResult) : M unit :=
  fun w => (Ok tt, mkWorld (with_folds (this w)
                              (Py.dict_set Z.eqb (_folds (this w)) i fold))
                           (calls w)).

(** A call to a collaborator: recorded, then its outcome. *)
Definition collaborator {A : Type} (c : Call) (r : Res A) : M A :=
  fun w => (r, mkWorld (this w) (calls w ++ [c])).

Declare Scope py_scope.
Delimit Scope py_scope with py.
Notation "x <- m ;; k" := (bind m (fun x => k))
  (at level 61, m at next level, right associativity) : py_scope.
Notation "m ;;; k" := (bind m (fun _ => k))
  (at level 61, right associativity) : py_scope.
Local Open Scope py_scope.

(** [for x in l: body(x)]. *)
Fixpoint for_each {A : Type} (l : list A) (body : A -> M unit) : M unit :=
  match l with
  | [] => ret tt
  | x :: r => body x ;;; for_each r body
  end.

(** [[f(x) for x in l]], evaluated in order. *)
Fixpoint for_collect {A B : Type} (f : A -> M B) (l : list A) : M (list B) :=
  match l with
  | [] => ret []
  | x :: r => y <- f x ;; ys <- for_collect f r ;; ret (y :: ys)
  end.

(** ** The dataset view *)

Definition Transform : Type := TSDataset -> Res TSDataset.

(** Modelled from the spec: the methods of [TSDataset] used by the
    generator ([train_test_split], [fit_transform], [make_future]) are not
    in the sources at hand; they are taken as given operations that may
    raise.  [set_iter] is the order in which a Python [set] of segment
    names is iterated, which the language leaves open. *)
Record Collaborators : Type := mkCollab {
  train_test_split : TSDataset -> FoldTimes -> Res (TSDataset * TSDataset);
  fit_transform : TSDataset -> list Transform -> Res TSDataset;
  make_future : TSDataset -> Z -> Res TSDataset;
  set_iter : list string -> list string
}.

(** [ts.df.columns.get_level_values("segment")]. *)
Definition segment_level (ts : TSDataset) : list string :=
  map (fun c => fst (fst c)) (columns ts).

(** [ts.segments]: the distinct segments of the columns. *)
Definition segments (ts : TSDataset) : list string :=
  Py.unique (segment_level ts).

(** [ts[:, segment, feature]]: the column, or [KeyError]. *)
Definition get_column (ts : TSDataset) (key : colkey) : option (list cell) :=
  Py.dict_get colkey_eqb (columns ts) key.

(** [series.tail(n)]: nothing for [n = 0], the last [n] values for a
    positive [n] (all of them when there are fewer), and all but the first
    [-n] values for a negative [n]. *)
Definition tail {A : Type} (l : list A) (n : Z) : list A :=
  if n =? 0 then []
  else if 0 <? n then skipn (List.length l - Z.to_nat n)%nat l
  else skipn (Z.to_nat (- n)) l.

(** ** [_validate_features] *)

Definition validate_segment (self : TimeSeriesCrossValidation)
    (ts : TSDataset) (segment : string) : M unit :=
  let min_required_length := horizon self * n_folds self in
  match get_column ts (segment, "target") with
  | None => raise (KeyError segment)
  | Some segment_target =>
      if existsb isna (tail segment_target min_required_length)
      then raise (ValueError (NotEnoughTimestamps (horizon self) (n_folds self)
                                min_required_length segment))
      else ret tt
  end.

Definition _validate_features (env : Collaborators) (ts : TSDataset) : M unit :=
  self <- get_self ;;
  let segments := set_iter env (segment_level ts) in
  for_each segments (validate_segment self ts).

(** ** [_generate_folds_dataframes], one turn of its loop *)

Definition generate_fold (env : Collaborators) (ts : TSDataset)
    (transforms : list Transform) (offset : Z)
  : M (TSDataset * TSDataset * TSDataset) :=
  self <- get_self ;;
  let timestamps := index ts in
  let bounds := fold_bounds self (Z.of_nat (List.length timestamps)) offset in
  times <- lift (fold_times timestamps bounds) ;;
  split <- collaborator CallSplit (train_test_split env ts times) ;;
  train <- collaborator CallFitTransform
             (fit_transform env (fst split) transforms) ;;
  forecast_base <- collaborator CallMakeFuture
                     (make_future env train (horizon self)) ;;
  ret (train, snd split, forecast_base).

(** ** [_compute_metrics] and [_run_fold] *)

Fixpoint compute_metrics_loop (ms : list Metric) (y_true y_pred : TSDataset)
    (acc : list (string * SegmentValues)) : M (list (string * SegmentValues)) :=
  match ms with
  | [] => ret acc
  | metric :: r =>
      v <- collaborator (CallMetric (class_name metric))
             (call metric y_true y_pred) ;;
      compute_metrics_loop r y_true y_pred
        (Py.dict_set String.eqb acc (class_name metric) v)
  end.

Definition _compute_metrics (y_true y_pred : TSDataset)
  : M (list (string * SegmentValues)) :=
  self <- get_self ;;
  compute_metrics_loop (metrics self) y_true y_pred [].

Definition stage_timerange (stage_df : TSDataset) : Timerange :=
  mkTimerange (Py.list_min (index stage_df)) (Py.list_max (index stage_df)).

Definition _run_fold (train test forecast_base : TSDataset) (fold_number : Z)
  : M (Z * FoldResult) :=
  self <- get_self ;;
  let train_range := stage_timerange train in
  let test_range := stage_timerange test in
  forecaster <- collaborator CallFit (fit (model self) train) ;;
  forecast <- collaborator CallForecast (forecaster forecast_base) ;;
  fold_metrics <- _compute_metrics test forecast ;;
  ret (fold_number, mkFold train_range test_range forecast fold_metrics).

(** ** The aggregation queries *)

(** A row of a frame in long form: the time stamp and the cells of that
    time stamp, one per column. *)
Record FrameRow : Set := mkFrameRow {
  row_timestamp : timestamp;
  row_cells : list (colkey * cell)
}.

Definition frame_rows (ts : TSDataset) : list FrameRow :=
  map (fun it => mkFrameRow (snd it)
                   (map (fun c => (fst c, nth (fst it) (snd c) NaN)) (columns ts)))
      (combine (seq 0 (List.length (index ts))) (index ts)).

(** The frame after [df.loc[:, key] = value] has gone through: the
    column holds the value on every row; it keeps its place when the frame
    had it and comes last when it had not. *)
Definition write_column (ts : TSDataset) (key : colkey) (v : cell) : TSDataset :=
  mkTS (index ts)
       (Py.dict_set colkey_eqb (columns ts) key
          (repeat v (List.length (index ts)))).

(** [forecast.loc[:, pd.IndexSlice[segment, column]] = value] for a
    scalar [value]; the frame of the dataset itself is changed.  pandas
    does not add a column to a frame without rows: it raises [ValueError]
    before it writes.  A column that the frame has is overwritten also
    when there is no row. *)
Definition assign_column (ts : TSDataset) (key : colkey) (v : cell)
  : Res TSDataset :=
  match index ts, get_column ts key with
  | [], None => Raise (ValueError ScalarOnEmptyFrame)
  | _, _ => Ok (write_column ts key v)
  end.

(** What one turn of the inner loop of [get_forecasts] writes when its
    assignment goes through. *)
Definition tag_step (fold_column : string) (fold_number : Z)
    (forecast : TSDataset) (segment : string) : TSDataset :=
  write_column forecast (segment, fold_column) (Int fold_number).

(** The inner loop of [get_forecasts] over the segments: the forecast as
    the loop leaves it, and whether the loop ran to its end.  The forecast
    is changed in place, so the columns written before a [raise] stay
    written. *)
Fixpoint tag_segments (fold_column : string) (fold_number : Z)
    (segs : list string) (forecast : TSDataset) : TSDataset * Res unit :=
  match segs with
  | [] => (forecast, Ok tt)
  | segment :: r =>
      match assign_column forecast (segment, fold_column) (Int fold_number) with
      | Raise e => (forecast, Raise e)
      | Ok forecast' => tag_segments fold_column fold_number r forecast'
      end
  end.

(** [for segment in forecast.segments: ...]; the list of segments is
    taken once, before the first turn. *)
Definition tag_forecast (fold_column : string) (fold_number : Z)
    (forecast : TSDataset) : TSDataset * Res unit :=
  tag_segments fold_column fold_number (segments forecast) forecast.

Definition set_forecast (fold_info : FoldResult) (f : TSDataset) : FoldResult :=
  mkFold (train_timerange fold_info) (test_timerange fold_info) f
         (fold_metrics fold_info).

(** The outer loop of [get_forecasts].  [fold_info["forecast"]] is the
    object held by the store, so what the inner loop writes is written in
    the store: the loop gives the items as they are afterwards, together
    with the stacked frame or the exception that ended it.  A fold that
    the loop has not reached stays as it is.  The rows of the stacked frame
    keep the columns of the forecast they come from (the filling in of
    columns that only other forecasts have is left out). *)
Fixpoint forecasts_loop (fold_column : string) (items : list (Z * FoldResult))
    (stacked_forecast : list FrameRow)
  : list (Z * FoldResult) * Res (list FrameRow) :=
  match items with
  | [] => ([], Ok stacked_forecast)
  | (fold_number, fold_info) :: r =>
      let tagged := tag_forecast fold_column fold_number (forecast fold_info) in
      let item := (fold_number, set_forecast fold_info (fst tagged)) in
      match snd tagged with
      | Raise e => (item :: r, Raise e)
      | Ok _ =>
          let rest := forecasts_loop fold_column r
                        (stacked_forecast ++ frame_rows (fst tagged)) in
          (item :: fst rest, snd rest)
      end
  end.

Definition get_forecasts : M (list FrameRow) :=
  self <- get_self ;;
  let out := forecasts_loop (_fold_column self) (_folds self) [] in
  set_folds (fst out) ;;;
  lift (snd out).

(** A row of the fold information frame. *)
Record FoldInfoRow : Set := mkFoldInfoRow {
  train_start_time : option timestamp;
  train_end_time : option timestamp;
  test_start_time : option timestamp;
  test_end_time : option timestamp;
  info_fold_number : Z
}.

Definition get_fold_info : M (list FoldInfoRow) :=
  self <- get_self ;;
  ret (map (fun item =>
              let fold_info := snd item in
              mkFoldInfoRow (start (train_timerange fold_info))
                            (end_ (train_timerange fold_info))
                            (start (test_timerange fold_info))
                            (end_ (test_timerange fold_info))
                            (fst item))
           (_folds self)).

(** A row of the metrics frame: the segment, the metric columns (a
    missing value is [None]) and the fold number. *)
Record MetricsRow : Set := mkMetricsRow {
  row_segment : string;
  row_values : list (string * option Q);
  row_fold_number : Z
}.

(** A row after [groupby("segment").mean()] and the drop of the fold
    column. *)
Record AggregatedRow : Set := mkAggregatedRow {
  agg_segment : string;
  agg_values : list (string * option Q)
}.

Inductive MetricsTable : Set :=
| PerFold (rows : list MetricsRow)
| Aggregated (rows : list AggregatedRow).

(** The index of [pd.DataFrame(fold["metrics"])]: the segments of the
    inner dicts. *)
Definition fold_segments (fm : list (string * SegmentValues)) : list string :=
  Py.unique (flat_map (fun md => map fst (snd md)) fm).

(** [pd.DataFrame(fold["metrics"]).reset_index().rename(...)] with the
    fold column set to [i]. *)
Definition fold_metrics_frame (i : Z) (fold : FoldResult) : list MetricsRow :=
  map (fun s =>
         mkMetricsRow s
           (map (fun md => (fst md, Py.dict_get String.eqb (snd md) s))
                (fold_metrics fold))
           i)
      (fold_segments (fold_metrics fold)).

(** Segment names are compared as Python compares strings, character
    code by character code. *)
Lemma segment_lt_irrefl (a : string) : ~ String_as_OT.lt a a.
Proof.
  exact (@StrictOrder_Irreflexive _ _ String_as_OT.lt_strorder a).
Qed.

Lemma segment_lt_trans (a b c : string) :
  String_as_OT.lt a b -> String_as_OT.lt b c -> String_as_OT.lt a c.
Proof.
  exact (@StrictOrder_Transitive _ _ String_as_OT.lt_strorder a b c).
Qed.

(** The order of [sort_values(["segment", "fold_number"])]. *)
Definition row_leb (a b : MetricsRow) : bool :=
  match String_as_OT.compare (row_segment a) (row_segment b) with
  | Lt => true
  | Gt => false
  | Eq => row_fold_number a <=? row_fold_number b
  end.

Lemma row_leb_total (a b : MetricsRow) :
  row_leb a b = true \/ row_leb b a = true.
Proof.
  unfold row_leb.
  destruct (String_as_OT.compare_spec (row_segment a) (row_segment b)) as [E | L | L].
  - rewrite E.
    destruct (String_as_OT.compare_spec (row_segment b) (row_segment b)) as [_ | L | L];
      try (destruct (segment_lt_irrefl _ L)).
    rewrite !Z.leb_le. lia.
  - now left.
  - right.
    destruct (String_as_OT.compare_spec (row_segment b) (row_segment a)) as [E | L' | L'];
      [rewrite E in L; destruct (segment_lt_irrefl _ L) | reflexivity |].
    destruct (segment_lt_irrefl (row_segment a)).
    eapply segment_lt_trans; eauto.
Qed.

Module RowOrder <: TotalLeBool.
Definition t : Type := MetricsRow.
Definition leb : t -> t -> bool := row_leb.
Definition leb_total : forall a b, leb a b = true \/ leb b a = true :=
  row_leb_total.
End RowOrder.

Module RowSort := Sort RowOrder.

(** The metric columns of the concatenated frame: the metric names of
    the folds, each once, in the order in which they come up. *)
Definition metric_columns (store : list (Z * FoldResult)) : list string :=
  Py.unique (flat_map (fun item => map fst (fold_metrics (snd item))) store).

(** The observed values of one column (pandas' [mean] skips missing
    values). *)
Definition observed (rows : list MetricsRow) (m : string) : list Q :=
  flat_map (fun r =>
              match Py.dict_get String.eqb (row_values r) m with
              | Some (Some v) => [v]
              | _ => []
              end) rows.

Definition Qsum (l : list Q) : Q := fold_right Qplus 0%Q l.

(** The arithmetic mean; no value for no observations. *)
Definition mean (l : list Q) : option Q :=
  match l with
  | [] => None
  | _ => Some (Qsum l / inject_Z (Z.of_nat (List.length l)))%Q
  end.

Definition group_rows (rows : list MetricsRow) (s : string) : list MetricsRow :=
  filter (fun r => String.eqb (row_segment r) s) rows.

(** [groupby("segment").mean().reset_index().drop("fold_number", axis=1)]
    on a frame already sorted by segment: one row per group, groups in the
    order of the frame, one mean per metric column. *)
Definition groupby_mean (columns : list string) (rows : list MetricsRow)
  : list AggregatedRow :=
  map (fun s =>
         mkAggregatedRow s
           (map (fun m => (m, mean (observed (group_rows rows s) m))) columns))
      (Py.unique (map row_segment rows)).

(** [get_metrics]: with nothing stored the frame has no column to sort
    by and [sort_values] raises [KeyError]. *)
Definition get_metrics (aggregate_metrics : bool) : M MetricsTable :=
  self <- get_self ;;
  let metrics_df :=
    flat_map (fun item => fold_metrics_frame (fst item) (snd item)) (_folds self) in
  match _folds self with
  | [] => raise (KeyError "segment")
  | _ :: _ =>
      let metrics_df := RowSort.sort metrics_df in
      if aggregate_metrics
      then ret (Aggregated (groupby_mean (metric_columns (_folds self)) metrics_df))
      else ret (PerFold metrics_df)
  end.

(** ** [backtest] *)

(** One task of the [Parallel] call: the generator's next fold, then
    [_run_fold] on it. *)
Definition fold_task (env : Collaborators) (ts : TSDataset)
    (transforms : list Transform) (task : Z * Z) : M (Z * FoldResult) :=
  views <- generate_fold env ts transforms (snd task) ;;
  _run_fold (fst (fst views)) (snd (fst views)) (snd views) (fst task).

(** [Parallel(...)(...)] gives the list of the tasks' results in the
    order of the tasks, or raises when a task raises.  The tasks are run
    here one after the other, each as soon as the generator has yielded
    its fold, which is what the call does with one job; [n_jobs] goes to
    joblib and is not read otherwise. *)
Definition backtest (env : Collaborators) (ts : TSDataset)
    (transforms : list Transform)
  : M (MetricsTable * list FrameRow * list FoldInfoRow) :=
  _validate_features env ts ;;;
  self <- get_self ;;
  folds <- for_collect (fold_task env ts transforms)
             (Py.enumerate (Py.range_down (n_folds self))) ;;
  for_each folds (fun it => store_fold (fst it) (snd it)) ;;;
  metrics_df <- get_metrics false ;;
  forecast_df <- get_forecasts ;;
  fold_info_df <- get_fold_info ;;
  ret (metrics_df, forecast_df, fold_info_df).

(** ** What the validation is about *)

(** The series has a missing value among its last [n] points: at a
    position [p] of the series with [len - n <= p]. *)
Definition missing_in_last (series : list cell) (n : Z) : Prop :=
  exists (p : nat) (c : cell),
    nth_error series p = Some c /\ isna c = true /\
    Z.of_nat (List.length series) - n <= Z.of_nat p.

(** The target series of the segment has a missing value among its last
    [horizon * n_folds] points. *)
Definition deficient (self : TimeSeriesCrossValidation) (ts : TSDataset)
    (segment : string) : Prop :=
  exists series,
    get_column ts (segment, "target") = Some series /\
    missing_in_last series (horizon self * n_folds self).

(** The outcome of the check of one segment. *)
Definition validate_outcome (self : TimeSeriesCrossValidation)
    (ts : TSDataset) (segment : string) : Res unit :=
  match get_column ts (segment, "target") with
  | None => Raise (KeyError segment)
  | Some segment_target =>
      if existsb isna (tail segment_target (horizon self * n_folds self))
      then Raise (ValueError (NotEnoughTimestamps (horizon self) (n_folds self)
                                (horizon self * n_folds self) segment))
      else Ok tt
  end.

(** A computation that leaves the object [self] as it found it (it may
    still call collaborators). *)
Definition keeps_self {A : Type} (m : M A) : Prop :=
  forall w, this (snd (m w)) = this w.

(** The tasks that [backtest] hands to [Parallel]: (fold number, offset). *)
Definition fold_tasks (self : TimeSeriesCrossValidation) : list (Z * Z) :=
  Py.enumerate (Py.range_down (n_folds self)).


(** A forecast that [get_forecasts] cannot tag: it has no row and lacks
    the fold column of one of its segments. *)
Definition untaggable (col : string) (f : TSDataset) : Prop :=
  index f = [] /\
  exists s, In s (segments f) /\ get_column f (s, col) = None.

(** ** The states of the object *)

(** The worlds that the constructor, [backtest] and the three queries can
    produce, whatever the dataset and the collaborators do. *)
Inductive reachable : World -> Prop :=
| reach_init model0 h ms k m j self :
    __init__ model0 h ms k m j = Ok self -> reachable (mkWorld self [])
| reach_backtest env ts transforms w :
    reachable w -> reachable (snd (backtest env ts transforms w))
| reach_get_metrics b w :
    reachable w -> reachable (snd (get_metrics b w))
| reach_get_forecasts w :
    reachable w -> reachable (snd (get_forecasts w))
| reach_get_fold_info w :
    reachable w -> reachable (snd (get_fold_info w)).


(** ** What the metrics table is about *)






(** Equal as rationals, or both missing. *)
Definition option_Qeq (a b : option Q) : Prop :=
  match a, b with
  | Some x, Some y => (x == y)%Q
  | None, None => True
  | _, _ => False
  end.


(** ** Collaborators for the concrete runs below *)

Definition constant_metric (name : string) (v : Q) : Metric :=
  mkMetric name per_segment (fun _ _ => Ok [("a"%string, v); ("b"%string, v)]).

(** A model whose forecast is the frame it is given. *)
Definition idle_model : Model :=
  mkModel (fun _ => Ok (fun base => Ok base)).

(** A model whose [fit] raises. *)
Definition failing_model : Model :=
  mkModel (fun _ => Raise (CollaboratorError "fit")).

(** The rows of a dataset between two time stamps. *)
Definition slice_ts (ts : TSDataset) (lo hi : timestamp) : TSDataset :=
  let keep := fun t => ((lo <=? t) && (t <=? hi))%bool in
  mkTS (filter keep (index ts))
       (map (fun c => (fst c,
                       map snd (filter (fun p => keep (fst p))
                                       (combine (index ts) (snd c)))))
            (columns ts)).

(** The next [steps] time stamps after the dataset, with no values. *)
Definition future_ts (ts : TSDataset) (steps : Z) : TSDataset :=
  let last := match Py.list_max (index ts) with Some t => t | None => 0 end in
  mkTS (map (fun i => last + Z.of_nat i) (seq 1 (Z.to_nat steps)))
       (map (fun c => (fst c, repeat NaN (Z.to_nat steps))) (columns ts)).

Definition demo_env : Collaborators :=
  mkCollab
    (fun ts times =>
       Ok (slice_ts ts (min_train times) (max_train times),
           slice_ts ts (min_test times) (max_test times)))
    (fun ts transforms =>
       fold_left (fun acc tr => match acc with Ok d => tr d | Raise e => Raise e end)
                 transforms (Ok ts))
    (fun ts steps => Ok (future_ts ts steps))
    (fun l => rev (Py.unique l)).

(** Two segments over six time stamps, fully observed. *)
Definition demo_ts : TSDataset :=
  mkTS [10; 11; 12; 13; 14; 15]
       [(("a", "target"), [Flt 1; Flt 2; Flt 3; Flt 4; Flt 5; Flt 6]);
        (("b", "target"), [Flt 6; Flt 5; Flt 4; Flt 3; Flt 2; Flt 1])].

(** The same with a hole in segment "b", one point before the end. *)
Definition demo_ts_gap : TSDataset :=
  mkTS [10; 11; 12; 13; 14; 15]
       [(("a", "target"), [Flt 1; Flt 2; Flt 3; Flt 4; Flt 5; Flt 6]);
        (("b", "target"), [Flt 6; Flt 5; Flt 4; Flt 3; NaN; Flt 1])].

Definition demo_metrics : list Metric := [constant_metric "MAE" 1%Q].

(** The object that [__init__] builds from [idle_model], [demo_metrics],
    one job and the given policy, fold count and horizon. *)
Definition demo_cv (md : CrossValidationMode) (k h : Z)
  : TimeSeriesCrossValidation :=
  mkCV idle_model h 1 k demo_metrics md
       (match md with expand => 0 | constant => 1 end) "fold_number" [].

(** A fresh object with two folds of horizon 2, nothing called yet, and
    the same with a model that cannot be fitted. *)
Definition demo_world : World := mkWorld (demo_cv expand 2 2) [].

Definition failing_world : World :=
  mkWorld (mkCV failing_model 2 1 2 demo_metrics expand 0 "fold_number" []) [].

(** A model whose forecast has one segment and no row. *)
Definition rowless_model : Model :=
  mkModel (fun _ => Ok (fun _ => Ok (mkTS [] [(("a", "target"), [])]))).

(** ** Casings of a policy name *)

(** [str.upper()] on one character, for the letters [a]..[z]. *)
Definition upper_char (c : ascii) : ascii :=
  let n := nat_of_ascii c in
  if (Nat.leb 97 n && Nat.leb n 122)%bool then ascii_of_nat (n - 32) else c.

(** [s] is a casing of the lower-case name [t]: same length, and every
    character of [s] is the character of [t] at that place or its
    upper-case form. *)
Fixpoint is_casing_of (s t : string) : bool :=
  match s, t with
  | EmptyString, EmptyString => true
  | String a s', String b t' =>
      ((Ascii.eqb a b || Ascii.eqb a (upper_char b)) && is_casing_of s' t')%bool
  | _, _ => false
  end.

(** A test on every character, by enumeration of the 256 codes. *)
Definition forall_ascii (p : ascii -> bool) : bool :=
  forallb (fun n => p (ascii_of_nat n)) (seq 0 256).

(** On a character [b] that [lower_char] leaves alone, the characters
    that lower to [b] are [b] and its upper-case form. *)
Definition lower_char_casing_check (a b : ascii) : bool :=
  implb (Ascii.eqb (Py.lower_char b) b)
        (Bool.eqb (Ascii.eqb (Py.lower_char a) b)
                  (Ascii.eqb a b || Ascii.eqb a (upper_char b))).

(** ** Change-point intervals: [BaseChangePointsModelAdapter] *)

(** Change points are time stamps or integers; both are ordered like
    [Z]. *)
Lemma Z_leb_total (a b : Z) : Z.leb a b = true \/ Z.leb b a = true.
Proof. rewrite !Z.leb_le. lia. Qed.

Module ZOrder <: TotalLeBool.
Definition t : Type := Z.
Definition leb : t -> t -> bool := Z.leb.
Definition leb_total : forall a b, leb a b = true \/ leb b a = true :=
  Z_leb_total.
End ZOrder.

Module ZSort := Sort ZOrder.

Module ChangePoints.

(** [sorted(change_points)]: a stable merge sort, ascending. *)
Definition sorted (l : list Z) : list Z := ZSort.sort l.

(** A stable interval: [None] is the open end of the axis. *)
Definition TTimestampInterval : Set := (option Z * option Z)%type.

(** [l[:-1]] and [l[1:]]. *)
Definition slice_but_last {A : Type} (l : list A) : list A := removelast l.
Definition slice_from_1 {A : Type} (l : list A) : list A := tl l.

Definition _build_intervals (change_points : list Z) : list TTimestampInterval :=
  let change_points := [None] ++ map Some (sorted change_points) ++ [None] in
  combine (slice_but_last change_points) (slice_from_1 change_points).

(** An interval between two equal boundary points.  [(None, None)], the
    whole axis for an empty input, is not one. *)
Definition zero_length (iv : TTimestampInterval) : bool :=
  match iv with
  | (Some a, Some b) => a =? b
  | _ => false
  end.

(** Two neighbours of a list are equal. *)
Fixpoint has_adjacent_equal (l : list Z) : bool :=
  match l with
  | x :: (y :: _) as r => (x =? y) || has_adjacent_equal r
  | _ => false
  end.

(** The pairing of [_build_intervals], by recursion on the sorted
    boundaries, with the left end of the first interval as argument. *)
Fixpoint intervals_from (left : option Z) (l : list Z) : list TTimestampInterval :=
  match l with
  | [] => [(left, None)]
  | x :: r => (left, Some x) :: intervals_from (Some x) r
  end.

End ChangePoints.

(** The adapter class: [get_change_points] is its abstract method (an
    implementation may raise), [get_change_points_intervals] is derived
    from it. *)
Record BaseChangePointsModelAdapter (DataFrame : Type) : Type := mkAdapter {
  get_change_points : DataFrame -> string -> Res (list Z)
}.
Arguments get_change_points {DataFrame} _ _ _.

Definition get_change_points_intervals {DataFrame : Type}
    (self : BaseChangePointsModelAdapter DataFrame)
    (df : DataFrame) (in_column : string)
  : Res (list ChangePoints.TTimestampInterval) :=
  match get_change_points self df in_column with
  | Raise e => Raise e
  | Ok change_points => Ok (ChangePoints._build_intervals change_points)
  end.

(** A point of the axis lies in an interval: at or after its left
    boundary and before its right one, an open end bounding nothing. *)
Definition lower_ok (left : option Z) (x : Z) : bool :=
  match left with None => true | Some a => a <=? x end.

Definition upper_ok (right : option Z) (x : Z) : bool :=
  match right with None => true | Some b => x <? b end.

Definition covers (x : Z) (iv : ChangePoints.TTimestampInterval) : bool :=
  (lower_ok (fst iv) x && upper_ok (snd iv) x)%bool.

(** An adapter whose detector gives the same answer for every frame. *)
Definition fixed_adapter (answer : Res (list Z)) : BaseChangePointsModelAdapter unit :=
  mkAdapter unit (fun _ _ => answer).

(** ** More about the planner *)

(** Every time-stamp lookup of every fold lands inside the axis (after
    Python's wrap of negative indices): the condition on the fold count
    [k], the horizon [h], the axis length [n] and the policy. *)
Definition lookups_in_axis (md : CrossValidationMode) (k h n : Z) : Prop :=
  k * h + 1 <= 2 * n /\
  (md = constant -> (k - 1) * h <= n - 1).

(** A metric in an aggregate mode, for the concrete runs. *)
Definition macro_metric (name : string) : Metric :=
  mkMetric name macro (fun _ _ => Ok []).

(** ** More about the fold runner *)

(** The dict after the metric loop when every call returns, [val] giving
    what each metric returns. *)
Definition metrics_dict (val : Metric -> SegmentValues) (ms : list Metric)
    (acc : list (string * SegmentValues)) : list (string * SegmentValues) :=
  fold_left (fun a mt => Py.dict_set String.eqb a (class_name mt) (val mt)) ms acc.

(** The metric calls of one fold, in order. *)
Definition metric_calls (self : TimeSeriesCrossValidation) : list Call :=
  map (fun mt => CallMetric (class_name mt)) (metrics self).

(** The collaborator calls of one fold that runs to its end. *)
Definition task_calls (self : TimeSeriesCrossValidation) : list Call :=
  [CallSplit; CallFitTransform; CallMakeFuture; CallFit; CallForecast]
  ++ metric_calls self.

(** The fold numbers of a run with [k] folds: 0, 1, ..., k-1. *)
Definition fold_numbers (k : Z) : list Z :=
  map Z.of_nat (seq 0 (Z.to_nat k)).

(** Two metrics of one class, for the concrete runs. *)
Definition two_of_a_class : list Metric :=
  [mkMetric "MAE" per_segment (fun _ _ => Ok [("a", 1%Q)]);
   mkMetric "MSE" per_segment (fun _ _ => Ok [("a", 2%Q)]);
   mkMetric "MAE" per_segment (fun _ _ => Ok [("a", 3%Q)])].

(** What each of them returns, read off its class name and the value it
    gives for segment "a". *)
Definition two_of_a_class_values (mt : Metric) : SegmentValues :=
  match call mt (mkTS [] []) (mkTS [] []) with
  | Ok v => v
  | Raise _ => []
  end.

(** ** More about [backtest] *)

(** The store after [for i, fold in folds: self._folds[i] = fold]. *)
Definition store_all (folds : list (Z * FoldResult)) (d : list (Z * FoldResult))
  : list (Z * FoldResult) :=
  fold_left (fun acc it => Py.dict_set Z.eqb acc (fst it) (snd it)) folds d.

(** The last three statements of [backtest] before its [return]. *)
Definition final_queries : M (MetricsTable * list FrameRow * list FoldInfoRow) :=
  metrics_df <- get_metrics false ;;
  forecast_df <- get_forecasts ;;
  fold_info_df <- get_fold_info ;;
  ret (metrics_df, forecast_df, fold_info_df).

Definition is_fit (c : Call) : bool :=
  match c with CallFit => true | _ => false end.

(** The row of the fold information frame for one stored fold. *)
Definition fold_info_row (item : Z * FoldResult) : FoldInfoRow :=
  mkFoldInfoRow (start (train_timerange (snd item)))
                (end_ (train_timerange (snd item)))
                (start (test_timerange (snd item)))
                (end_ (test_timerange (snd item)))
                (fst item).

(** The frame of all stored folds' metrics, before sorting. *)
Definition metrics_frame (store : list (Z * FoldResult)) : list MetricsRow :=
  flat_map (fun item => fold_metrics_frame (fst item) (snd item)) store.

(** ** More about the queries *)

(** What [get_forecasts] does to one stored fold: the key, the time
    ranges, the metrics, the index and the segments of the forecast stay;
    for each segment the fold column holds the fold number on every row;
    every other column stays. *)
Definition fold_tagged (col : string) (before after : Z * FoldResult) : Prop :=
  fst after = fst before /\
  train_timerange (snd after) = train_timerange (snd before) /\
  test_timerange (snd after) = test_timerange (snd before) /\
  fold_metrics (snd after) = fold_metrics (snd before) /\
  index (forecast (snd after)) = index (forecast (snd before)) /\
  segments (forecast (snd after)) = segments (forecast (snd before)) /\
  (forall s, In s (segments (forecast (snd before))) ->
     get_column (forecast (snd after)) (s, col)
     = Some (repeat (Int (fst before))
                    (List.length (index (forecast (snd before)))))) /\
  (forall key,
     (forall s, In s (segments (forecast (snd before))) -> key <> (s, col)) ->
     get_column (forecast (snd after)) key
     = get_column (forecast (snd before)) key).

(** A store with one fold whose forecast no query has read yet. *)
Definition fresh_fold : FoldResult :=
  mkFold (mkTimerange (Some 10) (Some 13)) (mkTimerange (Some 14) (Some 15))
         (mkTS [14; 15] [(("a", "target"), [Flt 1; Flt 2]);
                         (("b", "target"), [Flt 3; Flt 4])])
         [("MAE", [("b", 2%Q); ("a", 1%Q)])].

Definition fresh_store_world : World :=
  mkWorld (with_folds (demo_cv expand 2 2) [(0, fresh_fold)]) [].



(** An object that holds one fold and whose model cannot be fitted. *)
Definition failing_store_world : World :=
  mkWorld (with_folds (this failing_world) [(0, fresh_fold)]) [].



(* ================================================================== *)
(** * Properties *)
(* ================================================================== *)

(** ** The constructor *)

Lemma init_inv model0 h ms k m j self :
  __init__ model0 h ms k m j = Ok self ->
  1 <= n_folds self /\ n_folds self = k /\ horizon self = h /\
  metrics self = ms /\ ms <> [] /\ _folds self = [] /\
  CrossValidationMode_getitem (Py.lower m) = Ok (mode self) /\
  _constant_history_length self =
    match mode self with expand => 0 | constant => 1 end.
Proof.
  unfold __init__.
  destruct (Z.ltb_spec k 1) as [Hk | Hk]; [discriminate |].
  destruct ms as [| m0 ms']; [discriminate |].
  destruct (check_metrics (m0 :: ms')); [| discriminate].
  destruct (CrossValidationMode_getitem (Py.lower m)) as [md |]; [| discriminate].
  intros H; injection H as <-; cbn.
  repeat split; try lia; try reflexivity; discriminate.
Qed.

Lemma chl_cases model0 h ms k m j self :
  __init__ model0 h ms k m j = Ok self ->
  _constant_history_length self = 0 \/ _constant_history_length self = 1.
Proof.
  intros H. apply init_inv in H.
  destruct H as (_ & _ & _ & _ & _ & _ & _ & Hc).
  rewrite Hc. destruct (mode self); auto.
Qed.

(** ** [range(n_folds, 0, -1)] *)

Lemma countdown_length n : List.length (Py.countdown n) = n.
Proof. induction n; cbn [Py.countdown List.length]; congruence. Qed.

Lemma countdown_nth n i :
  (i < n)%nat ->
  nth_error (Py.countdown n) i = Some (Z.of_nat n - Z.of_nat i).
Proof.
  revert i; induction n as [| n IH]; intros i Hi; [lia |].
  destruct i as [| i].
  - cbn [Py.countdown nth_error]. f_equal; lia.
  - cbn [Py.countdown nth_error]. rewrite IH by lia. f_equal; lia.
Qed.

Lemma plan_length self N :
  List.length (plan self N) = Z.to_nat (n_folds self).
Proof.
  unfold plan, Py.range_down. now rewrite length_map, countdown_length.
Qed.

(** Fold number [i] (counting from 0) is computed at offset [K - i]. *)
Lemma plan_nth self N i b :
  nth_error (plan self N) i = Some b ->
  Z.of_nat i < n_folds self /\
  b = fold_bounds self N (n_folds self - Z.of_nat i).
Proof.
  intros H.
  assert (Hlt : (i < Z.to_nat (n_folds self))%nat).
  { rewrite <- (plan_length self N). apply nth_error_Some. congruence. }
  unfold plan, Py.range_down in H.
  rewrite nth_error_map, (countdown_nth _ _ Hlt) in H.
  cbn in H. injection H as <-. split; [lia |]. f_equal. lia.
Qed.

Lemma plan_In self N b :
  In b (plan self N) ->
  exists i, nth_error (plan self N) i = Some b.
Proof. intros H. apply In_nth_error in H. exact H. Qed.

(** ** Python indexing and the [for] loop *)

Lemma getitem_in_range (l : list timestamp) i :
  0 <= i < Z.of_nat (List.length l) -> exists t, Py.getitem l i = Some t.
Proof.
  intros [H0 H1]. unfold Py.getitem.
  destruct (Z.leb_spec 0 i); [| lia].
  destruct (Z.ltb_spec i (Z.of_nat (List.length l))); [| lia].
  destruct (nth_error l (Z.to_nat i)) eqn:E; [eauto |].
  apply nth_error_None in E. lia.
Qed.

Lemma getitem_negative (l : list timestamp) i :
  - Z.of_nat (List.length l) <= i < 0 ->
  Py.getitem l i = nth_error l (Z.to_nat (i + Z.of_nat (List.length l))).
Proof.
  intros [H0 H1]. unfold Py.getitem.
  destruct (Z.leb_spec 0 i); [lia |].
  destruct (Z.leb_spec (- Z.of_nat (List.length l)) i); [reflexivity | lia].
Qed.

Lemma mapM_all_ok {A B : Type} (f : A -> Res B) (l : list A) :
  (forall x, In x l -> exists y, f x = Ok y) ->
  exists ys, mapM f l = Ok ys /\ List.length ys = List.length l.
Proof.
  induction l as [| x r IH]; intros H.
  - exists []. split; reflexivity.
  - destruct (H x (or_introl eq_refl)) as [y Hy].
    destruct IH as (ys & Hys & Hlen).
    { intros z Hz. apply H. now right. }
    exists (y :: ys). cbn. rewrite Hy, Hys. split; [reflexivity |].
    cbn. now rewrite Hlen.
Qed.

(** ** The fold planner *)

Ltac planner_arith :=
  unfold train_overlaps_test, ranges_overlap, in_range, range_len,
         fold_bounds in *; cbn in *; try nia.

(** With strictly more than [K*H] points every index the planner computes
    is a position of the axis and every train range is non-empty. *)
Lemma plan_indices_valid model0 h ms k m j self N b :
  __init__ model0 h ms k m j = Ok self ->
  1 <= h -> k * h < N ->
  In b (plan self N) ->
  0 <= min_train_idx b <= max_train_idx b /\
  max_train_idx b < min_test_idx b <= max_test_idx b /\
  max_test_idx b <= N - 1.
Proof.
  intros Hinit Hh HN Hb.
  pose proof (chl_cases _ _ _ _ _ _ _ Hinit) as Hc.
  apply init_inv in Hinit. destruct Hinit as (HK & <- & <- & _).
  apply plan_In in Hb. destruct Hb as [i Hi].
  apply plan_nth in Hi. destruct Hi as [Hi ->].
  destruct Hc as [Hc | Hc]; planner_arith.
Qed.

(** C1 (as amended): under both policies and for [N > K*H], the train
    range of a fold and the test range of the same fold or of any later
    fold are non-empty ranges of positions of the axis (so the time-stamp
    lookups read exactly these positions), and they share no position. *)
Theorem C1_train_disjoint_from_own_and_later_tests
    model0 h ms k m j self N i1 i2 a b :
  __init__ model0 h ms k m j = Ok self ->
  1 <= h -> k * h < N ->
  nth_error (plan self N) i1 = Some a ->
  nth_error (plan self N) i2 = Some b ->
  (i1 <= i2)%nat ->
  (0 <= min_train_idx a <= max_train_idx a /\ max_train_idx a <= N - 1) /\
  (0 <= min_test_idx b <= max_test_idx b /\ max_test_idx b <= N - 1) /\
  ~ train_overlaps_test a b.
Proof.
  intros Hinit Hh HN Ha Hb Hle.
  pose proof (plan_indices_valid _ _ _ _ _ _ _ N a Hinit Hh HN
                (nth_error_In _ _ Ha)) as (Ha1 & Ha2 & Ha3).
  pose proof (plan_indices_valid _ _ _ _ _ _ _ N b Hinit Hh HN
                (nth_error_In _ _ Hb)) as (Hb1 & Hb2 & Hb3).
  split; [lia | split; [lia |]].
  apply init_inv in Hinit. destruct Hinit as (HK & <- & <- & _).
  apply plan_nth in Ha. destruct Ha as [Hi1 ->].
  apply plan_nth in Hb. destruct Hb as [Hi2 ->].
  intros (x & [Hx1 Hx2] & [Hx3 Hx4]). planner_arith.
Qed.

(** C5: for [N >= K*H] the planner yields exactly [K] folds (no index
    lookup fails); every test range has length [H] and lies inside
    [0..N-1]; the test range of an earlier fold ends before the test range
    of a later fold starts, so test ranges are pairwise disjoint; and the
    last test range ends at [N-1], which no test range exceeds. *)
Theorem C5_test_windows model0 h ms k m j self (timestamps : list timestamp) :
  __init__ model0 h ms k m j = Ok self ->
  1 <= h -> k * h <= Z.of_nat (List.length timestamps) ->
  let N := Z.of_nat (List.length timestamps) in
  let folds := plan self N in
  (exists times, generate_fold_times self timestamps = Ok times /\
                 Z.of_nat (List.length times) = k) /\
  Z.of_nat (List.length folds) = k /\
  (forall b, In b folds ->
     range_len (min_test_idx b) (max_test_idx b) = h /\
     0 <= min_test_idx b /\ max_test_idx b <= N - 1) /\
  (forall i1 i2 a b,
     nth_error folds i1 = Some a -> nth_error folds i2 = Some b ->
     (i1 < i2)%nat -> max_test_idx a < min_test_idx b) /\
  (forall i1 i2 a b,
     nth_error folds i1 = Some a -> nth_error folds i2 = Some b ->
     i1 <> i2 ->
     ~ ranges_overlap (min_test_idx a) (max_test_idx a)
                      (min_test_idx b) (max_test_idx b)) /\
  (exists b, nth_error folds (Z.to_nat (k - 1)) = Some b /\
             max_test_idx b = N - 1).
Proof.
  intros Hinit Hh HN N folds.
  pose proof (chl_cases _ _ _ _ _ _ _ Hinit) as Hc.
  apply init_inv in Hinit. destruct Hinit as (HK & HKk & Hhh & _).
  subst k h.
  assert (Hlen : Z.of_nat (List.length folds) = n_folds self).
  { unfold folds. rewrite plan_length. lia. }
  assert (Hbound : forall b, In b folds ->
     range_len (min_test_idx b) (max_test_idx b) = horizon self /\
     0 <= min_test_idx b /\ max_test_idx b <= N - 1).
  { intros b Hb. apply plan_In in Hb. destruct Hb as [i Hi].
    apply plan_nth in Hi. destruct Hi as [Hi ->]. planner_arith. }
  assert (Hinc : forall i1 i2 a b,
     nth_error folds i1 = Some a -> nth_error folds i2 = Some b ->
     (i1 < i2)%nat -> max_test_idx a < min_test_idx b).
  { intros i1 i2 a b Ha Hb Hlt.
    apply plan_nth in Ha. destruct Ha as [Hi1 ->].
    apply plan_nth in Hb. destruct Hb as [Hi2 ->]. planner_arith. }
  split; [| split; [exact Hlen | split; [exact Hbound | split; [exact Hinc | split]]]].
  - unfold generate_fold_times. fold N. fold folds.
    destruct (mapM_all_ok (fold_times timestamps) folds) as (ts & Hts & Hl).
    + intros b Hb. apply plan_In in Hb. destruct Hb as [i Hi].
      apply plan_nth in Hi. destruct Hi as [Hi ->].
      assert (Hget : forall x, - N <= x < N ->
                exists t, index_or_raise timestamps x = Ok t).
      { intros x Hx. unfold index_or_raise.
        destruct (Z.neg_nonneg_cases x) as [Hneg | Hpos].
        - rewrite getitem_negative by (fold N; lia).
          destruct (nth_error timestamps _) eqn:E; [eauto |].
          apply nth_error_None in E. fold N in E. lia.
        - destruct (getitem_in_range timestamps x) as [t ->]; [fold N; lia | eauto]. }
      unfold fold_times.
      destruct (Hget (min_train_idx (fold_bounds self N (n_folds self - Z.of_nat i)))) as [t1 ->].
      { destruct Hc as [Hc | Hc]; planner_arith. }
      destruct (Hget (max_train_idx (fold_bounds self N (n_folds self - Z.of_nat i)))) as [t2 ->].
      { planner_arith. }
      destruct (Hget (min_test_idx (fold_bounds self N (n_folds self - Z.of_nat i)))) as [t3 ->].
      { planner_arith. }
      destruct (Hget (max_test_idx (fold_bounds self N (n_folds self - Z.of_nat i)))) as [t4 ->].
      { planner_arith. }
      eauto.
    + exists ts. split; [exact Hts |]. rewrite Hl. exact Hlen.
  - intros i1 i2 a b Ha Hb Hne (x & [Hx1 Hx2] & [Hx3 Hx4]).
    destruct (Nat.lt_total i1 i2) as [Hlt | [Heq | Hgt]]; [| contradiction |].
    + pose proof (Hinc _ _ _ _ Ha Hb Hlt). lia.
    + pose proof (Hinc _ _ _ _ Hb Ha Hgt). lia.
  - destruct (nth_error folds (Z.to_nat (n_folds self - 1))) as [b |] eqn:E.
    + exists b. split; [reflexivity |].
      apply plan_nth in E. destruct E as [_ ->]. planner_arith.
    + apply nth_error_None in E. lia.
Qed.

(** Where the statement of C6 holds.  For [N >= K*H], under the
    expanding policy every train range starts at index 0 and under the
    constant policy the train start of a fold is the train start of the
    fold before it plus [H]; with strictly more than [K*H] points the
    train ranges of the constant policy are ranges of positions of the
    axis, all of the length [N - K*H]. *)
Lemma train_start_policies model0 h ms k m j self N :
  __init__ model0 h ms k m j = Ok self ->
  1 <= h -> k * h <= N ->
  (mode self = expand ->
     forall b, In b (plan self N) -> min_train_idx b = 0) /\
  (mode self = constant ->
     (forall i a b,
        nth_error (plan self N) i = Some a ->
        nth_error (plan self N) (S i) = Some b ->
        min_train_idx b = min_train_idx a + h) /\
     (k * h < N ->
      forall a, In a (plan self N) ->
        0 <= min_train_idx a <= max_train_idx a /\ max_train_idx a <= N - 1 /\
        range_len (min_train_idx a) (max_train_idx a) = N - k * h)).
Proof.
  intros Hinit Hh HN.
  pose proof (fun b HN' => plan_indices_valid _ _ _ _ _ _ _ N b Hinit Hh HN') as Hvalid.
  apply init_inv in Hinit.
  destruct Hinit as (HK & <- & <- & _ & _ & _ & _ & Hc).
  split; intros Hm; rewrite Hm in Hc.
  - intros b Hb. apply plan_In in Hb. destruct Hb as [i Hi].
    apply plan_nth in Hi. destruct Hi as [_ ->].
    planner_arith.
  - split.
    + intros i a b Ha Hb.
      apply plan_nth in Ha. destruct Ha as [_ ->].
      apply plan_nth in Hb. destruct Hb as [_ ->].
      planner_arith.
    + intros HN' a Ha.
      destruct (Hvalid a HN' Ha) as (H1 & H2 & H3).
      split; [exact H1 | split; [lia |]].
      apply plan_In in Ha. destruct Ha as [i Hi].
      apply plan_nth in Hi. destruct Hi as [Hi ->].
      planner_arith.
Qed.

Lemma C1_train_disjoint_witness :
  __init__ idle_model 2 demo_metrics 3 "constant" 1 = Ok (demo_cv constant 3 2) /\
  3 * 2 < 10 /\
  nth_error (plan (demo_cv constant 3 2) 10) 0 = Some (mkBounds 0 3 4 5) /\
  nth_error (plan (demo_cv constant 3 2) 10) 2 = Some (mkBounds 4 7 8 9) /\
  ~ train_overlaps_test (mkBounds 0 3 4 5) (mkBounds 4 7 8 9).
Proof.
  split; [reflexivity | split; [lia | split; [reflexivity | split; [reflexivity |]]]].
  apply (C1_train_disjoint_from_own_and_later_tests
           idle_model 2 demo_metrics 3 "constant" 1 (demo_cv constant 3 2)
           10 0%nat 2%nat (mkBounds 0 3 4 5) (mkBounds 4 7 8 9));
    [reflexivity | lia | lia | reflexivity | reflexivity | lia].
Defined.

(** C1 (as stated) fails: with 10 points, 3 folds and horizon 2 the
    second fold trains on [0..5] under the expanding policy and on
    [2..5] under the constant one, and both contain the first fold's
    test range [4..5]. *)
Lemma C1_counterexample_later_train_covers_earlier_test :
  (__init__ idle_model 2 demo_metrics 3 "expand" 1 = Ok (demo_cv expand 3 2) /\
   3 * 2 <= 10 /\
   ~ (forall a b, In a (plan (demo_cv expand 3 2) 10) ->
                  In b (plan (demo_cv expand 3 2) 10) ->
                  ~ train_overlaps_test a b)) /\
  (__init__ idle_model 2 demo_metrics 3 "constant" 1 = Ok (demo_cv constant 3 2) /\
   ~ (forall a b, In a (plan (demo_cv constant 3 2) 10) ->
                  In b (plan (demo_cv constant 3 2) 10) ->
                  ~ train_overlaps_test a b)).
Proof.
  split; [split; [reflexivity | split; [lia |]] | split; [reflexivity |]].
  - intros H.
    apply (H (mkBounds 0 5 6 7) (mkBounds 0 3 4 5));
      [vm_compute; auto | vm_compute; auto |].
    unfold train_overlaps_test, ranges_overlap, in_range; cbn.
    exists 4. lia.
  - intros H.
    apply (H (mkBounds 2 5 6 7) (mkBounds 0 3 4 5));
      [vm_compute; auto | vm_compute; auto |].
    unfold train_overlaps_test, ranges_overlap, in_range; cbn.
    exists 4. lia.
Qed.

(** C2 at its boundary: six fully observed points, 3 folds, horizon 2,
    so exactly [K*H] points.  The validation passes; the first fold gets
    [max_train_idx = -1], below its [min_train_idx = 0] and outside
    [0..5]; Python's indexing turns [-1] into the last time stamp, so the
    train view handed to the model spans the whole axis and contains the
    fold's own test window. *)
Theorem C2_first_fold_at_minimum_length :
  let w := mkWorld (demo_cv expand 3 2) [] in
  __init__ idle_model 2 demo_metrics 3 "expand" 1 = Ok (this w) /\
  n_folds (this w) * horizon (this w) <= Z.of_nat (List.length (index demo_ts)) /\
  _validate_features demo_env demo_ts w = (Ok tt, w) /\
  nth_error (plan (this w) 6) 0 = Some (mkBounds 0 (-1) 0 1) /\
  ~ (min_train_idx (mkBounds 0 (-1) 0 1) <= max_train_idx (mkBounds 0 (-1) 0 1)) /\
  ~ (0 <= max_train_idx (mkBounds 0 (-1) 0 1) <= 6 - 1) /\
  fold_times (index demo_ts) (mkBounds 0 (-1) 0 1) = Ok (mkTimes 10 15 10 11) /\
  (exists train test base w',
     generate_fold demo_env demo_ts [] 3 w = (Ok (train, test, base), w') /\
     index train = [10; 11; 12; 13; 14; 15] /\ index test = [10; 11]).
Proof.
  cbv zeta.
  split; [reflexivity |]. split; [cbn; lia |]. split; [reflexivity |].
  split; [reflexivity |]. split; [cbn; lia |]. split; [cbn; lia |].
  split; [reflexivity |].
  do 4 eexists. split; [vm_compute; reflexivity | split; reflexivity].
Qed.

Lemma C5_test_windows_witness :
  __init__ idle_model 2 demo_metrics 3 "expand" 1 = Ok (demo_cv expand 3 2) /\
  generate_fold_times (demo_cv expand 3 2) [0; 1; 2; 3; 4; 5; 6; 7; 8; 9]
    = Ok [mkTimes 0 3 4 5; mkTimes 0 5 6 7; mkTimes 0 7 8 9] /\
  exists b, nth_error (plan (demo_cv expand 3 2) 10) 2 = Some b /\
            max_test_idx b = 9.
Proof.
  split; [reflexivity | split; [reflexivity |]].
  apply (C5_test_windows idle_model 2 demo_metrics 3 "expand" 1
           (demo_cv expand 3 2) [0; 1; 2; 3; 4; 5; 6; 7; 8; 9]);
    [reflexivity | lia | cbn; lia].
Defined.

(** C6 at its boundary: six fully observed points, 3 folds, horizon 2,
    constant policy, so exactly [K*H] points.  The validation passes; the
    planner gives the train index pairs [(0,-1)], [(2,1)] and [(4,3)];
    Python's indexing turns [-1] into the last time stamp, so the first
    fold asks for the train range from the first to the last time stamp
    (all six points), while the second and the third ask for a train range
    that ends one time stamp before it starts (no point): the train ranges
    of the folds are not of one length. *)
Theorem C6_constant_policy_at_minimum_length :
  let self := demo_cv constant 3 2 in
  let w := mkWorld self [] in
  __init__ idle_model 2 demo_metrics 3 "constant" 1 = Ok self /\
  n_folds self * horizon self <= Z.of_nat (List.length (index demo_ts)) /\
  _validate_features demo_env demo_ts w = (Ok tt, w) /\
  plan self 6 = [mkBounds 0 (-1) 0 1; mkBounds 2 1 2 3; mkBounds 4 3 4 5] /\
  generate_fold_times self (index demo_ts)
  = Ok [mkTimes 10 15 10 11; mkTimes 12 11 12 13; mkTimes 14 13 14 15] /\
  (exists train0 test0 base0 w0 train1 test1 base1 w1,
     generate_fold demo_env demo_ts [] 3 w = (Ok (train0, test0, base0), w0) /\
     generate_fold demo_env demo_ts [] 2 w = (Ok (train1, test1, base1), w1) /\
     index train0 = [10; 11; 12; 13; 14; 15] /\
     index train1 = []).
Proof.
  cbv zeta.
  split; [reflexivity |]. split; [cbn; lia |]. split; [reflexivity |].
  split; [reflexivity |]. split; [reflexivity |].
  do 8 eexists.
  split; [vm_compute; reflexivity | split; [vm_compute; reflexivity |]].
  split; reflexivity.
Qed.

(** ** The policy name *)

Lemma forall_ascii_spec (p : ascii -> bool) :
  forall_ascii p = true -> forall a, p a = true.
Proof.
  unfold forall_ascii. intros H a.
  rewrite forallb_forall in H.
  rewrite <- (ascii_nat_embedding a). apply H.
  apply in_seq. pose proof (nat_ascii_bounded a). lia.
Qed.

Lemma lower_char_idem c : Py.lower_char (Py.lower_char c) = Py.lower_char c.
Proof.
  apply Ascii.eqb_eq. revert c.
  apply (forall_ascii_spec
           (fun c => Ascii.eqb (Py.lower_char (Py.lower_char c)) (Py.lower_char c))).
  vm_compute. reflexivity.
Qed.

Lemma lower_idem s : Py.lower (Py.lower s) = Py.lower s.
Proof.
  induction s as [| c s IH]; cbn [Py.lower]; [reflexivity |].
  now rewrite lower_char_idem, IH.
Qed.

Lemma lower_char_casing a b :
  Py.lower_char b = b ->
  (Py.lower_char a = b <-> a = b \/ a = upper_char b).
Proof.
  intros Hb.
  assert (Hall : lower_char_casing_check a b = true).
  { revert b Hb. revert a.
    assert (H : forall_ascii (fun a => forall_ascii (lower_char_casing_check a)) = true)
      by (vm_compute; reflexivity).
    intros a b _.
    exact (forall_ascii_spec _ (forall_ascii_spec _ H a) b). }
  unfold lower_char_casing_check in Hall.
  apply Ascii.eqb_eq in Hb. rewrite Hb in Hall. cbn [implb] in Hall.
  apply Bool.eqb_prop in Hall.
  rewrite <- Ascii.eqb_eq, Hall, orb_true_iff, !Ascii.eqb_eq. tauto.
Qed.

(** For a name [t] already in lower case, the casings of [t] are the
    strings that [lower] sends to [t]. *)
Lemma is_casing_of_lower s : forall t,
  Py.lower t = t -> (is_casing_of s t = true <-> Py.lower s = t).
Proof.
  induction s as [| a s IH]; intros [| b t] Ht; cbn [is_casing_of Py.lower];
    try (split; [discriminate | discriminate]); [tauto |].
  cbn [Py.lower] in Ht. injection Ht as Hb Ht.
  rewrite andb_true_iff, orb_true_iff, !Ascii.eqb_eq, (IH t Ht).
  pose proof (lower_char_casing a b Hb) as Hc.
  split.
  - intros [H1 H2]. f_equal; tauto.
  - intros H. injection H as H1 H2. tauto.
Qed.

(** C10: the constructor reads the policy name through [lower], so a name
    and its lower-cased form give the same result; every casing of
    "expand" selects [expand] and every casing of "constant" selects
    [constant]; and a name that is a casing of neither makes construction
    raise, with [KeyError] from the policy lookup whenever the fold count
    and the metrics pass the checks that come first. *)
Theorem C10_mode_name_case_insensitive model0 h ms k (s : string) j :
  __init__ model0 h ms k s j = __init__ model0 h ms k (Py.lower s) j /\
  (is_casing_of s "expand" = true ->
     CrossValidationMode_getitem (Py.lower s) = Ok expand /\
     forall self, __init__ model0 h ms k s j = Ok self -> mode self = expand) /\
  (is_casing_of s "constant" = true ->
     CrossValidationMode_getitem (Py.lower s) = Ok constant /\
     forall self, __init__ model0 h ms k s j = Ok self -> mode self = constant) /\
  (is_casing_of s "expand" = false -> is_casing_of s "constant" = false ->
     is_raise (__init__ model0 h ms k s j) = true /\
     (1 <= k -> ms <> [] -> check_metrics ms = Ok tt ->
      __init__ model0 h ms k s j = Raise (KeyError (Py.lower s)))).
Proof.
  split; [| split; [| split]].
  - unfold __init__. now rewrite lower_idem.
  - intros Hc. apply is_casing_of_lower in Hc; [| reflexivity].
    split; [now rewrite Hc |].
    intros self Hs. apply init_inv in Hs.
    destruct Hs as (_ & _ & _ & _ & _ & _ & Hm & _).
    rewrite Hc in Hm. cbn in Hm. congruence.
  - intros Hc. apply is_casing_of_lower in Hc; [| reflexivity].
    split; [now rewrite Hc |].
    intros self Hs. apply init_inv in Hs.
    destruct Hs as (_ & _ & _ & _ & _ & _ & Hm & _).
    rewrite Hc in Hm. cbn in Hm. congruence.
  - intros He Hc.
    assert (Hlook : CrossValidationMode_getitem (Py.lower s)
                    = Raise (KeyError (Py.lower s))).
    { unfold CrossValidationMode_getitem.
      destruct (String.eqb_spec (Py.lower s) "expand") as [E | _].
      - apply is_casing_of_lower in E; [congruence | reflexivity].
      - destruct (String.eqb_spec (Py.lower s) "constant") as [E | _];
          [| reflexivity].
        apply is_casing_of_lower in E; [congruence | reflexivity]. }
    split.
    + unfold __init__. destruct (k <? 1); [reflexivity |].
      destruct ms; [reflexivity |].
      destruct (check_metrics _); [| reflexivity].
      now rewrite Hlook.
    + intros Hk Hms Hchk. unfold __init__.
      destruct (Z.ltb_spec k 1); [lia |].
      destruct ms; [congruence |].
      now rewrite Hchk, Hlook.
Qed.

Lemma C10_mode_name_witness :
  is_casing_of "ExPand" "expand" = true /\
  __init__ idle_model 2 demo_metrics 3 "ExPand" 1 = Ok (demo_cv expand 3 2) /\
  CrossValidationMode_getitem (Py.lower "ExPand") = Ok expand /\
  is_casing_of "expanding" "expand" = false /\
  is_casing_of "expanding" "constant" = false /\
  __init__ idle_model 2 demo_metrics 3 "expanding" 1
    = Raise (KeyError "expanding").
Proof.
  pose proof (C10_mode_name_case_insensitive
                idle_model 2 demo_metrics 3 "ExPand" 1) as (_ & He & _ & _).
  pose proof (C10_mode_name_case_insensitive
                idle_model 2 demo_metrics 3 "expanding" 1) as (_ & _ & _ & Hn).
  split; [reflexivity | split; [reflexivity | split]].
  - apply He. reflexivity.
  - split; [reflexivity | split; [reflexivity |]].
    apply Hn; [reflexivity | reflexivity | lia | discriminate | reflexivity].
Defined.

(** ** Change-point intervals *)

Module ChangePointsFacts.
Import ChangePoints.

Lemma sorted_perm l : Permutation l (sorted l).
Proof. apply ZSort.Permuted_sort. Qed.

Lemma sorted_strongly l : StronglySorted Z.le (sorted l).
Proof.
  assert (H : StronglySorted (fun a b => is_true (Z.leb a b)) (sorted l)).
  { apply ZSort.StronglySorted_sort.
    intros a b c Hab Hbc. unfold is_true, ZOrder.leb in *.
    rewrite Z.leb_le in *. lia. }
  induction H as [| x r Hr IH Hall]; constructor; [exact IH |].
  eapply Forall_impl; [| exact Hall].
  intros y Hy. now apply Z.leb_le.
Qed.

Lemma pairing_from (left : option Z) (s : list Z) :
  combine (removelast (left :: (map Some s ++ [None]))) (map Some s ++ [None])
  = intervals_from left s.
Proof.
  revert left; induction s as [| x r IH]; intros left; [reflexivity |].
  cbn [map app intervals_from].
  rewrite <- IH. cbn [removelast combine].
  destruct (map Some r ++ [None]) eqn:E; [| reflexivity].
  destruct r; discriminate.
Qed.

Lemma build_intervals_unfold l :
  _build_intervals l = intervals_from None (sorted l).
Proof.
  unfold _build_intervals, slice_but_last, slice_from_1.
  apply pairing_from.
Qed.

Lemma zero_length_intervals_from left l :
  existsb zero_length (intervals_from left l)
  = (match left, l with
     | Some a, x :: _ => a =? x
     | _, _ => false
     end || has_adjacent_equal l)%bool.
Proof.
  revert left; induction l as [| x r IH]; intros left.
  - destruct left; reflexivity.
  - cbn [intervals_from existsb]. rewrite IH.
    destruct left as [a |]; destruct r as [| y r']; cbn;
      rewrite ?orb_false_r; reflexivity.
Qed.

Lemma adjacent_equal_not_NoDup l :
  has_adjacent_equal l = true -> ~ NoDup l.
Proof.
  induction l as [| x r IH]; [discriminate |].
  destruct r as [| y r']; [discriminate |].
  cbn [has_adjacent_equal]. rewrite orb_true_iff, Z.eqb_eq.
  intros [-> | H] Hnd.
  - inversion Hnd as [| ? ? Hnin _]. apply Hnin. now left.
  - inversion Hnd. now apply IH.
Qed.

Lemma sorted_no_adjacent_equal_NoDup l :
  StronglySorted Z.le l -> has_adjacent_equal l = false -> NoDup l.
Proof.
  induction 1 as [| x r Hr IH Hall]; intros Hadj; [constructor |].
  destruct r as [| y r'].
  - constructor; [intros [] | constructor].
  - cbn [has_adjacent_equal] in Hadj. apply orb_false_iff in Hadj.
    destruct Hadj as [Hxy Hrest]. apply Z.eqb_neq in Hxy.
    constructor; [| now apply IH].
    intros Hin.
    inversion Hr as [| ? ? _ Hall']; subst.
    inversion Hall as [| ? ? Hle _]; subst.
    destruct Hin as [-> | Hin]; [congruence |].
    rewrite Forall_forall in Hall'. specialize (Hall' x Hin). lia.
Qed.

(** The scenario of the specification: the boundaries 5, 2 and 8. *)
Example build_intervals_5_2_8 :
  _build_intervals [5; 2; 8]
  = [(None, Some 2); (Some 2, Some 5); (Some 5, Some 8); (Some 8, None)].
Proof. reflexivity. Qed.

End ChangePointsFacts.

(** C3 (as amended): interval construction sorts the boundary points and
    pairs neighbours without removing duplicates; the returned list holds
    a zero-length interval exactly when the input list holds a point
    twice, so for an input without duplicates no interval has equal
    boundaries. *)
Theorem C3_zero_length_iff_duplicate (change_points : list Z) :
  existsb ChangePoints.zero_length (ChangePoints._build_intervals change_points) = true
  <-> ~ NoDup change_points.
Proof.
  rewrite ChangePointsFacts.build_intervals_unfold,
          ChangePointsFacts.zero_length_intervals_from.
  cbn [orb].
  pose proof (ChangePointsFacts.sorted_perm change_points) as Hperm.
  pose proof (ChangePointsFacts.sorted_strongly change_points) as Hsort.
  split.
  - intros Hadj Hnd.
    apply ChangePointsFacts.adjacent_equal_not_NoDup in Hadj.
    apply Hadj. eapply Permutation_NoDup; eauto.
  - intros Hnd.
    destruct (ChangePoints.has_adjacent_equal (ChangePoints.sorted change_points)) eqn:E;
      [reflexivity |].
    exfalso. apply Hnd.
    apply ChangePointsFacts.sorted_no_adjacent_equal_NoDup in E; [| exact Hsort].
    eapply Permutation_NoDup; [apply Permutation_sym; exact Hperm | exact E].
Qed.

(** C3 (as stated) fails: a boundary point given twice is kept twice and
    yields the zero-length interval between its two copies. *)
Lemma C3_counterexample_duplicate_kept :
  ChangePoints._build_intervals [2; 2]
    = [(None, Some 2); (Some 2, Some 2); (Some 2, None)] /\
  ~ (forall iv, In iv (ChangePoints._build_intervals [2; 2]) ->
                ChangePoints.zero_length iv = false).
Proof.
  split; [reflexivity |].
  intros H. specialize (H (Some 2, Some 2)).
  assert (Hin : In (Some 2, Some 2) (ChangePoints._build_intervals [2; 2]))
    by (vm_compute; auto).
  specialize (H Hin). discriminate.
Qed.

(** ** Loops that may raise *)

Lemma mapM_raise_inv {A B : Type} (f : A -> Res B) (l : list A) e :
  mapM f l = Raise e -> exists x, In x l /\ f x = Raise e.
Proof.
  induction l as [| x r IH]; cbn [mapM]; [discriminate |].
  destruct (f x) as [y | e'] eqn:Ex.
  - destruct (mapM f r) as [ys | e''] eqn:Er; [discriminate |].
    intros H; injection H as ->.
    destruct (IH eq_refl) as (z & Hz & Hfz). exists z. split; [now right | exact Hfz].
  - intros H; injection H as ->. exists x. split; [now left | exact Ex].
Qed.

(** The loop stops at the first element whose body raises. *)
Lemma mapM_raise_split {A B : Type} (f : A -> Res B) (l : list A) e :
  mapM f l = Raise e ->
  exists pre x post,
    l = pre ++ x :: post /\ f x = Raise e /\
    forall y, In y pre -> exists v, f y = Ok v.
Proof.
  induction l as [| x r IH]; cbn [mapM]; [discriminate |].
  destruct (f x) as [y | e'] eqn:Ex.
  - destruct (mapM f r) as [ys | e''] eqn:Er; [discriminate |].
    intros H; injection H as ->.
    destruct (IH eq_refl) as (pre & z & post & -> & Hz & Hpre).
    exists (x :: pre), z, post. split; [reflexivity | split; [exact Hz |]].
    intros y0 [<- | Hin]; [eauto | now apply Hpre].
  - intros H; injection H as ->.
    exists [], x, r. split; [reflexivity | split; [exact Ex |]].
    intros y0 [].
Qed.

Lemma mapM_some_raise {A B : Type} (f : A -> Res B) (l : list A) x e :
  In x l -> f x = Raise e -> exists e', mapM f l = Raise e'.
Proof.
  induction l as [| y r IH]; intros Hin Hx; [destruct Hin |].
  cbn [mapM]. destruct (f y) as [v | e1] eqn:Ey; [| eauto].
  destruct Hin as [-> | Hin]; [congruence |].
  destruct (IH Hin Hx) as [e' ->]. eauto.
Qed.

(** A loop whose body only checks: the world stays, and the outcome is
    that of the checks in order. *)
Lemma for_each_checks {A : Type} (body : A -> M unit) (check : A -> Res unit) :
  (forall x w, body x w = (check x, w)) ->
  forall l w,
    for_each l body w
    = (match mapM check l with Ok _ => Ok tt | Raise e => Raise e end, w).
Proof.
  intros Hbody. induction l as [| x r IH]; intros w; [reflexivity |].
  cbn [for_each mapM]. unfold bind. rewrite Hbody.
  destruct (check x) as [[] | e]; [| reflexivity].
  rewrite IH. destruct (mapM check r); reflexivity.
Qed.

(** ** Validation *)

Lemma existsb_isna_skipn (l : list cell) (k : nat) :
  existsb isna (skipn k l) = true <->
  exists (p : nat) (c : cell),
    nth_error l p = Some c /\ isna c = true /\ (k <= p)%nat.
Proof.
  revert k; induction l as [| x r IH]; intros k.
  - rewrite skipn_nil. cbn. split; [discriminate |].
    intros (p & c & Hp & _). destruct p; discriminate.
  - destruct k as [| k].
    + cbn [skipn]. rewrite existsb_exists. split.
      * intros (c & Hin & Hc). apply In_nth_error in Hin.
        destruct Hin as [p Hp]. exists p, c. repeat split; auto. lia.
      * intros (p & c & Hp & Hc & _). exists c. split; [| exact Hc].
        eapply nth_error_In; eauto.
    + cbn [skipn]. rewrite IH. split.
      * intros (p & c & Hp & Hc & Hk). exists (S p), c. repeat split; auto. lia.
      * intros (p & c & Hp & Hc & Hk). destruct p as [| p]; [lia |].
        exists p, c. repeat split; auto. lia.
Qed.

(** What [tail] keeps, against positions counted from the end. *)
Lemma tail_missing (series : list cell) (n : Z) :
  (missing_in_last series n -> existsb isna (tail series n) = true) /\
  (0 <= n -> existsb isna (tail series n) = true -> missing_in_last series n).
Proof.
  unfold missing_in_last, tail. split.
  - intros (p & c & Hp & Hc & Hpos).
    assert (Hlt : (p < List.length series)%nat)
      by (apply nth_error_Some; congruence).
    destruct (Z.eqb_spec n 0) as [-> | Hn]; [lia |].
    destruct (Z.ltb_spec 0 n) as [Hpos' | Hneg]; [| lia].
    apply existsb_isna_skipn. exists p, c. repeat split; auto. lia.
  - intros Hn.
    destruct (Z.eqb_spec n 0) as [-> | Hn0]; [discriminate |].
    destruct (Z.ltb_spec 0 n) as [Hpos | Hneg]; [| lia].
    intros H. apply existsb_isna_skipn in H.
    destruct H as (p & c & Hp & Hc & Hk). exists p, c. repeat split; auto. lia.
Qed.

Lemma validate_segment_outcome self ts s w :
  validate_segment self ts s w = (validate_outcome self ts s, w).
Proof.
  unfold validate_segment, validate_outcome.
  destruct (get_column ts (s, "target")) as [col |]; [| reflexivity].
  destruct (existsb isna _); reflexivity.
Qed.

Lemma validate_features_outcome env ts w :
  _validate_features env ts w
  = (match mapM (validate_outcome (this w) ts)
                (set_iter env (segment_level ts)) with
     | Ok _ => Ok tt
     | Raise e => Raise e
     end, w).
Proof.
  unfold _validate_features, bind, get_self.
  apply for_each_checks. intros x w0. apply validate_segment_outcome.
Qed.

(** C8: if some segment's target series has a missing value among its
    last [H*K] points, [backtest] raises the [ValueError] that names a
    segment with such a missing value, namely the first one in the order
    in which the segments are iterated, and it does so in the world it
    started from: nothing is stored and no collaborator, the model's
    [fit] included, has been called.  If no segment has such a missing
    value, the validation returns normally. *)
Theorem C8_validation_before_any_fold env ts transforms (w : World) :
  (forall s, In s (segment_level ts) ->
     exists series, get_column ts (s, "target") = Some series) ->
  (forall s, In s (set_iter env (segment_level ts)) <-> In s (segment_level ts)) ->
  ((exists s, In s (segment_level ts) /\ deficient (this w) ts s) ->
   exists s',
     In s' (segment_level ts) /\ deficient (this w) ts s' /\
     (exists pre post,
        set_iter env (segment_level ts) = pre ++ s' :: post /\
        forall s0, In s0 pre -> ~ deficient (this w) ts s0) /\
     backtest env ts transforms w
     = (Raise (ValueError (NotEnoughTimestamps
                 (horizon (this w)) (n_folds (this w))
                 (horizon (this w) * n_folds (this w)) s')), w) /\
     calls (snd (backtest env ts transforms w)) = calls w /\
     _folds (this (snd (backtest env ts transforms w))) = _folds (this w)) /\
  (0 <= horizon (this w) * n_folds (this w) ->
   (forall s, In s (segment_level ts) -> ~ deficient (this w) ts s) ->
   _validate_features env ts w = (Ok tt, w)).
Proof.
  intros Htarget Hiter. split.
  - intros (s & Hs & series & Hcol & Hmiss).
    assert (Hraise : exists e, mapM (validate_outcome (this w) ts)
                                 (set_iter env (segment_level ts)) = Raise e).
    { apply (mapM_some_raise _ _ s
               (ValueError (NotEnoughTimestamps (horizon (this w)) (n_folds (this w))
                              (horizon (this w) * n_folds (this w)) s))).
      - now apply Hiter.
      - unfold validate_outcome. rewrite Hcol.
        now rewrite (proj1 (tail_missing series _) Hmiss). }
    destruct Hraise as [e He].
    destruct (mapM_raise_split _ _ _ He) as (pre & s' & post & Hsplit & Hout & Hpre).
    assert (Hs' : In s' (segment_level ts)).
    { apply Hiter. rewrite Hsplit. apply in_or_app. right. now left. }
    destruct (Htarget s' Hs') as [series' Hcol'].
    unfold validate_outcome in Hout. rewrite Hcol' in Hout.
    destruct (existsb isna (tail series' _)) eqn:Hex; [| discriminate].
    injection Hout as <-.
    assert (Hbt : backtest env ts transforms w
                  = (Raise (ValueError (NotEnoughTimestamps
                       (horizon (this w)) (n_folds (this w))
                       (horizon (this w) * n_folds (this w)) s')), w)).
    { unfold backtest, bind. rewrite validate_features_outcome, He. reflexivity. }
    exists s'.
    split; [exact Hs' | split; [| split; [| split; [exact Hbt |]]]].
    + exists series'. split; [exact Hcol' |].
      destruct (Z.neg_nonneg_cases (horizon (this w) * n_folds (this w)))
        as [Hneg | Hpos].
      * (* a negative count: no position is among the last points, which
           contradicts the segment that was assumed to have one *)
        destruct Hmiss as (p0 & c0 & Hp0 & _ & Hpos0).
        assert ((p0 < List.length series)%nat)
          by (apply nth_error_Some; congruence).
        lia.
      * now apply (proj2 (tail_missing series' _)).
    + exists pre, post. split; [exact Hsplit |].
      intros s0 Hs0 (series0 & Hcol0 & Hmiss0).
      destruct (Hpre s0 Hs0) as [v Hv].
      unfold validate_outcome in Hv. rewrite Hcol0 in Hv.
      now rewrite (proj1 (tail_missing series0 _) Hmiss0) in Hv.
    + rewrite Hbt. split; reflexivity.
  - intros Hn Hnone. rewrite validate_features_outcome.
    destruct (mapM _ _) as [us | e] eqn:E; [reflexivity |].
    destruct (mapM_raise_inv _ _ _ E) as (s & Hs & Hout).
    apply Hiter in Hs. destruct (Htarget s Hs) as [series Hcol].
    unfold validate_outcome in Hout. rewrite Hcol in Hout.
    destruct (existsb isna (tail series _)) eqn:Hex; [| discriminate].
    exfalso. apply (Hnone s Hs). exists series. split; [exact Hcol |].
    now apply (proj2 (tail_missing series _)).
Qed.

(** ** What a fold may touch *)

Lemma keeps_self_ret {A : Type} (a : A) : keeps_self (ret a).
Proof. intros w. reflexivity. Qed.

Lemma keeps_self_lift {A : Type} (r : Res A) : keeps_self (lift r).
Proof. intros w. reflexivity. Qed.

Lemma keeps_self_get_self : keeps_self get_self.
Proof. intros w. reflexivity. Qed.

Lemma keeps_self_collaborator {A : Type} c (r : Res A) :
  keeps_self (collaborator c r).
Proof. intros w. reflexivity. Qed.

Lemma keeps_self_bind {A B : Type} (m : M A) (f : A -> M B) :
  keeps_self m -> (forall a, keeps_self (f a)) -> keeps_self (bind m f).
Proof.
  intros Hm Hf w. unfold bind. specialize (Hm w).
  destruct (m w) as [[a | e] w']; cbn in *; [| exact Hm].
  rewrite (Hf a w'). exact Hm.
Qed.

Create HintDb keeps.
#[local] Hint Resolve keeps_self_ret keeps_self_lift keeps_self_get_self
  keeps_self_collaborator keeps_self_bind : keeps.

Lemma keeps_self_compute_metrics_loop ms y_true y_pred acc :
  keeps_self (compute_metrics_loop ms y_true y_pred acc).
Proof.
  revert acc; induction ms as [| m r IH]; intros acc; cbn [compute_metrics_loop];
    auto with keeps.
Qed.

Lemma keeps_self_run_fold train test forecast_base i :
  keeps_self (_run_fold train test forecast_base i).
Proof.
  unfold _run_fold, _compute_metrics.
  repeat (apply keeps_self_bind; [auto with keeps | intros ?]);
    auto using keeps_self_compute_metrics_loop with keeps.
Qed.

Lemma keeps_self_generate_fold env ts transforms offset :
  keeps_self (generate_fold env ts transforms offset).
Proof.
  unfold generate_fold.
  repeat (apply keeps_self_bind; [auto with keeps | intros ?]); auto with keeps.
Qed.

Lemma keeps_self_fold_task env ts transforms task :
  keeps_self (fold_task env ts transforms task).
Proof.
  unfold fold_task. apply keeps_self_bind.
  - apply keeps_self_generate_fold.
  - intros views. apply keeps_self_run_fold.
Qed.

Lemma keeps_self_for_collect {A B : Type} (f : A -> M B) (l : list A) :
  (forall x, keeps_self (f x)) -> keeps_self (for_collect f l).
Proof.
  intros Hf. induction l as [| x r IH]; cbn [for_collect]; auto with keeps.
Qed.

(** A task that raises makes the whole collection raise. *)
Lemma for_collect_task_raises {A B : Type} (f : A -> M B) (l : list A) x :
  (forall y, keeps_self (f y)) ->
  In x l ->
  forall w,
    (forall w0, this w0 = this w -> is_raise (fst (f x w0)) = true) ->
    is_raise (fst (for_collect f l w)) = true.
Proof.
  intros Hkeep. induction l as [| y r IH]; intros Hin w Hx; [destruct Hin |].
  cbn [for_collect]. unfold bind at 1.
  destruct (f y w) as [[b | e] w'] eqn:Ey; [| reflexivity].
  assert (Hw' : this w' = this w).
  { pose proof (Hkeep y w) as H. now rewrite Ey in H. }
  destruct Hin as [-> | Hin].
  - specialize (Hx w eq_refl). rewrite Ey in Hx. discriminate.
  - assert (Hrest : is_raise (fst (for_collect f r w')) = true).
    { apply IH; [exact Hin |]. intros w0 Hw0. apply Hx. congruence. }
    unfold bind.
    destruct (for_collect f r w') as [[ys | e] w'']; [discriminate | reflexivity].
Qed.

Lemma dict_set_not_nil {K V : Type} (eqb : K -> K -> bool) d k (v : V) :
  Py.dict_set eqb d k v <> [].
Proof.
  destruct d as [| [k' v'] r]; cbn; [discriminate |].
  destruct (eqb k' k); discriminate.
Qed.

(** [backtest], step by step. *)
Lemma backtest_steps env ts transforms w :
  backtest env ts transforms w
  = match _validate_features env ts w with
    | (Raise e, w1) => (Raise e, w1)
    | (Ok _, w1) =>
      match for_collect (fold_task env ts transforms) (fold_tasks (this w1)) w1 with
      | (Raise e, w2) => (Raise e, w2)
      | (Ok folds, w2) =>
        match for_each folds (fun it => store_fold (fst it) (snd it)) w2 with
        | (Raise e, w3) => (Raise e, w3)
        | (Ok _, w3) =>
            (metrics_df <- get_metrics false ;;
             forecast_df <- get_forecasts ;;
             fold_info_df <- get_fold_info ;;
             ret (metrics_df, forecast_df, fold_info_df)) w3
        end
      end
    end.
Proof.
  unfold backtest, bind at 1.
  destruct (_validate_features env ts w) as [[[] | e] w1]; [| reflexivity].
  unfold bind at 1, get_self at 1, bind at 1, fold_tasks.
  destruct (for_collect _ _ w1) as [[folds | e] w2]; [| reflexivity].
  unfold bind at 1.
  destruct (for_each folds _ w2) as [[[] | e] w3]; reflexivity.
Qed.

(** A fold task that raises makes [backtest] raise before anything is
    stored. *)
Lemma backtest_task_raises env ts transforms w task :
  In task (fold_tasks (this w)) ->
  (forall w0, this w0 = this w ->
     is_raise (fst (fold_task env ts transforms task w0)) = true) ->
  is_raise (fst (backtest env ts transforms w)) = true /\
  this (snd (backtest env ts transforms w)) = this w.
Proof.
  intros Hin Hraise.
  rewrite backtest_steps, validate_features_outcome.
  destruct (mapM _ _) as [us | e0]; [| split; reflexivity].
  pose proof (for_collect_task_raises (fold_task env ts transforms)
                (fold_tasks (this w)) task
                (keeps_self_fold_task env ts transforms) Hin w Hraise) as H.
  pose proof (keeps_self_for_collect (fold_task env ts transforms)
                (fold_tasks (this w)) (keeps_self_fold_task env ts transforms) w)
    as Hkeep.
  destruct (for_collect _ _ w) as [[folds | e] w2];
    [discriminate | split; [reflexivity | exact Hkeep]].
Qed.

(** C9: when a fold's task (the fold's views, then fit, forecast and
    metrics) raises, [backtest] raises and the object is as it was before
    the call: nothing of the run is stored, the fold store is unchanged. *)
Theorem C9_failed_fold_stores_nothing env ts transforms (w : World) :
  (exists task,
     In task (fold_tasks (this w)) /\
     forall w0, this w0 = this w ->
       is_raise (fst (fold_task env ts transforms task w0)) = true) ->
  is_raise (fst (backtest env ts transforms w)) = true /\
  this (snd (backtest env ts transforms w)) = this w /\
  _folds (this (snd (backtest env ts transforms w))) = _folds (this w).
Proof.
  intros (task & Hin & Hraise).
  destruct (backtest_task_raises env ts transforms w task Hin Hraise) as [Hr Hs].
  split; [exact Hr | split; [exact Hs | now rewrite Hs]].
Qed.

(** ** Dicts and distinct elements *)

Lemma colkey_eqb_eq (a b : colkey) : colkey_eqb a b = true <-> a = b.
Proof.
  destruct a as [a1 a2], b as [b1 b2]. unfold colkey_eqb. cbn [fst snd].
  rewrite andb_true_iff, !String.eqb_eq. split.
  - intros [-> ->]. reflexivity.
  - intros H; injection H as -> ->. auto.
Qed.

Section DictFacts.
Context {K V : Type} (eqb : K -> K -> bool).
Hypothesis eqb_eq : forall a b, eqb a b = true <-> a = b.

Lemma dict_get_set_same (d : list (K * V)) k v :
  Py.dict_get eqb (Py.dict_set eqb d k v) k = Some v.
Proof.
  induction d as [| [k' v'] r IH]; cbn [Py.dict_set Py.dict_get].
  - now rewrite (proj2 (eqb_eq k k) eq_refl).
  - destruct (eqb k' k) eqn:E; cbn [Py.dict_get].
    + now rewrite (proj2 (eqb_eq k k) eq_refl).
    + now rewrite E.
Qed.

Lemma dict_get_set_other (d : list (K * V)) k v k0 :
  k0 <> k ->
  Py.dict_get eqb (Py.dict_set eqb d k v) k0 = Py.dict_get eqb d k0.
Proof.
  intros Hne.
  assert (Hk : eqb k k0 = false).
  { destruct (eqb k k0) eqn:E; [| reflexivity].
    apply eqb_eq in E. congruence. }
  induction d as [| [k' v'] r IH]; cbn [Py.dict_set Py.dict_get].
  - now rewrite Hk.
  - destruct (eqb k' k) eqn:E; cbn [Py.dict_get].
    + apply eqb_eq in E. subst k'. now rewrite Hk.
    + now rewrite IH.
Qed.

Lemma dict_set_same_value (d : list (K * V)) k v :
  Py.dict_get eqb d k = Some v -> Py.dict_set eqb d k v = d.
Proof.
  induction d as [| [k' v'] r IH]; cbn [Py.dict_set Py.dict_get];
    [discriminate |].
  destruct (eqb k' k) eqn:E.
  - apply eqb_eq in E. intros H; injection H as ->. now subst.
  - intros H. now rewrite IH.
Qed.

(** The keys after [d[k] = v]: as before, with [k] at the end when it
    is new. *)
Lemma dict_set_keys (d : list (K * V)) k v :
  map fst (Py.dict_set eqb d k v) = map fst d \/
  map fst (Py.dict_set eqb d k v) = map fst d ++ [k].
Proof.
  induction d as [| [k' v'] r IH]; cbn [Py.dict_set map fst app]; [now right |].
  destruct (eqb k' k) eqn:E; cbn [map fst].
  - apply eqb_eq in E. subst. now left.
  - destruct IH as [-> | ->]; [now left | now right].
Qed.


End DictFacts.

Lemma existsb_eqb_In (x : string) (seen : list string) :
  existsb (String.eqb x) seen = true <-> In x seen.
Proof.
  rewrite existsb_exists. split.
  - intros (y & Hy & E). apply String.eqb_eq in E. now subst.
  - intros H. exists x. split; [exact H | apply String.eqb_refl].
Qed.

Lemma unique_acc_In seen l x :
  In x (Py.unique_acc seen l) <-> In x l /\ ~ In x seen.
Proof.
  revert seen; induction l as [| y r IH]; intros seen; cbn [Py.unique_acc].
  - cbn. tauto.
  - destruct (existsb (String.eqb y) seen) eqn:E.
    + apply existsb_eqb_In in E. rewrite IH. cbn [In]. split.
      * intros [H1 H2]. auto.
      * intros [[-> | H1] H2]; [contradiction | auto].
    + assert (Hy : ~ In y seen).
      { intros H. apply existsb_eqb_In in H. congruence. }
      cbn [In]. rewrite IH. cbn [In]. split.
      * intros [-> | [H1 H2]]; [auto |]. split; [auto | tauto].
      * intros [[-> | H1] H2]; [auto |].
        destruct (string_dec y x) as [-> | Hne]; [auto |]. right. tauto.
Qed.

Lemma unique_In l x : In x (Py.unique l) <-> In x l.
Proof. unfold Py.unique. rewrite unique_acc_In. cbn. tauto. Qed.



Lemma unique_acc_app_known seen l s :
  In s seen \/ In s l ->
  Py.unique_acc seen (l ++ [s]) = Py.unique_acc seen l.
Proof.
  revert seen; induction l as [| y r IH]; intros seen Hs; cbn [Py.unique_acc app].
  - destruct Hs as [Hs | []].
    now rewrite (proj2 (existsb_eqb_In s seen) Hs).
  - destruct (existsb (String.eqb y) seen) eqn:E.
    + apply IH. destruct Hs as [Hs | [-> | Hs]]; auto.
      left. now apply existsb_eqb_In.
    + f_equal. apply IH. cbn [In]. destruct Hs as [Hs | [-> | Hs]]; auto.
Qed.

Lemma unique_app_known l s :
  In s l -> Py.unique (l ++ [s]) = Py.unique l.
Proof. intros H. apply unique_acc_app_known. now right. Qed.

(** ** Tagging a forecast with its fold number *)

Lemma write_column_get_same f key v :
  get_column (write_column f key v) key
  = Some (repeat v (List.length (index f))).
Proof.
  unfold get_column, write_column. cbn [columns index].
  apply dict_get_set_same. exact colkey_eqb_eq.
Qed.

Lemma write_column_get_other f key v key0 :
  key0 <> key ->
  get_column (write_column f key v) key0 = get_column f key0.
Proof.
  intros Hne. unfold get_column, write_column. cbn [columns].
  apply dict_get_set_other; [exact colkey_eqb_eq | exact Hne].
Qed.

Lemma write_column_fixed f key v :
  get_column f key = Some (repeat v (List.length (index f))) ->
  write_column f key v = f.
Proof.
  intros H. unfold write_column.
  rewrite (dict_set_same_value colkey_eqb colkey_eqb_eq _ _ _ H).
  now destruct f.
Qed.

Lemma write_column_segments f s col v :
  In s (segment_level f) ->
  segments (write_column f (s, col) v) = segments f.
Proof.
  intros Hs. unfold segments, segment_level, write_column in *. cbn [columns].
  assert (Hm : forall l : list (colkey * list cell),
             map (fun c => fst (fst c)) l = map fst (map fst l))
    by (intros l; now rewrite map_map).
  rewrite !Hm in *.
  destruct (dict_set_keys colkey_eqb colkey_eqb_eq (columns f) (s, col)
              (repeat v (List.length (index f)))) as [E | E]; rewrite E.
  - reflexivity.
  - rewrite map_app. cbn [map fst].
    now apply unique_app_known.
Qed.

(** The assignment goes through, and writes the column, unless the frame
    has no row and lacks the column. *)
Lemma assign_column_ok f key v f' :
  assign_column f key v = Ok f' -> f' = write_column f key v.
Proof.
  unfold assign_column.
  destruct (index f); [destruct (get_column f key) |];
    intros H; inversion H; reflexivity.
Qed.

Lemma assign_column_present f key v c :
  get_column f key = Some c -> assign_column f key v = Ok (write_column f key v).
Proof. intros H. unfold assign_column. rewrite H. now destruct (index f). Qed.

Lemma assign_column_rows f key v :
  index f <> [] -> assign_column f key v = Ok (write_column f key v).
Proof. intros H. unfold assign_column. destruct (index f); [congruence | reflexivity]. Qed.



Section Tagging.
Variable col : string.
Variable k : Z.

Lemma tag_steps_index l f : index (fold_left (tag_step col k) l f) = index f.
Proof.
  revert f; induction l as [| s r IH]; intros f; cbn [fold_left]; [reflexivity |].
  now rewrite IH.
Qed.

Lemma tag_steps_other l f key :
  (forall s, In s l -> key <> (s, col)) ->
  get_column (fold_left (tag_step col k) l f) key = get_column f key.
Proof.
  revert f; induction l as [| s r IH]; intros f Hkey; cbn [fold_left];
    [reflexivity |].
  rewrite IH by (intros s' Hs'; apply Hkey; now right).
  apply write_column_get_other. apply Hkey. now left.
Qed.

Lemma tag_steps_tagged l f s :
  In s l ->
  get_column (fold_left (tag_step col k) l f) (s, col)
  = Some (repeat (Int k) (List.length (index f))).
Proof.
  revert f; induction l as [| x r IH]; intros f Hs; [destruct Hs |].
  cbn [fold_left].
  destruct (in_dec string_dec s r) as [Hr | Hr].
  - rewrite (IH _ Hr). reflexivity.
  - destruct Hs as [-> | Hs]; [| contradiction].
    rewrite tag_steps_other.
    + apply write_column_get_same.
    + intros s' Hs' E. injection E as ->. contradiction.
Qed.

Lemma tag_steps_segments l f :
  (forall s, In s l -> In s (segment_level f)) ->
  segments (fold_left (tag_step col k) l f) = segments f.
Proof.
  revert f; induction l as [| x r IH]; intros f Hl; cbn [fold_left];
    [reflexivity |].
  assert (Hx : segments (tag_step col k f x) = segments f)
    by (apply write_column_segments; apply Hl; now left).
  rewrite IH; [exact Hx |].
  intros s Hs. apply unique_In. fold (segments (tag_step col k f x)). rewrite Hx.
  apply unique_In. apply Hl. now right.
Qed.

(** The loop writes what its turns write, up to the segment at which it
    raises. *)
Lemma tag_segments_ok segs : forall f f' u,
  tag_segments col k segs f = (f', Ok u) ->
  f' = fold_left (tag_step col k) segs f.
Proof.
  induction segs as [| x r IH]; intros f f' u H; cbn [tag_segments fold_left] in *.
  - now inversion H.
  - destruct (assign_column f (x, col) (Int k)) as [f1 | e1] eqn:E;
      [| discriminate].
    apply assign_column_ok in E. subst f1. now apply IH in H.
Qed.

Lemma tag_segments_raise segs : forall f f' e,
  tag_segments col k segs f = (f', Raise e) ->
  exists pre s post,
    segs = pre ++ s :: post /\
    f' = fold_left (tag_step col k) pre f /\
    assign_column f' (s, col) (Int k) = Raise e.
Proof.
  induction segs as [| x r IH]; intros f f' e H; cbn [tag_segments] in H;
    [discriminate |].
  destruct (assign_column f (x, col) (Int k)) as [f1 | e1] eqn:E.
  - apply assign_column_ok in E. subst f1.
    destruct (IH _ _ _ H) as (pre & s & post & -> & -> & Hr).
    exists (x :: pre), s, post. auto.
  - inversion H; subst. exists [], x, r. auto.
Qed.

(** On a forecast that holds the fold column of a segment the turn for
    that segment writes nothing new. *)
Lemma tag_segments_skip pre rest f :
  (forall s, In s pre ->
     get_column f (s, col) = Some (repeat (Int k) (List.length (index f)))) ->
  tag_segments col k (pre ++ rest) f = tag_segments col k rest f.
Proof.
  induction pre as [| x r IH]; intros Hl; cbn [app tag_segments]; [reflexivity |].
  rewrite (assign_column_present _ _ _ _ (Hl x (or_introl eq_refl))).
  rewrite write_column_fixed by (apply Hl; now left).
  apply IH. intros s Hs. apply Hl. now right.
Qed.


Lemma tag_segments_taggable segs : forall f,
  (index f = [] -> forall s, In s segs -> get_column f (s, col) <> None) ->
  snd (tag_segments col k segs f) = Ok tt.
Proof.
  induction segs as [| x r IH]; intros f H; cbn [tag_segments]; [reflexivity |].
  assert (Hok : assign_column f (x, col) (Int k)
                = Ok (write_column f (x, col) (Int k))).
  { destruct (index f) as [| t l] eqn:Hi.
    - destruct (get_column f (x, col)) as [c |] eqn:Ex.
      + exact (assign_column_present _ _ _ _ Ex).
      + exfalso. apply (H eq_refl x); [now left | exact Ex].
    - apply assign_column_rows. congruence. }
  rewrite Hok. apply IH. cbn [write_column index]. intros Hi s Hs.
  destruct (string_dec s x) as [-> | Hne].
  - rewrite write_column_get_same. discriminate.
  - rewrite write_column_get_other by congruence. apply H; [exact Hi | now right].
Qed.


Lemma tag_forecast_taggable f :
  ~ untaggable col f -> snd (tag_forecast col k f) = Ok tt.
Proof.
  intros Hn. apply tag_segments_taggable. intros Hi s Hs Hc.
  apply Hn. split; [exact Hi | eauto].
Qed.

(** When the loop runs to its end it has written what its turns write,
    one after the other; the index stays in any case. *)
Lemma tag_forecast_ok f :
  snd (tag_forecast col k f) = Ok tt ->
  fst (tag_forecast col k f) = fold_left (tag_step col k) (segments f) f.
Proof.
  unfold tag_forecast.
  destruct (tag_segments col k (segments f) f) as [f' r] eqn:E. cbn [fst snd].
  intros ->. exact (tag_segments_ok _ _ _ _ E).
Qed.


(** Tagging again gives the same forecast and ends the same way. *)
Lemma tag_forecast_again f :
  tag_forecast col k (fst (tag_forecast col k f)) = tag_forecast col k f.
Proof.
  unfold tag_forecast.
  destruct (tag_segments col k (segments f) f) as [f' [u | e]] eqn:E; cbn [fst].
  - destruct u. rewrite (tag_segments_ok _ _ _ _ E).
    rewrite tag_steps_segments by (intros s Hs; now apply unique_In).
    rewrite <- (app_nil_r (segments f)) at 1.
    rewrite tag_segments_skip; [reflexivity |].
    intros s Hs. rewrite tag_steps_index. now apply tag_steps_tagged.
  - destruct (tag_segments_raise _ _ _ _ E) as (pre & s & post & Hsegs & -> & Hr).
    assert (Hpre : forall x, In x pre -> In x (segment_level f)).
    { intros x Hx. apply unique_In. fold (segments f). rewrite Hsegs.
      apply in_or_app. now left. }
    rewrite (tag_steps_segments pre f Hpre), Hsegs.
    rewrite tag_segments_skip.
    + cbn [tag_segments]. now rewrite Hr.
    + intros x Hx. rewrite tag_steps_index. now apply tag_steps_tagged.
Qed.

End Tagging.


Lemma forecasts_loop_cons col i info r acc :
  forecasts_loop col ((i, info) :: r) acc
  = match snd (tag_forecast col i (forecast info)) with
    | Raise e =>
        ((i, set_forecast info (fst (tag_forecast col i (forecast info)))) :: r,
         Raise e)
    | Ok _ =>
        ((i, set_forecast info (fst (tag_forecast col i (forecast info))))
           :: fst (forecasts_loop col r
                     (acc ++ frame_rows (fst (tag_forecast col i (forecast info))))),
         snd (forecasts_loop col r
                (acc ++ frame_rows (fst (tag_forecast col i (forecast info))))))
    end.
Proof. reflexivity. Qed.

(** The loop keeps the fold numbers, the time ranges and the metrics of
    the store. *)
Lemma forecasts_loop_keys col items : forall acc,
  map fst (fst (forecasts_loop col items acc)) = map fst items.
Proof.
  induction items as [| [i info] r IH]; intros acc; [reflexivity |].
  rewrite forecasts_loop_cons.
  destruct (snd (tag_forecast col i (forecast info))); cbn [fst map];
    [now rewrite IH | reflexivity].
Qed.

(** When the loop returns, every fold has been tagged, and the stacked
    frame holds the rows of the tagged forecasts in the order of the
    store. *)
Lemma forecasts_loop_all_ok col items : forall acc,
  Forall (fun it => snd (tag_forecast col (fst it) (forecast (snd it))) = Ok tt)
         items ->
  forecasts_loop col items acc
  = (map (fun it => (fst it,
                     set_forecast (snd it)
                       (fst (tag_forecast col (fst it) (forecast (snd it))))))
         items,
     Ok (acc ++ flat_map (fun it => frame_rows
                            (fst (tag_forecast col (fst it) (forecast (snd it)))))
                         items)).
Proof.
  induction items as [| [i info] r IH]; intros acc Hall.
  - cbn. now rewrite app_nil_r.
  - inversion Hall as [| ? ? Hi Hr]; subst. cbn [fst snd] in Hi.
    rewrite forecasts_loop_cons, Hi, (IH _ Hr). cbn [fst snd map flat_map].
    now rewrite app_assoc.
Qed.

Lemma forecasts_loop_returns col items : forall acc rows,
  snd (forecasts_loop col items acc) = Ok rows ->
  Forall (fun it => snd (tag_forecast col (fst it) (forecast (snd it))) = Ok tt)
         items.
Proof.
  induction items as [| [i info] r IH]; intros acc rows H; [constructor |].
  rewrite forecasts_loop_cons in H.
  destruct (snd (tag_forecast col i (forecast info))) as [[] | e] eqn:E;
    cbn [snd] in H; [| discriminate].
  constructor; [exact E | eapply IH; eauto].
Qed.


(** The loop on the store that it has left: the store stays, and the
    loop ends as it ended before. *)
Lemma forecasts_loop_again col items : forall acc acc',
  forecasts_loop col (fst (forecasts_loop col items acc)) acc'
  = (fst (forecasts_loop col items acc), snd (forecasts_loop col items acc')).
Proof.
  induction items as [| [i info] r IH]; intros acc acc'; [reflexivity |].
  rewrite !(forecasts_loop_cons col i info r).
  destruct (snd (tag_forecast col i (forecast info))) as [u | e] eqn:E;
    cbn [fst snd]; rewrite forecasts_loop_cons; cbn [forecast set_forecast];
    rewrite tag_forecast_again, E; cbn [fst snd].
  - now rewrite IH.
  - reflexivity.
Qed.


Lemma with_folds_same self : with_folds self (_folds self) = self.
Proof. now destruct self. Qed.

Lemma with_folds_twice self d d' :
  with_folds (with_folds self d) d' = with_folds self d'.
Proof. reflexivity. Qed.

Lemma get_forecasts_run w :
  get_forecasts w
  = (snd (forecasts_loop (_fold_column (this w)) (_folds (this w)) []),
     mkWorld (with_folds (this w)
                (fst (forecasts_loop (_fold_column (this w)) (_folds (this w)) [])))
             (calls w)).
Proof. reflexivity. Qed.

Lemma get_forecasts_world w :
  snd (get_forecasts w)
  = mkWorld (with_folds (this w)
               (fst (forecasts_loop (_fold_column (this w)) (_folds (this w)) [])))
            (calls w).
Proof. reflexivity. Qed.

Lemma get_metrics_world b w : snd (get_metrics b w) = w.
Proof.
  unfold get_metrics, bind, get_self.
  destruct (_folds (this w)); [reflexivity |]. now destruct b.
Qed.

Lemma get_fold_info_world w : snd (get_fold_info w) = w.
Proof. reflexivity. Qed.


Lemma store_folds_run folds : forall w,
  for_each folds (fun it => store_fold (fst it) (snd it)) w
  = (Ok tt, mkWorld (with_folds (this w) (store_all folds (_folds (this w))))
                    (calls w)).
Proof.
  induction folds as [| it r IH]; intros w; cbn [for_each store_all fold_left].
  - unfold ret. rewrite with_folds_same. now destruct w.
  - unfold bind, store_fold at 1. rewrite IH. reflexivity.
Qed.

(** The world after the three queries that end [backtest]: only
    [get_forecasts] writes. *)
Lemma final_queries_world w :
  snd (final_queries w)
  = mkWorld (with_folds (this w)
               (fst (forecasts_loop (_fold_column (this w)) (_folds (this w)) [])))
            (calls w).
Proof.
  unfold final_queries, bind at 1.
  pose proof (get_metrics_world false w) as Hm.
  destruct (get_metrics false w) as [[metrics_df | e] w1] eqn:Em; cbn [snd] in Hm;
    subst w1.
  - unfold bind at 1. rewrite get_forecasts_run.
    destruct (snd (forecasts_loop _ _ _)); reflexivity.
  - unfold get_metrics, bind, get_self in Em.
    destruct (_folds (this w)) as [| it r] eqn:E.
    + cbn [forecasts_loop fst snd]. rewrite <- E, with_folds_same. now destruct w.
    + destruct (false); discriminate.
Qed.

(** [backtest] either raises before it stores anything, or it stores
    the results of its folds and ends with the three queries. *)
Lemma backtest_world env ts transforms w :
  (is_raise (fst (backtest env ts transforms w)) = true /\
   this (snd (backtest env ts transforms w)) = this w) \/
  (exists folds w2,
     for_collect (fold_task env ts transforms) (fold_tasks (this w)) w
     = (Ok folds, w2) /\
     backtest env ts transforms w
     = final_queries
         (mkWorld (with_folds (this w) (store_all folds (_folds (this w))))
                  (calls w2))).
Proof.
  rewrite backtest_steps, validate_features_outcome.
  destruct (mapM _ _) as [us | e0]; [| left; split; reflexivity].
  pose proof (keeps_self_for_collect (fold_task env ts transforms)
                (fold_tasks (this w)) (keeps_self_fold_task env ts transforms) w)
    as Hkeep.
  destruct (for_collect _ _ w) as [[folds | e] w2]; cbn [snd] in Hkeep;
    [| left; split; [reflexivity | exact Hkeep]].
  right. exists folds, w2. split; [reflexivity |].
  rewrite store_folds_run, Hkeep. reflexivity.
Qed.







(** On a store that no query has read yet, [get_forecasts] does write:
    the stored forecast gets its fold column. *)
Example get_forecasts_writes_fresh_store :
  let fold := mkFold (mkTimerange (Some 10) (Some 13)) (mkTimerange (Some 14) (Some 15))
                     (mkTS [14; 15] [(("a", "target"), [Flt 1; Flt 2])]) [] in
  let w := mkWorld (with_folds (demo_cv expand 2 2) [(0, fold)]) [] in
  _folds (this (snd (get_forecasts w)))
  = [(0, set_forecast fold
           (mkTS [14; 15] [(("a", "target"), [Flt 1; Flt 2]);
                           (("a", "fold_number"), [Int 0; Int 0])]))].
Proof. reflexivity. Qed.

Lemma C8_validation_witness :
  (exists s',
     In s' (segment_level demo_ts_gap) /\
     deficient (this demo_world) demo_ts_gap s' /\
     (exists pre post,
        set_iter demo_env (segment_level demo_ts_gap) = pre ++ s' :: post /\
        forall s0, In s0 pre -> ~ deficient (this demo_world) demo_ts_gap s0) /\
     backtest demo_env demo_ts_gap [] demo_world
     = (Raise (ValueError (NotEnoughTimestamps 2 2 (2 * 2) s')), demo_world) /\
     calls (snd (backtest demo_env demo_ts_gap [] demo_world)) = calls demo_world /\
     _folds (this (snd (backtest demo_env demo_ts_gap [] demo_world)))
     = _folds (this demo_world)) /\
  _validate_features demo_env demo_ts demo_world = (Ok tt, demo_world).
Proof.
  split.
  - apply (C8_validation_before_any_fold demo_env demo_ts_gap [] demo_world).
    + intros s [<- | [<- | []]]; eexists; reflexivity.
    + intros s. cbn. tauto.
    + exists "b"%string. split; [cbn; auto |].
      exists [Flt 6; Flt 5; Flt 4; Flt 3; NaN; Flt 1]. split; [reflexivity |].
      exists 4%nat, NaN. repeat split. cbn. lia.
  - apply (C8_validation_before_any_fold demo_env demo_ts [] demo_world).
    + intros s [<- | [<- | []]]; eexists; reflexivity.
    + intros s. cbn. tauto.
    + cbn. lia.
    + intros s [<- | [<- | []]] (series & Hcol & p & c & Hp & Hc & _);
        vm_compute in Hcol; injection Hcol as <-;
        do 6 (destruct p as [| p];
              [cbn in Hp; injection Hp as <-; discriminate Hc |]);
        destruct p; discriminate Hp.
Defined.

Lemma C9_failed_fold_witness :
  (exists task,
     In task (fold_tasks (this failing_store_world)) /\
     forall w0, this w0 = this failing_store_world ->
       is_raise (fst (fold_task demo_env demo_ts [] task w0)) = true) /\
  backtest demo_env demo_ts [] failing_store_world
  = (Raise (CollaboratorError "fit"),
     mkWorld (this failing_store_world)
             [CallSplit; CallFitTransform; CallMakeFuture; CallFit]) /\
  is_raise (fst (backtest demo_env demo_ts [] failing_store_world)) = true /\
  _folds (this (snd (backtest demo_env demo_ts [] failing_store_world)))
  = [(0, fresh_fold)].
Proof.
  assert (Hfails : exists task,
            In task (fold_tasks (this failing_store_world)) /\
            forall w0, this w0 = this failing_store_world ->
              is_raise (fst (fold_task demo_env demo_ts [] task w0)) = true).
  { exists (0, 2). split; [vm_compute; auto |].
    intros [self0 calls0] Hself. cbn [this] in Hself. subst self0. reflexivity. }
  split; [exact Hfails | split; [reflexivity |]].
  destruct (C9_failed_fold_stores_nothing demo_env demo_ts [] failing_store_world
              Hfails) as (Hraise & _ & Hstore).
  split; [exact Hraise | exact Hstore].
Defined.

(** [backtest] can also raise after it has stored its folds: a model
    whose forecast has a segment and no row makes the [get_forecasts] call
    that ends [backtest] raise, and the folds of the run stay stored. *)
Example backtest_raises_after_storing :
  let w := mkWorld (mkCV rowless_model 2 1 2 demo_metrics expand 0 "fold_number" [])
                   [] in
  fst (backtest demo_env demo_ts [] w) = Raise (ValueError ScalarOnEmptyFrame) /\
  map fst (_folds (this (snd (backtest demo_env demo_ts [] w)))) = [0; 1].
Proof. split; reflexivity. Qed.

(** ** The metrics table *)

Lemma string_eqb_eq (a b : string) : String.eqb a b = true <-> a = b.
Proof. apply String.eqb_eq. Qed.


















(** The mean does not depend on the order of the values. *)
Lemma Qsum_perm l l' : Permutation l l' -> (Qsum l == Qsum l')%Q.
Proof.
  induction 1 as [| x l l' _ IH | x y l | l l' l'' _ IH1 _ IH2];
    cbn [Qsum fold_right].
  - reflexivity.
  - fold (Qsum l). fold (Qsum l'). now rewrite IH.
  - fold (Qsum l). ring.
  - now rewrite IH1.
Qed.

Lemma mean_perm l l' : Permutation l l' -> option_Qeq (mean l) (mean l').
Proof.
  intros H. pose proof (Permutation_length H) as Hlen.
  pose proof (Qsum_perm _ _ H) as Hsum.
  destruct l as [| x r], l' as [| y r']; try discriminate; cbn [mean option_Qeq];
    [exact I |].
  now rewrite Hsum, Hlen.
Qed.

Lemma get_metrics_run b w :
  _folds (this w) <> [] ->
  get_metrics b w
  = (Ok (let sorted :=
           RowSort.sort
             (flat_map (fun item => fold_metrics_frame (fst item) (snd item))
                       (_folds (this w))) in
         if b then Aggregated (groupby_mean (metric_columns (_folds (this w))) sorted)
         else PerFold sorted), w).
Proof.
  intros Hne. unfold get_metrics, bind, get_self.
  destruct (_folds (this w)) as [| it r] eqn:E; [congruence |].
  destruct b; reflexivity.
Qed.




(* ================================================================== *)
(** * Further properties of the interval builder *)
(* ================================================================== *)

Module IntervalFacts.
Import ChangePoints.

Lemma intervals_from_ends left l :
  map fst (intervals_from left l) = left :: map Some l /\
  map snd (intervals_from left l) = map Some l ++ [None].
Proof.
  revert left; induction l as [| x r IH]; intros left;
    cbn [intervals_from map fst snd app]; [split; reflexivity |].
  destruct (IH (Some x)) as [-> ->]. split; reflexivity.
Qed.

(** Two ascending lists with the same elements are the same list. *)
Lemma sorted_perm_unique (l l' : list Z) :
  StronglySorted Z.le l -> StronglySorted Z.le l' -> Permutation l l' -> l = l'.
Proof.
  intros Hl; revert l'; induction Hl as [| x r Hr IH Hx]; intros l' Hl' Hp.
  - apply Permutation_nil in Hp. now subst.
  - destruct l' as [| y r']; [apply Permutation_sym, Permutation_nil in Hp; discriminate |].
    inversion Hl' as [| ? ? Hr' Hy]; subst.
    assert (Hxy : x = y).
    { assert (Hin1 : In x (y :: r')) by (eapply Permutation_in; [exact Hp | now left]).
      assert (Hin2 : In y (x :: r))
        by (eapply Permutation_in; [apply Permutation_sym; exact Hp | now left]).
      rewrite Forall_forall in Hx, Hy.
      destruct Hin1 as [-> | Hin1]; [reflexivity |].
      destruct Hin2 as [-> | Hin2]; [reflexivity |].
      specialize (Hx _ Hin2). specialize (Hy _ Hin1). lia. }
    subst y. f_equal. apply IH; [exact Hr' |].
    eapply Permutation_cons_inv; exact Hp.
Qed.

Lemma count_covers_from (x : Z) left l :
  StronglySorted Z.le l ->
  (forall a y, left = Some a -> In y l -> a <= y) ->
  List.length (filter (covers x) (intervals_from left l))
  = if lower_ok left x then 1%nat else 0%nat.
Proof.
  intros Hs; revert left; induction Hs as [| y r Hr IH Hy]; intros left Hleft.
  - cbn [intervals_from filter]. unfold covers. cbn [fst snd upper_ok].
    rewrite andb_true_r. destruct (lower_ok left x); reflexivity.
  - cbn [intervals_from filter]. unfold covers at 1. cbn [fst snd upper_ok].
    assert (Hrest : List.length (filter (covers x) (intervals_from (Some y) r))
                    = if y <=? x then 1%nat else 0%nat).
    { apply IH. intros a z Ha Hz. injection Ha as <-.
      rewrite Forall_forall in Hy. now apply Hy. }
    destruct (lower_ok left x) eqn:Elo; cbn [andb].
    + destruct (Z.ltb_spec x y) as [Hlt | Hge]; cbn [List.length]; rewrite Hrest.
      * destruct (Z.leb_spec y x); [lia | reflexivity].
      * destruct (Z.leb_spec y x); [reflexivity | lia].
    + rewrite Hrest. destruct left as [a |]; [| discriminate].
      cbn [lower_ok] in Elo. apply Z.leb_gt in Elo.
      specialize (Hleft a y eq_refl (or_introl eq_refl)).
      destruct (Z.leb_spec y x); [lia | reflexivity].
Qed.

(** The boundaries of the result, read off both ends of the intervals. *)
Lemma build_intervals_ends (change_points : list Z) :
  Permutation change_points (sorted change_points) /\
  StronglySorted Z.le (sorted change_points) /\
  map fst (_build_intervals change_points) = None :: map Some (sorted change_points) /\
  map snd (_build_intervals change_points) = map Some (sorted change_points) ++ [None] /\
  List.length (_build_intervals change_points) = S (List.length change_points).
Proof.
  rewrite ChangePointsFacts.build_intervals_unfold.
  destruct (intervals_from_ends None (sorted change_points)) as [Hf Hs].
  split; [apply ChangePointsFacts.sorted_perm |].
  split; [apply ChangePointsFacts.sorted_strongly |].
  split; [exact Hf |]. split; [exact Hs |].
  assert (Hl : List.length (map fst (intervals_from None (sorted change_points)))
               = S (List.length change_points)).
  { rewrite Hf. cbn [List.length]. rewrite length_map. f_equal.
    symmetry. apply Permutation_length, ChangePointsFacts.sorted_perm. }
  now rewrite length_map in Hl.
Qed.

End IntervalFacts.

(** X1: the intervals are the ascending change points, each the right
    end of one interval and the left end of the next, between two open
    ends; so there is one interval more than there are change points. *)
Theorem X1_build_intervals_boundaries (change_points : list Z) :
  exists s,
    Permutation change_points s /\ StronglySorted Z.le s /\
    map fst (ChangePoints._build_intervals change_points) = None :: map Some s /\
    map snd (ChangePoints._build_intervals change_points) = map Some s ++ [None] /\
    List.length (ChangePoints._build_intervals change_points)
    = S (List.length change_points).
Proof.
  exists (ChangePoints.sorted change_points).
  apply IntervalFacts.build_intervals_ends.
Qed.

(** X2: every point of the axis lies in exactly one of the intervals
    (left end included, right end excluded), duplicates among the change
    points or not. *)
Theorem X2_build_intervals_partition (change_points : list Z) (x : Z) :
  List.length (filter (covers x) (ChangePoints._build_intervals change_points))
  = 1%nat.
Proof.
  rewrite ChangePointsFacts.build_intervals_unfold.
  rewrite IntervalFacts.count_covers_from.
  - reflexivity.
  - apply ChangePointsFacts.sorted_strongly.
  - intros a y Ha. discriminate.
Qed.

(** X3: the intervals depend on which change points are given and how
    often, not on the order in which they are given. *)
Theorem X3_build_intervals_order_independent (l l' : list Z) :
  Permutation l l' ->
  ChangePoints._build_intervals l = ChangePoints._build_intervals l'.
Proof.
  intros Hp. rewrite !ChangePointsFacts.build_intervals_unfold. f_equal.
  apply IntervalFacts.sorted_perm_unique;
    try apply ChangePointsFacts.sorted_strongly.
  eapply Permutation_trans;
    [apply Permutation_sym, ChangePointsFacts.sorted_perm |].
  eapply Permutation_trans; [exact Hp | apply ChangePointsFacts.sorted_perm].
Qed.

Lemma X3_build_intervals_order_witness :
  Permutation [5; 2; 8; 2] [2; 8; 2; 5] /\
  ChangePoints._build_intervals [5; 2; 8; 2]
  = ChangePoints._build_intervals [2; 8; 2; 5].
Proof.
  assert (Hp : Permutation [5; 2; 8; 2] [2; 8; 2; 5]).
  { apply (Permutation_cons_app [2; 8; 2] [] 5 (Permutation_refl _)). }
  split; [exact Hp |].
  apply (X3_build_intervals_order_independent _ _ Hp).
Defined.

(** X4: for every adapter, [get_change_points_intervals] raises what
    [get_change_points] raises, and otherwise returns a chain of
    intervals: the first has no left end, the last has no right end, and
    each interval ends at a change point at which the next one starts. *)
Theorem X4_adapter_intervals_chain {DataFrame : Type}
    (self : BaseChangePointsModelAdapter DataFrame) (df : DataFrame)
    (in_column : string) :
  (forall e, get_change_points self df in_column = Raise e ->
             get_change_points_intervals self df in_column = Raise e) /\
  (forall cps, get_change_points self df in_column = Ok cps ->
     exists ivs,
       get_change_points_intervals self df in_column = Ok ivs /\
       List.length ivs = S (List.length cps) /\
       (exists r, nth_error ivs 0 = Some (None, r)) /\
       (exists a, nth_error ivs (List.length cps) = Some (a, None)) /\
       (forall i a b c d,
          nth_error ivs i = Some (a, b) -> nth_error ivs (S i) = Some (c, d) ->
          b = c /\ exists z, b = Some z /\ In z cps)).
Proof.
  unfold get_change_points_intervals. split.
  - intros e ->. reflexivity.
  - intros cps ->. exists (ChangePoints._build_intervals cps).
    split; [reflexivity |].
    destruct (IntervalFacts.build_intervals_ends cps) as (Hp & _ & Hf & Hs & Hlen).
    set (s := ChangePoints.sorted cps) in *.
    set (ivs := ChangePoints._build_intervals cps) in *.
    assert (Hnth : forall i a b, nth_error ivs i = Some (a, b) ->
              nth_error (None :: map Some s) i = Some a /\
              nth_error (map Some s ++ [None]) i = Some b).
    { intros i a b Hi. rewrite <- Hf, <- Hs, !nth_error_map.
      unfold ChangePoints.TTimestampInterval in *. rewrite Hi.
      split; reflexivity. }
    split; [exact Hlen | split; [| split]].
    + destruct (nth_error ivs 0) as [[a b] |] eqn:E.
      * destruct (Hnth _ a b E) as [Ha _]. cbn in Ha. injection Ha as <-. eauto.
      * apply nth_error_None in E. lia.
    + destruct (nth_error ivs (List.length cps)) as [[a b] |] eqn:E.
      * destruct (Hnth _ a b E) as [_ Hb].
        rewrite nth_error_app2 in Hb
          by (rewrite length_map, (Permutation_length Hp); lia).
        rewrite length_map, (Permutation_length Hp), Nat.sub_diag in Hb.
        cbn in Hb. injection Hb as <-. eauto.
      * apply nth_error_None in E. lia.
    + intros i a b c d Hi Hsi.
      destruct (Hnth _ _ _ Hi) as [_ Hb].
      destruct (Hnth _ _ _ Hsi) as [Hc _]. cbn [nth_error] in Hc.
      rewrite nth_error_map in Hc.
      destruct (nth_error s i) as [z |] eqn:Ez; [| discriminate].
      cbn in Hc. injection Hc as <-.
      assert (Hlt : (i < List.length s)%nat) by (apply nth_error_Some; congruence).
      rewrite nth_error_app1, nth_error_map, Ez in Hb by (now rewrite length_map).
      cbn in Hb. injection Hb as <-.
      split; [reflexivity |]. exists z. split; [reflexivity |].
      apply (Permutation_in _ (Permutation_sym Hp)).
      eapply nth_error_In; eauto.
Qed.

Lemma X4_adapter_intervals_witness :
  get_change_points_intervals (fixed_adapter (Raise (CollaboratorError "detector")))
                              tt "target"
  = Raise (CollaboratorError "detector") /\
  exists ivs,
    get_change_points_intervals (fixed_adapter (Ok [5; 2; 8])) tt "target" = Ok ivs /\
    List.length ivs = 4%nat.
Proof.
  destruct (X4_adapter_intervals_chain
              (fixed_adapter (Raise (CollaboratorError "detector"))) tt "target")
    as [Hraise _].
  destruct (X4_adapter_intervals_chain (fixed_adapter (Ok [5; 2; 8])) tt "target")
    as [_ Hok].
  split; [apply Hraise; reflexivity |].
  destruct (Hok [5; 2; 8] eq_refl) as (ivs & Hrun & Hlen & _).
  exists ivs. split; [exact Hrun | exact Hlen].
Defined.

(* ================================================================== *)
(** * Further properties of the constructor *)
(* ================================================================== *)

Lemma check_metrics_ok ms :
  check_metrics ms = Ok tt <-> Forall (fun mt => metric_mode mt = per_segment) ms.
Proof.
  induction ms as [| mt r IH]; cbn [check_metrics].
  - split; [constructor | reflexivity].
  - destruct (metric_mode mt) eqn:E; cbn.
    + rewrite IH. split; [now constructor | now inversion 1].
    + split; [discriminate | inversion 1; congruence].
Qed.

Lemma check_metrics_first_bad pre mt post :
  Forall (fun m0 => metric_mode m0 = per_segment) pre ->
  metric_mode mt <> per_segment ->
  check_metrics (pre ++ mt :: post)
  = Raise (ValueError (MetricMode (class_name mt) (metric_mode mt))).
Proof.
  intros Hpre Hbad. induction Hpre as [| m0 r Hm0 _ IH]; cbn [app check_metrics].
  - destruct (metric_mode mt); [congruence | reflexivity].
  - now rewrite Hm0.
Qed.

(** X5: the constructor returns an object exactly when the fold count is
    at least 1, there is a metric, every metric is in per-segment mode
    and the lower-cased policy name is "expand" or "constant"; the object
    then holds the arguments as given, the policy of that name, the
    history flag 0 for [expand] and 1 for [constant], the fold column
    "fold_number" and an empty fold store. *)
Theorem X5_init_accepts model0 h ms k (m : string) j :
  ((exists self, __init__ model0 h ms k m j = Ok self) <->
   1 <= k /\ ms <> [] /\
   Forall (fun mt => metric_mode mt = per_segment) ms /\
   (Py.lower m = "expand" \/ Py.lower m = "constant")) /\
  (forall self, __init__ model0 h ms k m j = Ok self ->
     self = mkCV model0 h j k ms (mode self)
                 (match mode self with expand => 0 | constant => 1 end)
                 "fold_number" [] /\
     (mode self = expand <-> Py.lower m = "expand") /\
     (mode self = constant <-> Py.lower m = "constant")).
Proof.
  split.
  - unfold __init__. split.
    + intros [self H].
      destruct (Z.ltb_spec k 1); [discriminate |].
      destruct ms as [| m0 r]; [discriminate |].
      destruct (check_metrics (m0 :: r)) as [[] |] eqn:Ec; [| discriminate].
      apply check_metrics_ok in Ec.
      unfold CrossValidationMode_getitem in H.
      destruct (String.eqb_spec (Py.lower m) "expand");
        [repeat split; auto; discriminate |].
      destruct (String.eqb_spec (Py.lower m) "constant"); [| discriminate].
      repeat split; auto; discriminate.
    + intros (Hk & Hms & Hall & Hm).
      destruct (Z.ltb_spec k 1); [lia |].
      destruct ms as [| m0 r]; [congruence |].
      rewrite (proj2 (check_metrics_ok _) Hall).
      unfold CrossValidationMode_getitem.
      destruct Hm as [-> | ->]; cbn; eauto.
  - intros self H. unfold __init__ in H.
    destruct (Z.ltb_spec k 1); [discriminate |].
    destruct ms as [| m0 r]; [discriminate |].
    destruct (check_metrics (m0 :: r)) as [[] |]; [| discriminate].
    unfold CrossValidationMode_getitem in H.
    destruct (String.eqb_spec (Py.lower m) "expand") as [E | E].
    + injection H as <-. cbn. rewrite E.
      repeat split; auto; discriminate.
    + destruct (String.eqb_spec (Py.lower m) "constant") as [E' | E'];
        [| discriminate].
      injection H as <-. cbn.
      repeat split; auto; try discriminate; congruence.
Qed.

Lemma X5_init_accepts_witness :
  (exists self, __init__ idle_model 2 demo_metrics 3 "Constant" 1 = Ok self) /\
  demo_cv constant 3 2
  = mkCV idle_model 2 1 3 demo_metrics constant 1 "fold_number" [].
Proof.
  destruct (X5_init_accepts idle_model 2 demo_metrics 3 "Constant" 1) as [[_ Hex] _].
  split; [| reflexivity].
  apply Hex.
  split; [lia | split; [discriminate | split; [| right; reflexivity]]].
  repeat constructor.
Defined.

(** X6: the constructor's checks come in a fixed order, whatever the
    policy name is: a fold count below 1 gives the [ValueError] carrying
    that count; otherwise an empty metric list gives the [ValueError] for
    missing metrics; otherwise the first metric of the list that is not
    in per-segment mode is the one the [ValueError] names, with its
    mode. *)
Theorem X6_init_rejects model0 h ms k (m : string) j :
  (k < 1 -> __init__ model0 h ms k m j = Raise (ValueError (FoldsNumber k))) /\
  (1 <= k -> ms = [] -> __init__ model0 h ms k m j = Raise (ValueError NoMetrics)) /\
  (1 <= k ->
   forall pre mt post,
     ms = pre ++ mt :: post ->
     Forall (fun m0 => metric_mode m0 = per_segment) pre ->
     metric_mode mt <> per_segment ->
     __init__ model0 h ms k m j
     = Raise (ValueError (MetricMode (class_name mt) (metric_mode mt)))).
Proof.
  unfold __init__. split; [| split].
  - intros Hk. destruct (Z.ltb_spec k 1); [reflexivity | lia].
  - intros Hk ->. destruct (Z.ltb_spec k 1); [lia | reflexivity].
  - intros Hk pre mt post -> Hpre Hbad.
    destruct (Z.ltb_spec k 1); [lia |].
    rewrite (check_metrics_first_bad pre mt post Hpre Hbad).
    destruct pre; reflexivity.
Qed.

Lemma X6_init_rejects_witness :
  __init__ idle_model 2 demo_metrics 0 "no such policy" 1
  = Raise (ValueError (FoldsNumber 0)) /\
  __init__ idle_model 2 [] 3 "no such policy" 1 = Raise (ValueError NoMetrics) /\
  __init__ idle_model 2
    (demo_metrics ++ macro_metric "MSE" :: [macro_metric "MAPE"]) 3 "no such policy" 1
  = Raise (ValueError (MetricMode "MSE" macro)).
Proof.
  destruct (X6_init_rejects idle_model 2 demo_metrics 0 "no such policy" 1)
    as (H1 & _ & _).
  destruct (X6_init_rejects idle_model 2 [] 3 "no such policy" 1) as (_ & H2 & _).
  destruct (X6_init_rejects idle_model 2
              (demo_metrics ++ macro_metric "MSE" :: [macro_metric "MAPE"]) 3
              "no such policy" 1) as (_ & _ & H3).
  split; [apply H1; lia | split; [apply H2; [lia | reflexivity] |]].
  apply (H3 ltac:(lia) demo_metrics (macro_metric "MSE") [macro_metric "MAPE"]);
    [reflexivity | repeat constructor | discriminate].
Defined.

(* ================================================================== *)
(** * Further properties of the fold planner *)
(* ================================================================== *)

Lemma plan_nth_ok self N i :
  0 <= i < n_folds self ->
  nth_error (plan self N) (Z.to_nat i)
  = Some (fold_bounds self N (n_folds self - i)).
Proof.
  intros Hi. unfold plan, Py.range_down.
  rewrite nth_error_map, countdown_nth by lia.
  cbn [option_map]. do 2 f_equal. lia.
Qed.

Lemma mapM_ok_iff {A B : Type} (f : A -> Res B) (l : list A) :
  (exists ys, mapM f l = Ok ys) <-> (forall x, In x l -> exists y, f x = Ok y).
Proof.
  split.
  - intros [ys H] x Hx.
    destruct (f x) as [y | e] eqn:E; [eauto |].
    destruct (mapM_some_raise f l x e Hx E) as [e' He']. congruence.
  - intros H. destruct (mapM_all_ok f l H) as (ys & Hys & _). eauto.
Qed.

Lemma index_or_raise_ok (timestamps : list timestamp) i :
  (exists t, index_or_raise timestamps i = Ok t) <->
  - Z.of_nat (List.length timestamps) <= i < Z.of_nat (List.length timestamps).
Proof.
  unfold index_or_raise, Py.getitem.
  destruct (Z.leb_spec 0 i) as [Hpos | Hneg].
  - destruct (Z.ltb_spec i (Z.of_nat (List.length timestamps))) as [Hlt | Hge].
    + destruct (nth_error timestamps (Z.to_nat i)) eqn:E.
      * split; [lia | eauto].
      * apply nth_error_None in E. lia.
    + split; [intros [t H]; discriminate | lia].
  - destruct (Z.leb_spec (- Z.of_nat (List.length timestamps)) i) as [Hge | Hlt].
    + destruct (nth_error timestamps _) eqn:E.
      * split; [lia | eauto].
      * apply nth_error_None in E. lia.
    + split; [intros [t H]; discriminate | lia].
Qed.

Lemma index_or_raise_exn (timestamps : list timestamp) i e :
  index_or_raise timestamps i = Raise e -> e = IndexError.
Proof.
  unfold index_or_raise. destruct (Py.getitem timestamps i); [discriminate |].
  now intros H; injection H.
Qed.

Lemma fold_times_ok (timestamps : list timestamp) b :
  (exists t, fold_times timestamps b = Ok t) <->
  (forall i, In i [min_train_idx b; max_train_idx b; min_test_idx b; max_test_idx b] ->
     - Z.of_nat (List.length timestamps) <= i < Z.of_nat (List.length timestamps)).
Proof.
  unfold fold_times. split.
  - intros [t H] i Hi.
    destruct (index_or_raise timestamps (min_train_idx b)) eqn:E1; [| discriminate].
    destruct (index_or_raise timestamps (max_train_idx b)) eqn:E2; [| discriminate].
    destruct (index_or_raise timestamps (min_test_idx b)) eqn:E3; [| discriminate].
    destruct (index_or_raise timestamps (max_test_idx b)) eqn:E4; [| discriminate].
    apply index_or_raise_ok.
    destruct Hi as [<- | [<- | [<- | [<- | []]]]]; eauto.
  - intros H.
    destruct (proj2 (index_or_raise_ok timestamps (min_train_idx b))) as [t1 ->];
      [apply H; cbn; auto |].
    destruct (proj2 (index_or_raise_ok timestamps (max_train_idx b))) as [t2 ->];
      [apply H; cbn; auto |].
    destruct (proj2 (index_or_raise_ok timestamps (min_test_idx b))) as [t3 ->];
      [apply H; cbn; auto |].
    destruct (proj2 (index_or_raise_ok timestamps (max_test_idx b))) as [t4 ->];
      [apply H; cbn; auto |].
    eauto.
Qed.

Lemma fold_times_exn (timestamps : list timestamp) b e :
  fold_times timestamps b = Raise e -> e = IndexError.
Proof.
  unfold fold_times.
  destruct (index_or_raise timestamps (min_train_idx b)) eqn:E1;
    [| intros H; injection H as <-; eapply index_or_raise_exn; eauto].
  destruct (index_or_raise timestamps (max_train_idx b)) eqn:E2;
    [| intros H; injection H as <-; eapply index_or_raise_exn; eauto].
  destruct (index_or_raise timestamps (min_test_idx b)) eqn:E3;
    [| intros H; injection H as <-; eapply index_or_raise_exn; eauto].
  destruct (index_or_raise timestamps (max_test_idx b)) eqn:E4;
    [discriminate | intros H; injection H as <-; eapply index_or_raise_exn; eauto].
Qed.

(** X7: for [N >= K*H] the test ranges of the folds are ranges of
    positions of the axis and tile its end: an index lies in the test range
    of some fold exactly when it is one of the last [K*H] positions
    [N-K*H .. N-1]. *)
Theorem X7_test_windows_tile_the_tail model0 h ms k m j self N (x : Z) :
  __init__ model0 h ms k m j = Ok self ->
  1 <= h -> k * h <= N ->
  (forall b, In b (plan self N) ->
     0 <= min_test_idx b <= max_test_idx b /\ max_test_idx b <= N - 1) /\
  ((exists b, In b (plan self N) /\ in_range (min_test_idx b) (max_test_idx b) x)
   <-> N - k * h <= x <= N - 1).
Proof.
  intros Hinit Hh HN.
  apply init_inv in Hinit. destruct Hinit as (HK & <- & <- & _).
  split; [| split].
  - intros b Hb. apply plan_In in Hb. destruct Hb as [i Hi].
    apply plan_nth in Hi. destruct Hi as [Hi ->].
    unfold fold_bounds. cbn. nia.
  - intros (b & Hb & Hx). apply plan_In in Hb. destruct Hb as [i Hi].
    apply plan_nth in Hi. destruct Hi as [Hi ->].
    unfold in_range, fold_bounds in Hx. cbn in Hx. nia.
  - intros Hx.
    set (d := x - (N - n_folds self * horizon self)).
    assert (Hd : 0 <= d < n_folds self * horizon self) by (unfold d; lia).
    pose proof (Z.div_mod d (horizon self) ltac:(lia)) as Hdm.
    pose proof (Z.mod_pos_bound d (horizon self) ltac:(lia)) as Hmod.
    assert (Hq : 0 <= d / horizon self < n_folds self).
    { split; [apply Z.div_pos; lia |].
      apply Z.div_lt_upper_bound; lia. }
    exists (fold_bounds self N (n_folds self - d / horizon self)). split.
    + eapply nth_error_In. apply (plan_nth_ok self N _ Hq).
    + unfold in_range, fold_bounds. cbn. unfold d in *. nia.
Qed.

Lemma X7_test_windows_tile_witness :
  __init__ idle_model 2 demo_metrics 3 "expand" 1 = Ok (demo_cv expand 3 2) /\
  3 * 2 <= 10 /\
  ((exists b, In b (plan (demo_cv expand 3 2) 10) /\
              in_range (min_test_idx b) (max_test_idx b) 7)
   <-> 10 - 3 * 2 <= 7 <= 10 - 1).
Proof.
  split; [reflexivity | split; [lia |]].
  apply (X7_test_windows_tile_the_tail idle_model 2 demo_metrics 3 "expand" 1
           (demo_cv expand 3 2) 10 7);
    [reflexivity | lia | lia].
Defined.

(** X8: with strictly more than [K*H] points, where every train range
    is a range of positions of the axis, the train range of a fold ends
    where the test range of the fold before it ends; under the expanding
    policy it is therefore the previous train range extended by the
    previous test range ([H] positions longer), under the constant policy
    the previous train range moved on by [H]. *)
Theorem X8_next_train_absorbs_test model0 h ms k m j self N i a b :
  __init__ model0 h ms k m j = Ok self ->
  1 <= h -> k * h < N ->
  nth_error (plan self N) i = Some a ->
  nth_error (plan self N) (S i) = Some b ->
  (0 <= min_train_idx a <= max_train_idx a /\ max_train_idx a <= N - 1) /\
  (0 <= min_train_idx b <= max_train_idx b /\ max_train_idx b <= N - 1) /\
  max_train_idx b = max_test_idx a /\
  min_test_idx b = max_test_idx a + 1 /\
  (mode self = expand ->
     min_train_idx b = min_train_idx a /\
     range_len (min_train_idx b) (max_train_idx b)
     = range_len (min_train_idx a) (max_train_idx a) + h) /\
  (mode self = constant ->
     min_train_idx b = min_train_idx a + h /\
     max_train_idx b = max_train_idx a + h).
Proof.
  intros Hinit Hh HN Ha Hb.
  pose proof (plan_indices_valid _ _ _ _ _ _ _ N a Hinit Hh HN
                (nth_error_In _ _ Ha)) as (Ha1 & Ha2 & Ha3).
  pose proof (plan_indices_valid _ _ _ _ _ _ _ N b Hinit Hh HN
                (nth_error_In _ _ Hb)) as (Hb1 & Hb2 & Hb3).
  split; [lia | split; [lia |]].
  apply init_inv in Hinit.
  destruct Hinit as (HK & <- & <- & _ & _ & _ & _ & Hc).
  apply plan_nth in Ha. destruct Ha as [_ ->].
  apply plan_nth in Hb. destruct Hb as [_ ->].
  unfold fold_bounds, range_len. cbn.
  split; [lia | split; [lia | split]];
    intros Hm; rewrite Hm in Hc; rewrite Hc; split; lia.
Qed.

Lemma X8_next_train_absorbs_test_witness :
  __init__ idle_model 2 demo_metrics 3 "expand" 1 = Ok (demo_cv expand 3 2) /\
  3 * 2 < 10 /\
  nth_error (plan (demo_cv expand 3 2) 10) 0 = Some (mkBounds 0 3 4 5) /\
  nth_error (plan (demo_cv expand 3 2) 10) 1 = Some (mkBounds 0 5 6 7) /\
  max_train_idx (mkBounds 0 5 6 7) = max_test_idx (mkBounds 0 3 4 5).
Proof.
  split; [reflexivity | split; [lia | split; [reflexivity | split; [reflexivity |]]]].
  destruct (X8_next_train_absorbs_test idle_model 2 demo_metrics 3 "expand" 1
              (demo_cv expand 3 2) 10 0%nat (mkBounds 0 3 4 5) (mkBounds 0 5 6 7)
              eq_refl ltac:(lia) ltac:(lia) eq_refl eq_refl)
    as (_ & _ & Hend & _).
  exact Hend.
Defined.

(** X9: the generator's time-stamp lookups use Python's indexing, so
    they fail only beyond [-N .. N-1]: the fold times are produced for all
    [K] folds exactly when [K*H + 1 <= 2*N] (and, under the constant
    policy, [(K-1)*H <= N-1]); otherwise the generator raises
    [IndexError].  Between these bounds and [K*H] the lookups wrap around
    instead of raising. *)
Theorem X9_generator_index_error model0 h ms k m j self
    (timestamps : list timestamp) :
  __init__ model0 h ms k m j = Ok self ->
  1 <= h ->
  (lookups_in_axis (mode self) k h (Z.of_nat (List.length timestamps)) ->
   exists times,
     generate_fold_times self timestamps = Ok times /\
     Z.of_nat (List.length times) = k) /\
  (~ lookups_in_axis (mode self) k h (Z.of_nat (List.length timestamps)) ->
   generate_fold_times self timestamps = Raise IndexError).
Proof.
  intros Hinit Hh.
  apply init_inv in Hinit.
  destruct Hinit as (HK & <- & <- & _ & _ & _ & _ & Hc).
  set (N := Z.of_nat (List.length timestamps)).
  unfold generate_fold_times. fold N. unfold lookups_in_axis. split.
  - intros [H1 H2].
    destruct (mapM_all_ok (fold_times timestamps) (plan self N)) as (ts & Hts & Hl).
    + intros b Hb. apply plan_In in Hb. destruct Hb as [i Hi].
      apply plan_nth in Hi. destruct Hi as [Hi ->].
      apply fold_times_ok. fold N. unfold fold_bounds. cbn.
      intros x [<- | [<- | [<- | [<- | []]]]]; try nia.
      destruct (mode self); rewrite Hc; [nia |].
      specialize (H2 eq_refl). nia.
    + exists ts. split; [exact Hts |]. rewrite Hl, plan_length. lia.
  - intros Hnot.
    destruct (mapM (fold_times timestamps) (plan self N)) as [ts | e] eqn:E.
    + exfalso. apply Hnot.
      assert (Hall : forall b, In b (plan self N) ->
                forall x, In x [min_train_idx b; max_train_idx b;
                                min_test_idx b; max_test_idx b] ->
                          - N <= x < N).
      { intros b Hb. apply fold_times_ok.
        apply (proj1 (mapM_ok_iff (fold_times timestamps) (plan self N)));
          eauto. }
      split.
      * assert (Hfirst : In (fold_bounds self N (n_folds self - 0)) (plan self N))
          by (eapply nth_error_In; apply (plan_nth_ok self N 0); lia).
        specialize (Hall _ Hfirst (max_train_idx _) (or_intror (or_introl eq_refl))).
        unfold fold_bounds in Hall. cbn in Hall. nia.
      * intros Hm. rewrite Hm in Hc.
        assert (Hlast : In (fold_bounds self N (n_folds self - (n_folds self - 1)))
                           (plan self N))
          by (eapply nth_error_In; apply (plan_nth_ok self N (n_folds self - 1)); lia).
        specialize (Hall _ Hlast (min_train_idx _) (or_introl eq_refl)).
        unfold fold_bounds in Hall. cbn in Hall. rewrite Hc in Hall. nia.
    + destruct (mapM_raise_inv _ _ _ E) as (b & _ & Hb).
      now rewrite (fold_times_exn _ _ _ Hb).
Qed.

Lemma X9_generator_index_error_witness :
  __init__ idle_model 2 demo_metrics 3 "expand" 1 = Ok (demo_cv expand 3 2) /\
  generate_fold_times (demo_cv expand 3 2) [10; 11; 12; 13]
  = Ok [mkTimes 10 11 12 13; mkTimes 10 13 10 11; mkTimes 10 11 12 13] /\
  (exists times,
     generate_fold_times (demo_cv expand 3 2) [10; 11; 12; 13] = Ok times /\
     Z.of_nat (List.length times) = 3) /\
  generate_fold_times (demo_cv expand 3 2) [10; 11; 12] = Raise IndexError.
Proof.
  destruct (X9_generator_index_error idle_model 2 demo_metrics 3 "expand" 1
              (demo_cv expand 3 2) [10; 11; 12; 13] eq_refl ltac:(lia)) as [Hok _].
  destruct (X9_generator_index_error idle_model 2 demo_metrics 3 "expand" 1
              (demo_cv expand 3 2) [10; 11; 12] eq_refl ltac:(lia)) as [_ Hbad].
  split; [reflexivity | split; [reflexivity | split]].
  - apply Hok. unfold lookups_in_axis. cbn. split; [lia | discriminate].
  - apply Hbad. unfold lookups_in_axis. cbn. lia.
Defined.

Lemma mapM_nth {A B : Type} (f : A -> Res B) (l : list A) ys i y :
  mapM f l = Ok ys -> nth_error ys i = Some y ->
  exists x, nth_error l i = Some x /\ f x = Ok y.
Proof.
  revert ys i; induction l as [| x r IH]; intros ys i; cbn [mapM].
  - intros H; injection H as <-. destruct i; discriminate.
  - destruct (f x) as [y0 | e] eqn:Ex; [| discriminate].
    destruct (mapM f r) as [ys0 | e] eqn:Er; [| discriminate].
    intros H; injection H as <-.
    destruct i as [| i]; cbn [nth_error].
    + intros H; injection H as <-. eauto.
    + intros H. apply (IH ys0 i eq_refl H).
Qed.

Lemma index_or_raise_position (timestamps : list timestamp) i t :
  0 <= i -> index_or_raise timestamps i = Ok t ->
  nth_error timestamps (Z.to_nat i) = Some t.
Proof.
  intros Hi. unfold index_or_raise, Py.getitem.
  destruct (Z.leb_spec 0 i); [| lia].
  destruct (i <? Z.of_nat (List.length timestamps)); [| discriminate].
  destruct (nth_error timestamps (Z.to_nat i)); [| discriminate].
  intros Heq. now injection Heq as <-.
Qed.

Lemma increasing_nth (l : list Z) i1 i2 a b :
  StronglySorted Z.lt l ->
  nth_error l i1 = Some a -> nth_error l i2 = Some b ->
  (i1 < i2)%nat -> a < b.
Proof.
  intros Hs; revert i1 i2; induction Hs as [| x r Hr IH Hx]; intros i1 i2 Ha Hb Hlt.
  - destruct i1; discriminate.
  - destruct i2 as [| i2]; [lia |]. cbn [nth_error] in Hb.
    destruct i1 as [| i1]; cbn [nth_error] in Ha.
    + injection Ha as <-. rewrite Forall_forall in Hx. apply Hx.
      eapply nth_error_In; eauto.
    + apply (IH i1 i2 Ha Hb). lia.
Qed.

Lemma increasing_nth_le (l : list Z) i1 i2 a b :
  StronglySorted Z.lt l ->
  nth_error l i1 = Some a -> nth_error l i2 = Some b ->
  (i1 <= i2)%nat -> a <= b.
Proof.
  intros Hs Ha Hb Hle.
  destruct (Nat.eq_dec i1 i2) as [-> | Hne].
  - assert (Hab : a = b) by congruence. lia.
  - assert (Hab : a < b) by (eapply increasing_nth; eauto; lia). lia.
Qed.

(** X10: on a strictly increasing time axis with more than [K*H] points
    every fold gets time stamps in the order train start <= train end <
    test start <= test end, and the test window of a fold ends before the
    test window of the next fold starts. *)
Theorem X10_fold_times_ordered model0 h ms k m j self
    (timestamps : list timestamp) :
  __init__ model0 h ms k m j = Ok self ->
  1 <= h ->
  k * h < Z.of_nat (List.length timestamps) ->
  StronglySorted Z.lt timestamps ->
  exists times,
    generate_fold_times self timestamps = Ok times /\
    Z.of_nat (List.length times) = k /\
    (forall t, In t times ->
       min_train t <= max_train t /\ max_train t < min_test t /\
       min_test t <= max_test t) /\
    (forall i a b,
       nth_error times i = Some a -> nth_error times (S i) = Some b ->
       max_test a < min_test b).
Proof.
  intros Hinit Hh HN Hs.
  pose proof (chl_cases _ _ _ _ _ _ _ Hinit) as Hc.
  apply init_inv in Hinit. destruct Hinit as (HK & <- & <- & _).
  set (N := Z.of_nat (List.length timestamps)) in *.
  assert (Hvalid : forall i, Z.of_nat i < n_folds self ->
            let b := fold_bounds self N (n_folds self - Z.of_nat i) in
            0 <= min_train_idx b <= max_train_idx b /\
            max_train_idx b < min_test_idx b <= max_test_idx b /\
            max_test_idx b < N).
  { intros i Hi. unfold fold_bounds. cbn. destruct Hc as [-> | ->]; nia. }
  destruct (mapM_all_ok (fold_times timestamps) (plan self N)) as (ts & Hts & Hl).
  { intros b Hb. apply plan_In in Hb. destruct Hb as [i Hi].
    apply plan_nth in Hi. destruct Hi as [Hi ->].
    apply fold_times_ok. fold N. specialize (Hvalid i Hi). cbv zeta in Hvalid.
    intros x [<- | [<- | [<- | [<- | []]]]]; lia. }
  assert (Hpos : forall i t, nth_error ts i = Some t ->
            Z.of_nat i < n_folds self /\
            let b := fold_bounds self N (n_folds self - Z.of_nat i) in
            nth_error timestamps (Z.to_nat (min_train_idx b)) = Some (min_train t) /\
            nth_error timestamps (Z.to_nat (max_train_idx b)) = Some (max_train t) /\
            nth_error timestamps (Z.to_nat (min_test_idx b)) = Some (min_test t) /\
            nth_error timestamps (Z.to_nat (max_test_idx b)) = Some (max_test t)).
  { intros i t Hi.
    destruct (mapM_nth _ _ _ _ _ Hts Hi) as (b & Hb & Hft).
    apply plan_nth in Hb. destruct Hb as [Hlt ->]. split; [exact Hlt |].
    specialize (Hvalid i Hlt). cbv zeta in *.
    unfold fold_times in Hft.
    destruct (index_or_raise timestamps (min_train_idx _)) eqn:E1; [| discriminate].
    destruct (index_or_raise timestamps (max_train_idx _)) eqn:E2; [| discriminate].
    destruct (index_or_raise timestamps (min_test_idx _)) eqn:E3; [| discriminate].
    destruct (index_or_raise timestamps (max_test_idx _)) eqn:E4; [| discriminate].
    injection Hft as <-. cbn [min_train max_train min_test max_test].
    repeat split; apply index_or_raise_position; auto; lia. }
  exists ts. unfold generate_fold_times. fold N.
  split; [exact Hts | split; [rewrite Hl, plan_length; lia | split]].
  - intros t Ht. apply In_nth_error in Ht. destruct Ht as [i Hi].
    destruct (Hpos i t Hi) as (Hlt & H1 & H2 & H3 & H4).
    specialize (Hvalid i Hlt). cbv zeta in Hvalid.
    split; [| split].
    + eapply increasing_nth_le; eauto. lia.
    + eapply increasing_nth; eauto. lia.
    + eapply increasing_nth_le; eauto. lia.
  - intros i a b Ha Hb.
    destruct (Hpos i a Ha) as (Hlt & _ & _ & _ & H4).
    destruct (Hpos (S i) b Hb) as (Hlt' & _ & _ & H3 & _).
    pose proof (Hvalid i Hlt) as Hv. pose proof (Hvalid (S i) Hlt') as Hv'.
    cbv zeta in Hv, Hv'.
    eapply increasing_nth; eauto.
    unfold fold_bounds in *. cbn in *. nia.
Qed.

Lemma X10_fold_times_ordered_witness :
  __init__ idle_model 2 demo_metrics 2 "constant" 1 = Ok (demo_cv constant 2 2) /\
  exists times,
    generate_fold_times (demo_cv constant 2 2) [10; 11; 12; 13; 14; 15] = Ok times /\
    Z.of_nat (List.length times) = 2.
Proof.
  split; [reflexivity |].
  destruct (X10_fold_times_ordered idle_model 2 demo_metrics 2 "constant" 1
              (demo_cv constant 2 2) [10; 11; 12; 13; 14; 15])
    as (times & Hrun & Hlen & _).
  - reflexivity.
  - lia.
  - cbn. lia.
  - repeat (constructor; [| repeat (constructor; try lia)]). constructor.
  - exists times. split; [exact Hrun | exact Hlen].
Defined.

(* ================================================================== *)
(** * Further properties of the fold runner *)
(* ================================================================== *)

Lemma unique_acc_seen_ext seen seen' l :
  (forall x, In x seen <-> In x seen') ->
  Py.unique_acc seen l = Py.unique_acc seen' l.
Proof.
  revert seen seen'; induction l as [| y r IH]; intros seen seen' Hext;
    cbn [Py.unique_acc]; [reflexivity |].
  assert (Hb : existsb (String.eqb y) seen = existsb (String.eqb y) seen').
  { destruct (existsb (String.eqb y) seen) eqn:E1;
      destruct (existsb (String.eqb y) seen') eqn:E2; try reflexivity.
    - apply existsb_eqb_In, Hext, existsb_eqb_In in E1. congruence.
    - apply existsb_eqb_In, Hext, existsb_eqb_In in E2. congruence. }
  rewrite Hb. destruct (existsb (String.eqb y) seen').
  - now apply IH.
  - f_equal. apply IH. intros x. cbn [In]. rewrite Hext. reflexivity.
Qed.

Lemma dict_set_keys_str {V : Type} (d : list (string * V)) k v :
  map fst (Py.dict_set String.eqb d k v)
  = if existsb (String.eqb k) (map fst d) then map fst d else map fst d ++ [k].
Proof.
  induction d as [| [k' v'] r IH]; cbn [Py.dict_set map fst existsb app];
    [reflexivity |].
  rewrite (String.eqb_sym k k').
  destruct (String.eqb_spec k' k) as [-> | Hne]; cbn [map fst orb].
  - reflexivity.
  - rewrite IH. destruct (existsb (String.eqb k) (map fst r)); reflexivity.
Qed.

Lemma find_app_first {A : Type} (p : A -> bool) (l1 l2 : list A) :
  find p (l1 ++ l2) = match find p l1 with Some x => Some x | None => find p l2 end.
Proof.
  induction l1 as [| x r IH]; cbn [app find]; [reflexivity |].
  destruct (p x); [reflexivity | exact IH].
Qed.

Section MetricsLoop.
Variables (y_true y_pred : TSDataset) (val : Metric -> SegmentValues).

Lemma compute_metrics_loop_ok ms : forall acc w,
  (forall mt, In mt ms -> call mt y_true y_pred = Ok (val mt)) ->
  compute_metrics_loop ms y_true y_pred acc w
  = (Ok (metrics_dict val ms acc),
     mkWorld (this w)
             (calls w ++ map (fun mt => CallMetric (class_name mt)) ms)).
Proof.
  induction ms as [| mt r IH]; intros acc w Hok;
    cbn [compute_metrics_loop metrics_dict fold_left map].
  - unfold ret. rewrite app_nil_r. now destruct w.
  - unfold bind, collaborator. rewrite (Hok mt (or_introl eq_refl)).
    rewrite IH by (intros m0 Hm0; apply Hok; now right).
    cbn [this calls]. now rewrite <- app_assoc.
Qed.

Lemma metrics_dict_keys ms : forall acc,
  map fst (metrics_dict val ms acc)
  = map fst acc ++ Py.unique_acc (map fst acc) (map class_name ms).
Proof.
  induction ms as [| mt r IH]; intros acc;
    cbn [metrics_dict fold_left map Py.unique_acc].
  - now rewrite app_nil_r.
  - fold (metrics_dict val r (Py.dict_set String.eqb acc (class_name mt) (val mt))).
    rewrite IH, dict_set_keys_str.
    destruct (existsb (String.eqb (class_name mt)) (map fst acc)); [reflexivity |].
    rewrite <- app_assoc. cbn [app]. do 2 f_equal.
    apply unique_acc_seen_ext. intros x. rewrite in_app_iff. cbn [In]. tauto.
Qed.

Lemma metrics_dict_get ms name : forall acc,
  Py.dict_get String.eqb (metrics_dict val ms acc) name
  = match find (fun mt => String.eqb (class_name mt) name) (rev ms) with
    | Some mt => Some (val mt)
    | None => Py.dict_get String.eqb acc name
    end.
Proof.
  induction ms as [| mt r IH]; intros acc; cbn [metrics_dict fold_left rev];
    [reflexivity |].
  fold (metrics_dict val r (Py.dict_set String.eqb acc (class_name mt) (val mt))).
  rewrite IH, find_app_first.
  destruct (find _ (rev r)); [reflexivity |].
  cbn [find]. destruct (String.eqb_spec (class_name mt) name) as [<- | Hne].
  - apply (dict_get_set_same String.eqb string_eqb_eq).
  - apply (dict_get_set_other String.eqb string_eqb_eq). congruence.
Qed.

End MetricsLoop.

Lemma compute_metrics_loop_raise y_true y_pred pre mt post e : forall acc w,
  (forall m0, In m0 pre -> exists v, call m0 y_true y_pred = Ok v) ->
  call mt y_true y_pred = Raise e ->
  compute_metrics_loop (pre ++ mt :: post) y_true y_pred acc w
  = (Raise e,
     mkWorld (this w)
             (calls w ++ map (fun m0 => CallMetric (class_name m0)) (pre ++ [mt]))).
Proof.
  induction pre as [| m0 r IH]; intros acc w Hpre Hbad;
    cbn [app compute_metrics_loop map].
  - unfold bind, collaborator. now rewrite Hbad.
  - destruct (Hpre m0 (or_introl eq_refl)) as [v Hv].
    unfold bind at 1, collaborator at 1. rewrite Hv.
    rewrite IH; [| intros m1 Hm1; apply Hpre; now right | exact Hbad].
    cbn [this calls]. now rewrite <- app_assoc.
Qed.

(** X11: [_compute_metrics] calls the metrics once each, in the order of
    the list.  When all calls return, the result has one entry per class
    name, in the order in which the names first come up, and the entry of
    a name holds the value of the last metric of that class: metrics that
    share a class overwrite each other.  When a call raises, that
    exception is raised and the metrics after it are not called. *)
Theorem X11_compute_metrics_by_class y_true y_pred (w : World) :
  (forall val : Metric -> SegmentValues,
     (forall mt, In mt (metrics (this w)) -> call mt y_true y_pred = Ok (val mt)) ->
     exists d,
       _compute_metrics y_true y_pred w
       = (Ok d, mkWorld (this w) (calls w ++ metric_calls (this w))) /\
       map fst d = Py.unique (map class_name (metrics (this w))) /\
       forall name,
         Py.dict_get String.eqb d name
         = option_map val
             (find (fun mt => String.eqb (class_name mt) name)
                   (rev (metrics (this w))))) /\
  (forall pre mt post e,
     metrics (this w) = pre ++ mt :: post ->
     (forall m0, In m0 pre -> exists v, call m0 y_true y_pred = Ok v) ->
     call mt y_true y_pred = Raise e ->
     _compute_metrics y_true y_pred w
     = (Raise e,
        mkWorld (this w)
                (calls w ++ map (fun m0 => CallMetric (class_name m0)) (pre ++ [mt])))).
Proof.
  unfold _compute_metrics, bind, get_self. split.
  - intros val Hok. exists (metrics_dict val (metrics (this w)) []).
    split; [| split].
    + now apply compute_metrics_loop_ok.
    + now rewrite metrics_dict_keys.
    + intros name. rewrite metrics_dict_get.
      destruct (find _ _); reflexivity.
  - intros pre mt post e -> Hpre Hbad.
    now apply compute_metrics_loop_raise.
Qed.

Lemma X11_compute_metrics_witness :
  let w := mkWorld (mkCV idle_model 2 1 2 two_of_a_class expand 0 "fold_number" []) [] in
  exists d,
    _compute_metrics (mkTS [] []) (mkTS [] []) w
    = (Ok d, mkWorld (this w) [CallMetric "MAE"; CallMetric "MSE"; CallMetric "MAE"]) /\
    map fst d = ["MAE"; "MSE"]%string /\
    Py.dict_get String.eqb d "MAE" = Some [("a"%string, 3%Q)].
Proof.
  intros w.
  destruct (X11_compute_metrics_by_class (mkTS [] []) (mkTS [] []) w) as [Hok _].
  destruct (Hok two_of_a_class_values) as (d & Hrun & Hkeys & Hget).
  - intros mt [<- | [<- | [<- | []]]]; reflexivity.
  - exists d. split; [exact Hrun | split; [exact Hkeys |]].
    rewrite Hget. reflexivity.
Defined.

(** X12: [_run_fold] fits, then forecasts, then computes the metrics, and
    stops at the first of these that raises: a failing [fit] means that
    neither the forecast nor any metric is asked for, a failing forecast
    that no metric is asked for.  When all return, the result is the fold
    number it was given with the first and last time stamp of the train
    and of the test view, the forecast of the fitted model on the forecast
    base, and the metric values of the test view against that forecast.
    [self] is not changed on any of these paths. *)
Theorem X12_run_fold_steps train test forecast_base fold_number (w : World) :
  (forall e,
     fit (model (this w)) train = Raise e ->
     _run_fold train test forecast_base fold_number w
     = (Raise e, mkWorld (this w) (calls w ++ [CallFit]))) /\
  (forall forecaster e,
     fit (model (this w)) train = Ok forecaster ->
     forecaster forecast_base = Raise e ->
     _run_fold train test forecast_base fold_number w
     = (Raise e, mkWorld (this w) (calls w ++ [CallFit; CallForecast]))) /\
  (forall forecaster fc (val : Metric -> SegmentValues),
     fit (model (this w)) train = Ok forecaster ->
     forecaster forecast_base = Ok fc ->
     (forall mt, In mt (metrics (this w)) -> call mt test fc = Ok (val mt)) ->
     _run_fold train test forecast_base fold_number w
     = (Ok (fold_number,
            mkFold (mkTimerange (Py.list_min (index train)) (Py.list_max (index train)))
                   (mkTimerange (Py.list_min (index test)) (Py.list_max (index test)))
                   fc
                   (metrics_dict val (metrics (this w)) [])),
        mkWorld (this w)
                (calls w ++ [CallFit; CallForecast] ++ metric_calls (this w)))).
Proof.
  unfold _run_fold, bind, get_self, collaborator. cbn [this calls].
  split; [| split].
  - intros e ->. reflexivity.
  - intros forecaster e -> ->. now rewrite <- app_assoc.
  - intros forecaster fc val -> -> Hok.
    unfold _compute_metrics, bind, get_self. cbn [this calls].
    rewrite (compute_metrics_loop_ok test fc val) by exact Hok.
    cbn [this calls]. unfold ret, stage_timerange, metric_calls.
    now rewrite <- !app_assoc.
Qed.

Lemma X12_run_fold_steps_witness :
  _run_fold demo_ts demo_ts demo_ts 7 failing_world
  = (Raise (CollaboratorError "fit"), mkWorld (this failing_world) [CallFit]) /\
  _run_fold (slice_ts demo_ts 10 13) (slice_ts demo_ts 14 15)
            (future_ts (slice_ts demo_ts 10 13) 2) 7
            (mkWorld (mkCV idle_model 2 1 2 two_of_a_class expand 0 "fold_number" []) [])
  = (Ok (7, mkFold (mkTimerange (Some 10) (Some 13)) (mkTimerange (Some 14) (Some 15))
                   (future_ts (slice_ts demo_ts 10 13) 2)
                   [("MAE"%string, [("a"%string, 3%Q)]);
                    ("MSE"%string, [("a"%string, 2%Q)])]),
     mkWorld (mkCV idle_model 2 1 2 two_of_a_class expand 0 "fold_number" [])
             [CallFit; CallForecast; CallMetric "MAE"; CallMetric "MSE";
              CallMetric "MAE"]).
Proof.
  split.
  - apply (X12_run_fold_steps demo_ts demo_ts demo_ts 7 failing_world). reflexivity.
  - apply (proj2 (proj2 (X12_run_fold_steps
             (slice_ts demo_ts 10 13) (slice_ts demo_ts 14 15)
             (future_ts (slice_ts demo_ts 10 13) 2) 7
             (mkWorld (mkCV idle_model 2 1 2 two_of_a_class expand 0 "fold_number" []) [])))
           (fun base => Ok base) (future_ts (slice_ts demo_ts 10 13) 2)
           two_of_a_class_values).
    + reflexivity.
    + reflexivity.
    + intros mt [<- | [<- | [<- | []]]]; reflexivity.
Defined.

(* ================================================================== *)
(** * Further properties of [backtest] *)
(* ================================================================== *)

(** The traces of the steps of a fold that runs to its end. *)
Lemma compute_metrics_loop_world ms y_true y_pred : forall acc w d w',
  compute_metrics_loop ms y_true y_pred acc w = (Ok d, w') ->
  w' = mkWorld (this w)
               (calls w ++ map (fun mt => CallMetric (class_name mt)) ms).
Proof.
  induction ms as [| mt r IH]; intros acc w d w'; cbn [compute_metrics_loop map].
  - unfold ret. intros H; injection H as _ <-. rewrite app_nil_r. now destruct w.
  - unfold bind, collaborator.
    destruct (call mt y_true y_pred) as [v | e]; [| discriminate].
    intros H. apply IH in H. cbn [this calls] in H.
    now rewrite <- app_assoc in H.
Qed.

Lemma run_fold_world train test forecast_base i w r w' :
  _run_fold train test forecast_base i w = (Ok r, w') ->
  fst r = i /\
  w' = mkWorld (this w) (calls w ++ [CallFit; CallForecast] ++ metric_calls (this w)).
Proof.
  unfold _run_fold, bind, get_self, collaborator. cbn [this calls].
  destruct (fit (model (this w)) train) as [fc | e]; [| discriminate].
  destruct (fc forecast_base) as [f | e]; [| discriminate].
  unfold _compute_metrics, bind, get_self. cbn [this calls].
  destruct (compute_metrics_loop _ _ _ _ _) as [[d | e] w1] eqn:E; [| discriminate].
  apply compute_metrics_loop_world in E. cbn [this calls] in E.
  unfold ret. intros H; injection H as <- <-. split; [reflexivity |].
  rewrite E. unfold metric_calls. now rewrite <- !app_assoc.
Qed.

Lemma generate_fold_world env ts transforms offset w v w' :
  generate_fold env ts transforms offset w = (Ok v, w') ->
  w' = mkWorld (this w) (calls w ++ [CallSplit; CallFitTransform; CallMakeFuture]).
Proof.
  unfold generate_fold, bind, get_self, lift, collaborator, ret. cbn [this calls].
  destruct (fold_times _ _) as [times | e]; [| discriminate].
  destruct (train_test_split env ts times) as [sp | e]; [| discriminate].
  destruct (fit_transform env (fst sp) transforms) as [tr | e]; [| discriminate].
  destruct (make_future env tr _) as [fb | e]; [| discriminate].
  intros H; injection H as _ <-. now rewrite <- !app_assoc.
Qed.

Lemma fold_task_world env ts transforms task w r w' :
  fold_task env ts transforms task w = (Ok r, w') ->
  fst r = fst task /\
  w' = mkWorld (this w) (calls w ++ task_calls (this w)).
Proof.
  unfold fold_task, bind at 1.
  destruct (generate_fold env ts transforms (snd task) w) as [[v | e] w1] eqn:E;
    [| discriminate].
  apply generate_fold_world in E. intros H. apply run_fold_world in H.
  destruct H as [Hr ->]. split; [exact Hr |].
  rewrite E. cbn [this calls]. unfold task_calls. now rewrite <- !app_assoc.
Qed.

Lemma for_collect_world env ts transforms tasks : forall w folds w',
  for_collect (fold_task env ts transforms) tasks w = (Ok folds, w') ->
  map fst folds = map fst tasks /\
  w' = mkWorld (this w)
               (calls w ++ List.concat (map (fun _ => task_calls (this w)) tasks)).
Proof.
  induction tasks as [| task r IH]; intros w folds w'; cbn [for_collect map List.concat].
  - unfold ret. intros H; injection H as <- <-.
    split; [reflexivity |]. rewrite app_nil_r. now destruct w.
  - unfold bind at 1.
    destruct (fold_task env ts transforms task w) as [[y | e] w1] eqn:E;
      [| discriminate].
    apply fold_task_world in E. destruct E as [Hy ->].
    unfold bind at 1.
    destruct (for_collect _ r _) as [[ys | e] w2] eqn:Er; [| discriminate].
    apply IH in Er. destruct Er as [Hys ->]. cbn [this calls].
    unfold ret. intros H; injection H as <- <-.
    split; [cbn [map]; congruence |]. now rewrite <- app_assoc.
Qed.

Lemma enumerate_from_keys {A : Type} (l : list A) : forall i,
  map fst (Py.enumerate_from i l)
  = map (fun n => i + Z.of_nat n) (seq 0 (List.length l)).
Proof.
  induction l as [| x r IH]; intros i; cbn [Py.enumerate_from map List.length seq];
    [reflexivity |].
  rewrite IH, <- seq_shift, map_map.
  replace (i + Z.of_nat 0) with i by lia. f_equal.
  apply map_ext. intros n. lia.
Qed.

Lemma fold_tasks_keys self : map fst (fold_tasks self) = fold_numbers (n_folds self).
Proof.
  unfold fold_tasks, Py.enumerate, fold_numbers, Py.range_down.
  rewrite enumerate_from_keys, countdown_length. apply map_ext. intros n. lia.
Qed.

(** The queries at the end of [backtest], on a store that is not empty:
    they return when the loop of [get_forecasts] does, and raise what it
    raises. *)
Lemma final_queries_run w :
  _folds (this w) <> [] ->
  final_queries w
  = (match snd (forecasts_loop (_fold_column (this w)) (_folds (this w)) []) with
     | Ok rows =>
         Ok (PerFold (RowSort.sort (metrics_frame (_folds (this w)))),
             rows,
             map fold_info_row
                 (fst (forecasts_loop (_fold_column (this w)) (_folds (this w)) [])))
     | Raise e => Raise e
     end,
     mkWorld (with_folds (this w)
                (fst (forecasts_loop (_fold_column (this w)) (_folds (this w)) [])))
             (calls w)).
Proof.
  intros Hne.
  unfold final_queries, bind at 1. rewrite (get_metrics_run false w Hne).
  unfold bind at 1. rewrite get_forecasts_run.
  destruct (snd (forecasts_loop _ _ _)); reflexivity.
Qed.

Lemma final_queries_empty w :
  _folds (this w) = [] -> final_queries w = (Raise (KeyError "segment"), w).
Proof.
  intros He.
  unfold final_queries, get_metrics, bind, get_self, raise. now rewrite He.
Qed.

(** [backtest] when it returns: the validation passed, the folds ran,
    they were stored, and the queries were made on the filled store. *)
Lemma backtest_returns env ts transforms w :
  is_raise (fst (backtest env ts transforms w)) = false ->
  exists folds,
    map fst folds = fold_numbers (n_folds (this w)) /\
    backtest env ts transforms w
    = final_queries
        (mkWorld (with_folds (this w) (store_all folds (_folds (this w))))
                 (calls w ++ List.concat (map (fun _ => task_calls (this w))
                                         (fold_tasks (this w))))).
Proof.
  intros Hok.
  destruct (backtest_world env ts transforms w) as [[Hr _] | (folds & w2 & E & Hrun)];
    [congruence |].
  apply for_collect_world in E. destruct E as [Hk ->].
  exists folds. split; [now rewrite Hk, fold_tasks_keys | exact Hrun].
Qed.

(** The keys of the store after a batch has been stored. *)
Section StoreKeys.
Context {V : Type}.

Lemma dict_set_keys_in (d : list (Z * V)) k v :
  In k (map fst d) -> map fst (Py.dict_set Z.eqb d k v) = map fst d.
Proof.
  induction d as [| [k' v'] r IH]; cbn [Py.dict_set map fst In]; [intros [] |].
  destruct (Z.eqb_spec k' k) as [-> | Hne]; cbn [map fst]; [reflexivity |].
  intros [E | Hin]; [congruence |]. now rewrite IH.
Qed.

Lemma dict_set_keys_new (d : list (Z * V)) k v :
  ~ In k (map fst d) -> map fst (Py.dict_set Z.eqb d k v) = map fst d ++ [k].
Proof.
  induction d as [| [k' v'] r IH]; cbn [Py.dict_set map fst In app];
    [reflexivity |].
  intros Hnin. destruct (Z.eqb_spec k' k) as [-> | Hne]; cbn [map fst].
  - exfalso. apply Hnin. now left.
  - rewrite IH; [reflexivity |]. intros H. apply Hnin. now right.
Qed.

End StoreKeys.

Lemma store_all_keys_present folds : forall d,
  (forall k, In k (map fst folds) -> In k (map fst d)) ->
  map fst (store_all folds d) = map fst d.
Proof.
  induction folds as [| [k v] r IH]; intros d Hin; cbn [store_all fold_left];
    [reflexivity |].
  fold (store_all r (Py.dict_set Z.eqb d k v)). cbn [fst snd].
  assert (Hk : map fst (Py.dict_set Z.eqb d k v) = map fst d)
    by (apply dict_set_keys_in, Hin; now left).
  rewrite IH; [exact Hk |].
  intros k' Hk'. rewrite Hk. apply Hin. now right.
Qed.

Lemma store_all_keys_fresh folds : forall d,
  NoDup (map fst d ++ map fst folds) ->
  map fst (store_all folds d) = map fst d ++ map fst folds.
Proof.
  induction folds as [| [k v] r IH]; intros d Hnd; cbn [store_all fold_left map fst].
  - now rewrite app_nil_r.
  - fold (store_all r (Py.dict_set Z.eqb d k v)). cbn [fst snd].
    assert (Hk : map fst (Py.dict_set Z.eqb d k v) = map fst d ++ [k]).
    { apply dict_set_keys_new. cbn [map fst] in Hnd.
      apply NoDup_remove_2 in Hnd. intros H. apply Hnd.
      apply in_or_app. now left. }
    rewrite IH; rewrite Hk, <- app_assoc; [reflexivity |].
    cbn [map fst app] in *. exact Hnd.
Qed.

Lemma fold_numbers_NoDup k : NoDup (fold_numbers k).
Proof.
  unfold fold_numbers. apply Finite.Injective_map_NoDup; [| apply seq_NoDup].
  intros a b H. lia.
Qed.

(** Storing folds 0..K-1 into a store that is empty or holds exactly
    these folds leaves a store with exactly these folds, in order. *)
Lemma store_all_fold_numbers folds d k :
  map fst folds = fold_numbers k ->
  map fst d = [] \/ map fst d = fold_numbers k ->
  map fst (store_all folds d) = fold_numbers k.
Proof.
  intros Hf [Hd | Hd].
  - rewrite store_all_keys_fresh; rewrite Hd, Hf; cbn [app];
      [reflexivity | apply fold_numbers_NoDup].
  - rewrite store_all_keys_present; [exact Hd |].
    intros x. now rewrite Hf, Hd.
Qed.

Lemma fold_numbers_not_nil k : 1 <= k -> fold_numbers k <> [].
Proof.
  intros Hk. unfold fold_numbers.
  destruct (Z.to_nat k) as [| n] eqn:E; [lia | discriminate].
Qed.

Lemma store_all_not_nil folds : forall d,
  folds <> [] -> store_all folds d <> [].
Proof.
  induction folds as [| [k v] r IH]; intros d Hne; [congruence |].
  cbn [store_all fold_left fst snd].
  fold (store_all r (Py.dict_set Z.eqb d k v)).
  destruct r as [| it r'].
  - cbn [store_all fold_left]. apply dict_set_not_nil.
  - apply IH. discriminate.
Qed.

(** The world that a returning [backtest] leaves. *)
Lemma backtest_returns_world env ts transforms w :
  1 <= n_folds (this w) ->
  is_raise (fst (backtest env ts transforms w)) = false ->
  exists folds rows,
    map fst folds = fold_numbers (n_folds (this w)) /\
    let stored := store_all folds (_folds (this w)) in
    let col := _fold_column (this w) in
    snd (forecasts_loop col stored []) = Ok rows /\
    backtest env ts transforms w
    = (Ok (PerFold (RowSort.sort (metrics_frame stored)),
           rows,
           map fold_info_row (fst (forecasts_loop col stored []))),
       mkWorld (with_folds (this w) (fst (forecasts_loop col stored [])))
               (calls w ++ List.concat (map (fun _ => task_calls (this w))
                                            (fold_tasks (this w))))).
Proof.
  intros HK Hok.
  destruct (backtest_returns env ts transforms w Hok) as (folds & Hk & Hrun).
  rewrite Hrun in Hok |- *.
  assert (Hne : store_all folds (_folds (this w)) <> []).
  { apply store_all_not_nil. intros ->.
    symmetry in Hk. now apply fold_numbers_not_nil in Hk. }
  rewrite final_queries_run in Hok |- * by exact Hne.
  cbn [this _folds _fold_column with_folds calls fst] in Hok |- *.
  destruct (snd (forecasts_loop (_fold_column (this w))
                   (store_all folds (_folds (this w))) [])) as [rows | e] eqn:E;
    [| discriminate].
  exists folds, rows. split; [exact Hk |]. cbv zeta. split; [exact E | reflexivity].
Qed.

Lemma init_fold_column model0 h ms k m j self :
  __init__ model0 h ms k m j = Ok self -> _fold_column self = "fold_number".
Proof.
  unfold __init__.
  destruct (k <? 1); [discriminate |].
  destruct ms; [discriminate |].
  destruct (check_metrics _); [| discriminate].
  destruct (CrossValidationMode_getitem _); [| discriminate].
  now intros H; injection H as <-.
Qed.

Lemma reachable_keys w :
  reachable w ->
  1 <= n_folds (this w) /\
  _fold_column (this w) = "fold_number" /\
  (map fst (_folds (this w)) = [] \/
   map fst (_folds (this w)) = fold_numbers (n_folds (this w))).
Proof.
  induction 1 as [model0 h ms k m j self Hinit
                 | env ts transforms w _ IH | b w _ IH | w _ IH | w _ IH].
  - pose proof (init_fold_column _ _ _ _ _ _ _ Hinit) as Hcol.
    apply init_inv in Hinit. destruct Hinit as (HK & _ & _ & _ & _ & Hf & _).
    cbn [this]. rewrite Hf. auto.
  - destruct IH as (HK & Hcol & Hkeys).
    destruct (backtest_world env ts transforms w)
      as [[_ Hs] | (folds & w2 & E & Hrun)].
    + rewrite Hs. auto.
    + rewrite Hrun, final_queries_world.
      cbn [this n_folds _fold_column _folds with_folds].
      split; [exact HK | split; [exact Hcol | right]].
      rewrite forecasts_loop_keys.
      apply store_all_fold_numbers; [| exact Hkeys].
      apply for_collect_world in E. destruct E as [Hk _].
      now rewrite Hk, fold_tasks_keys.
  - now rewrite get_metrics_world.
  - destruct IH as (HK & Hcol & Hkeys). rewrite get_forecasts_world.
    cbn [this n_folds _fold_column _folds with_folds].
    rewrite forecasts_loop_keys. auto.
  - exact IH.
Qed.

(** X14: in every state that the constructor, [backtest] and the queries
    can bring the object to, the fold store is empty or holds exactly the
    folds numbered 0, 1, ..., K-1, in this order and each once; the fold
    count is at least 1 and the fold column is "fold_number". *)
Theorem X14_store_holds_folds_in_order (w : World) :
  reachable w ->
  1 <= n_folds (this w) /\
  _fold_column (this w) = "fold_number" /\
  NoDup (map fst (_folds (this w))) /\
  (map fst (_folds (this w)) = [] \/
   map fst (_folds (this w)) = fold_numbers (n_folds (this w))).
Proof.
  intros Hr. destruct (reachable_keys w Hr) as (HK & Hcol & Hkeys).
  split; [exact HK | split; [exact Hcol | split; [| exact Hkeys]]].
  destruct Hkeys as [-> | ->]; [constructor | apply fold_numbers_NoDup].
Qed.

Lemma X14_store_holds_folds_witness :
  reachable (snd (backtest demo_env demo_ts [] demo_world)) /\
  map fst (_folds (this (snd (backtest demo_env demo_ts [] demo_world)))) = [0; 1] /\
  NoDup (map fst (_folds (this (snd (backtest demo_env demo_ts [] demo_world))))).
Proof.
  assert (Hr : reachable (snd (backtest demo_env demo_ts [] demo_world))).
  { apply reach_backtest.
    apply (reach_init idle_model 2 demo_metrics 2 "expand" 1). reflexivity. }
  split; [exact Hr | split; [reflexivity |]].
  apply (X14_store_holds_folds_in_order _ Hr).
Defined.

Lemma metrics_frame_tagged col items : forall acc,
  metrics_frame (fst (forecasts_loop col items acc)) = metrics_frame items.
Proof.
  unfold metrics_frame.
  induction items as [| [i info] r IH]; intros acc; [reflexivity |].
  rewrite forecasts_loop_cons.
  destruct (snd (tag_forecast col i (forecast info))); cbn [fst snd flat_map];
    [now rewrite IH | reflexivity].
Qed.

(** X15: the three tables that [backtest] returns are what
    [get_metrics()], [get_forecasts()] and [get_fold_info()] return when
    they are called on the object afterwards, and these calls leave the
    object as [backtest] left it. *)
Theorem X15_backtest_returns_the_queries env ts transforms (w : World) :
  is_raise (fst (backtest env ts transforms w)) = false ->
  let w' := snd (backtest env ts transforms w) in
  exists metrics_df forecast_df fold_info_df,
    fst (backtest env ts transforms w) = Ok (metrics_df, forecast_df, fold_info_df) /\
    get_metrics false w' = (Ok metrics_df, w') /\
    get_forecasts w' = (Ok forecast_df, w') /\
    get_fold_info w' = (Ok fold_info_df, w').
Proof.
  intros Hok w'.
  destruct (backtest_returns env ts transforms w Hok) as (folds & _ & Hrun).
  unfold w'. rewrite Hrun in *. clear w' Hrun.
  set (w3 := mkWorld _ _) in *.
  assert (Hne : _folds (this w3) <> []).
  { intros E. rewrite (final_queries_empty w3 E) in Hok. discriminate. }
  rewrite (final_queries_run w3 Hne) in Hok |- *. cbn [fst snd] in Hok |- *.
  set (col := _fold_column (this w3)) in *.
  set (S := _folds (this w3)) in *.
  destruct (snd (forecasts_loop col S [])) as [rows | e] eqn:El; [| discriminate].
  set (w4 := mkWorld (with_folds (this w3) (fst (forecasts_loop col S []))) (calls w3)).
  assert (Hne4 : _folds (this w4) <> []).
  { unfold w4. cbn [this _folds with_folds]. intros H.
    apply (f_equal (map fst)) in H.
    rewrite forecasts_loop_keys in H. destruct S; [now apply Hne | discriminate]. }
  do 3 eexists. split; [reflexivity | split; [| split]].
  - rewrite (get_metrics_run false w4 Hne4). cbn [this _folds with_folds w4].
    fold (metrics_frame (fst (forecasts_loop col S []))).
    now rewrite metrics_frame_tagged.
  - rewrite get_forecasts_run.
    cbn [this _folds _fold_column with_folds calls w4]. fold col.
    now rewrite forecasts_loop_again, El.
  - reflexivity.
Qed.

Lemma X15_backtest_returns_the_queries_witness :
  is_raise (fst (backtest demo_env demo_ts [] demo_world)) = false /\
  exists metrics_df forecast_df fold_info_df,
    fst (backtest demo_env demo_ts [] demo_world)
    = Ok (metrics_df, forecast_df, fold_info_df) /\
    get_forecasts (snd (backtest demo_env demo_ts [] demo_world))
    = (Ok forecast_df, snd (backtest demo_env demo_ts [] demo_world)).
Proof.
  split; [reflexivity |].
  destruct (X15_backtest_returns_the_queries demo_env demo_ts [] demo_world eq_refl)
    as (m & f & i & Hrun & _ & Hf & _).
  exists m, f, i. split; [exact Hrun | exact Hf].
Defined.

Lemma map_const_repeat {A B : Type} (x : B) (l : list A) :
  map (fun _ => x) l = repeat x (List.length l).
Proof. induction l as [| a r IH]; cbn; [reflexivity | now rewrite IH]. Qed.

Lemma enumerate_from_length {A : Type} (l : list A) : forall i,
  List.length (Py.enumerate_from i l) = List.length l.
Proof. induction l as [| x r IH]; intros i; cbn; [reflexivity | now rewrite IH]. Qed.

Lemma fold_tasks_length self :
  List.length (fold_tasks self) = Z.to_nat (n_folds self).
Proof.
  unfold fold_tasks, Py.enumerate, Py.range_down.
  now rewrite enumerate_from_length, countdown_length.
Qed.

Lemma fits_of_task self : filter is_fit (task_calls self) = [CallFit].
Proof.
  unfold task_calls, metric_calls. cbn [app filter is_fit].
  f_equal. induction (metrics self) as [| mt r IH]; cbn; [reflexivity | exact IH].
Qed.

Lemma fits_of_tasks self n :
  List.length (filter is_fit (List.concat (repeat (task_calls self) n))) = n.
Proof.
  induction n as [| n IH]; cbn [repeat List.concat]; [reflexivity |].
  rewrite filter_app, length_app, fits_of_task, IH. reflexivity.
Qed.

(** X16: with one job ([n_jobs = 1], where the folds run one after the
    other, each as soon as the generator has yielded it) a call of
    [backtest] that returns has made, for each of the [K] folds in turn,
    one call each of [train_test_split], [fit_transform], [make_future],
    the model's [fit] and [forecast] and then one call of every metric, and
    no other collaborator call: the validation, the storing and the queries
    call none.  In particular [fit] has been called exactly [K] times. *)
Theorem X16_backtest_calls env ts transforms (w : World) :
  n_jobs (this w) = 1 ->
  is_raise (fst (backtest env ts transforms w)) = false ->
  let w' := snd (backtest env ts transforms w) in
  calls w'
  = calls w
    ++ List.concat (repeat (task_calls (this w)) (Z.to_nat (n_folds (this w)))) /\
  List.length (filter is_fit (calls w'))
  = (List.length (filter is_fit (calls w)) + Z.to_nat (n_folds (this w)))%nat.
Proof.
  intros _ Hok w'.
  assert (Hcalls : calls w'
            = calls w ++ List.concat (repeat (task_calls (this w))
                                             (Z.to_nat (n_folds (this w))))).
  { destruct (backtest_returns env ts transforms w Hok) as (folds & _ & Hrun).
    unfold w'. rewrite Hrun in *. clear w' Hrun.
    set (w3 := mkWorld _ _) in *.
    destruct (_folds (this w3)) as [| it r] eqn:E.
    - rewrite (final_queries_empty w3 E) in Hok. discriminate.
    - rewrite final_queries_run by (rewrite E; discriminate).
      cbn [snd calls]. unfold w3. cbn [calls].
      now rewrite map_const_repeat, fold_tasks_length. }
  split; [exact Hcalls |].
  now rewrite Hcalls, filter_app, length_app, fits_of_tasks.
Qed.

Lemma X16_backtest_calls_witness :
  n_jobs (this demo_world) = 1 /\
  is_raise (fst (backtest demo_env demo_ts [] demo_world)) = false /\
  List.length (filter is_fit (calls (snd (backtest demo_env demo_ts [] demo_world))))
  = 2%nat.
Proof.
  split; [reflexivity | split; [reflexivity |]].
  apply (X16_backtest_calls demo_env demo_ts [] demo_world); reflexivity.
Defined.

(** X17: after a call of [backtest] that returns on an object in a
    reachable state, [get_fold_info] and [get_metrics] report this run:
    the fold information has exactly [K] rows, numbered 0, 1, ..., K-1 in
    this order, and every row of the metrics table carries one of these
    fold numbers. *)
Theorem X17_tables_after_backtest env ts transforms (w : World) :
  reachable w ->
  is_raise (fst (backtest env ts transforms w)) = false ->
  let w' := snd (backtest env ts transforms w) in
  exists info rows,
    get_fold_info w' = (Ok info, w') /\
    map info_fold_number info = fold_numbers (n_folds (this w)) /\
    Z.of_nat (List.length info) = n_folds (this w) /\
    get_metrics false w' = (Ok (PerFold rows), w') /\
    forall r, In r rows -> 0 <= row_fold_number r < n_folds (this w).
Proof.
  intros Hr Hok w'.
  assert (Hr' : reachable w') by (apply reach_backtest; exact Hr).
  destruct (reachable_keys w Hr) as (HK & _ & _).
  destruct (reachable_keys w' Hr') as (_ & _ & Hkeys').
  assert (Hconf : n_folds (this w') = n_folds (this w) /\ _folds (this w') <> []).
  { destruct (backtest_returns_world env ts transforms w HK Hok)
      as (folds & rows0 & Hk & _ & Hrun).
    unfold w'. rewrite Hrun. cbn [snd this n_folds _folds with_folds].
    split; [reflexivity |]. intros H. apply (f_equal (map fst)) in H.
    rewrite forecasts_loop_keys in H.
    rewrite (store_all_fold_numbers folds (_folds (this w)) _ Hk) in H.
    - now apply fold_numbers_not_nil in H.
    - destruct (reachable_keys w Hr) as (_ & _ & Hkeys). exact Hkeys. }
  destruct Hconf as [HK' Hne].
  assert (Hkeys : map fst (_folds (this w')) = fold_numbers (n_folds (this w))).
  { destruct Hkeys' as [H | H]; [| now rewrite <- HK'].
    destruct (_folds (this w')); [congruence | discriminate]. }
  exists (map fold_info_row (_folds (this w'))),
         (RowSort.sort (metrics_frame (_folds (this w')))).
  split; [reflexivity | split; [| split; [| split]]].
  - now rewrite map_map.
  - rewrite length_map, <- (length_map fst), Hkeys. unfold fold_numbers.
    rewrite length_map, length_seq. lia.
  - now rewrite (get_metrics_run false w' Hne).
  - intros r Hin.
    apply (Permutation_in _ (Permutation_sym (RowSort.Permuted_sort _))) in Hin.
    unfold metrics_frame in Hin. apply in_flat_map in Hin.
    destruct Hin as ([i fold] & Hit & Hin).
    unfold fold_metrics_frame in Hin. apply in_map_iff in Hin.
    destruct Hin as (s & <- & _). cbn [row_fold_number fst].
    assert (Hi : In i (fold_numbers (n_folds (this w)))).
    { rewrite <- Hkeys. apply in_map_iff. exists (i, fold). auto. }
    unfold fold_numbers in Hi. apply in_map_iff in Hi.
    destruct Hi as (n & <- & Hn). apply in_seq in Hn. lia.
Qed.

Lemma X17_tables_after_backtest_witness :
  reachable demo_world /\
  exists info,
    get_fold_info (snd (backtest demo_env demo_ts [] demo_world))
    = (Ok info, snd (backtest demo_env demo_ts [] demo_world)) /\
    map info_fold_number info = [0; 1].
Proof.
  assert (Hr : reachable demo_world)
    by (apply (reach_init idle_model 2 demo_metrics 2 "expand" 1); reflexivity).
  split; [exact Hr |].
  destruct (X17_tables_after_backtest demo_env demo_ts [] demo_world Hr eq_refl)
    as (info & rows & Hrun & Hnum & _).
  exists info. split; [exact Hrun | exact Hnum].
Defined.

(* ================================================================== *)
(** * Further properties of the queries *)
(* ================================================================== *)

(** X18: on an object that holds no fold (a new one, or one whose
    [backtest] has only ever raised) [get_metrics] raises [KeyError] for
    the column "segment", with and without aggregation, while
    [get_forecasts] and [get_fold_info] return empty tables; none of the
    three changes the object. *)
Theorem X18_queries_on_empty_store (w : World) :
  _folds (this w) = [] ->
  (forall b, get_metrics b w = (Raise (KeyError "segment"), w)) /\
  get_forecasts w = (Ok [], w) /\
  get_fold_info w = (Ok [], w).
Proof.
  intros He. split; [| split].
  - intros b. unfold get_metrics, bind, get_self, raise. now rewrite He.
  - unfold get_forecasts, bind, get_self, set_folds, ret. rewrite He.
    cbn [forecasts_loop fst snd]. rewrite <- He, with_folds_same. now destruct w.
  - unfold get_fold_info, bind, get_self, ret. now rewrite He.
Qed.

Lemma X18_queries_on_empty_store_witness :
  _folds (this demo_world) = [] /\
  get_metrics true demo_world = (Raise (KeyError "segment"), demo_world) /\
  get_forecasts demo_world = (Ok [], demo_world).
Proof.
  destruct (X18_queries_on_empty_store demo_world eq_refl) as (Hm & Hf & _).
  split; [reflexivity | split; [apply Hm | exact Hf]].
Defined.

Lemma tag_forecast_tagged col k f :
  snd (tag_forecast col k f) = Ok tt ->
  fold_tagged col (k, mkFold (mkTimerange None None) (mkTimerange None None) f [])
              (k, mkFold (mkTimerange None None) (mkTimerange None None)
                         (fst (tag_forecast col k f)) []).
Proof.
  intros Hok. rewrite (tag_forecast_ok col k f Hok).
  unfold fold_tagged. cbn [fst snd forecast].
  repeat split.
  - apply tag_steps_index.
  - apply tag_steps_segments. intros s Hs. now apply unique_In.
  - intros s Hs. now apply tag_steps_tagged.
  - intros key Hkey. now apply tag_steps_other.
Qed.

(** X19: what [get_forecasts] writes.  It calls no collaborator and
    changes nothing of the object but the stored forecasts.  When no
    stored forecast is one that cannot be tagged (no row, and the fold
    column of one of its segments missing), the call returns, and fold by
    fold, in the order of the store, the key, the time ranges and the
    metrics stay, and in the forecast the index and the segments stay, the
    fold column of every segment is set to the fold's number on every row,
    and every other column stays as it is. *)
Theorem X19_get_forecasts_writes_fold_columns (w : World) :
  (forall it, In it (_folds (this w)) ->
     ~ untaggable (_fold_column (this w)) (forecast (snd it))) ->
  let w' := snd (get_forecasts w) in
  is_raise (fst (get_forecasts w)) = false /\
  calls w' = calls w /\
  this w' = with_folds (this w) (_folds (this w')) /\
  Forall2 (fold_tagged (_fold_column (this w))) (_folds (this w)) (_folds (this w')).
Proof.
  intros Hfree. cbv zeta. rewrite get_forecasts_run. cbn [fst snd this calls].
  assert (Hall : Forall (fun it => snd (tag_forecast (_fold_column (this w)) (fst it)
                                         (forecast (snd it))) = Ok tt)
                        (_folds (this w))).
  { apply Forall_forall. intros it Hit. apply tag_forecast_taggable. now apply Hfree. }
  rewrite (forecasts_loop_all_ok _ _ [] Hall). cbn [fst snd is_raise _folds with_folds].
  split; [reflexivity | split; [reflexivity | split; [reflexivity |]]].
  clear Hfree.
  induction Hall as [| [k info] r Hk Hr IH]; cbn [map]; constructor; [| exact IH].
  cbn [fst snd] in Hk.
  pose proof (tag_forecast_tagged (_fold_column (this w)) k (forecast info) Hk) as H.
  unfold fold_tagged in *. cbn [fst snd forecast set_forecast train_timerange
    test_timerange fold_metrics] in *.
  destruct H as (_ & _ & _ & _ & H5 & H6 & H7 & H8).
  repeat split; auto.
Qed.

Lemma X19_get_forecasts_writes_witness :
  (forall it, In it (_folds (this fresh_store_world)) ->
     ~ untaggable "fold_number" (forecast (snd it))) /\
  is_raise (fst (get_forecasts fresh_store_world)) = false /\
  Forall2 (fold_tagged "fold_number")
          (_folds (this fresh_store_world))
          (_folds (this (snd (get_forecasts fresh_store_world)))).
Proof.
  assert (Hfree : forall it, In it (_folds (this fresh_store_world)) ->
            ~ untaggable (_fold_column (this fresh_store_world)) (forecast (snd it))).
  { intros it [<- | []] [Hi _]. discriminate Hi. }
  split; [exact Hfree |].
  destruct (X19_get_forecasts_writes_fold_columns fresh_store_world Hfree)
    as (Hok & _ & _ & Htag).
  split; [exact Hok | exact Htag].
Defined.

(** X20: a second call of [get_forecasts] ends as the first call did
    (with the same table, or with the same exception) and changes
    nothing. *)
Theorem X20_get_forecasts_twice (w : World) :
  get_forecasts (snd (get_forecasts w))
  = (fst (get_forecasts w), snd (get_forecasts w)).
Proof.
  rewrite !get_forecasts_run.
  cbn [fst snd this calls _folds _fold_column with_folds].
  now rewrite forecasts_loop_again.
Qed.

Lemma metric_columns_tagged col items : forall acc,
  metric_columns (fst (forecasts_loop col items acc)) = metric_columns items.
Proof.
  unfold metric_columns. intros acc. f_equal. revert acc.
  induction items as [| [i info] r IH]; intros acc; [reflexivity |].
  rewrite forecasts_loop_cons.
  destruct (snd (tag_forecast col i (forecast info))); cbn [fst snd flat_map];
    [now rewrite IH | reflexivity].
Qed.

Lemma fold_info_tagged col items : forall acc,
  map fold_info_row (fst (forecasts_loop col items acc)) = map fold_info_row items.
Proof.
  induction items as [| [i info] r IH]; intros acc; [reflexivity |].
  rewrite forecasts_loop_cons.
  destruct (snd (tag_forecast col i (forecast info))); cbn [fst snd map];
    [now rewrite IH | reflexivity].
Qed.

(** X21: what [get_forecasts] writes into the stored forecasts does not
    show in the other two queries: after it, [get_metrics] (with and
    without aggregation) and [get_fold_info] return what they would have
    returned before it. *)
Theorem X21_get_forecasts_leaves_other_tables (w : World) :
  (forall b, fst (get_metrics b (snd (get_forecasts w))) = fst (get_metrics b w)) /\
  fst (get_fold_info (snd (get_forecasts w))) = fst (get_fold_info w).
Proof.
  rewrite get_forecasts_world. split.
  - intros b. unfold get_metrics, bind, get_self, ret, raise.
    cbn [this _folds with_folds fst].
    fold (metrics_frame (fst (forecasts_loop (_fold_column (this w))
                                (_folds (this w)) []))).
    fold (metrics_frame (_folds (this w))).
    rewrite metrics_frame_tagged, metric_columns_tagged.
    pose proof (forecasts_loop_keys (_fold_column (this w)) (_folds (this w)) [])
      as Hkeys.
    destruct (_folds (this w)) as [| [k info] r];
      destruct (fst (forecasts_loop _ _ _)) as [| it' r']; try discriminate Hkeys;
      [reflexivity |].
    destruct b; reflexivity.
  - unfold get_fold_info, bind, get_self, ret. cbn [this _folds with_folds fst].
    f_equal. apply (fold_info_tagged (_fold_column (this w)) (_folds (this w)) []).
Qed.











(* ================================================================== *)
(** * Further properties of the validation, the store and the indices *)
(* ================================================================== *)

Lemma mapM_raises_iff {A B : Type} (f : A -> Res B) (l : list A) :
  is_raise (mapM f l) = true <-> exists x, In x l /\ is_raise (f x) = true.
Proof.
  split.
  - destruct (mapM f l) as [ys | e] eqn:E; [discriminate |]. intros _.
    destruct (mapM_raise_inv _ _ _ E) as (x & Hx & Hfx).
    exists x. split; [exact Hx | now rewrite Hfx].
  - intros (x & Hx & Hfx).
    destruct (f x) as [y | e] eqn:E; [discriminate |].
    destruct (mapM_some_raise f l x e Hx E) as [e' ->]. reflexivity.
Qed.

(** X24: whether the validation passes does not depend on the order in
    which the set of segment names is iterated: two iteration orders that
    visit the same segments make it pass or make it raise alike (only
    the segment named in the error may differ); and it never changes the
    object nor calls a collaborator. *)
Theorem X24_validation_order_independent env1 env2 ts (w : World) :
  (forall s, In s (set_iter env1 (segment_level ts))
             <-> In s (set_iter env2 (segment_level ts))) ->
  is_raise (fst (_validate_features env1 ts w))
  = is_raise (fst (_validate_features env2 ts w)) /\
  snd (_validate_features env1 ts w) = w /\
  snd (_validate_features env2 ts w) = w.
Proof.
  intros Hsame. rewrite !validate_features_outcome. cbn [fst snd].
  split; [| split; reflexivity].
  set (f := validate_outcome (this w) ts).
  assert (Hiff : is_raise (mapM f (set_iter env1 (segment_level ts))) = true <->
                 is_raise (mapM f (set_iter env2 (segment_level ts))) = true).
  { rewrite !mapM_raises_iff. split; intros (x & Hx & Hfx); exists x;
      (split; [now apply Hsame | exact Hfx]). }
  destruct (mapM f (set_iter env1 _)) as [u1 | e1];
    destruct (mapM f (set_iter env2 _)) as [u2 | e2]; cbn [is_raise] in *;
    try reflexivity.
  - destruct Hiff as [_ H]. discriminate (H eq_refl).
  - destruct Hiff as [H _]. discriminate (H eq_refl).
Qed.

Lemma X24_validation_order_witness :
  let env2 := mkCollab (train_test_split demo_env) (fit_transform demo_env)
                       (make_future demo_env) (fun l => Py.unique l) in
  _validate_features demo_env demo_ts_gap demo_world
  = (Raise (ValueError (NotEnoughTimestamps 2 2 4 "b")), demo_world) /\
  is_raise (fst (_validate_features demo_env demo_ts_gap demo_world))
  = is_raise (fst (_validate_features env2 demo_ts_gap demo_world)).
Proof.
  intros env2. split; [reflexivity |].
  apply (X24_validation_order_independent demo_env env2 demo_ts_gap demo_world).
  intros s. cbn. tauto.
Defined.

Lemma store_all_get_other folds i : forall d,
  ~ In i (map fst folds) ->
  Py.dict_get Z.eqb (store_all folds d) i = Py.dict_get Z.eqb d i.
Proof.
  induction folds as [| [k v] r IH]; intros d Hnin; cbn [store_all fold_left];
    [reflexivity |].
  fold (store_all r (Py.dict_set Z.eqb d k v)). cbn [fst snd].
  rewrite IH by (intros H; apply Hnin; now right).
  apply (dict_get_set_other Z.eqb Z.eqb_eq).
  intros ->. apply Hnin. now left.
Qed.

Lemma store_all_get folds i fold : forall d,
  NoDup (map fst folds) -> In (i, fold) folds ->
  Py.dict_get Z.eqb (store_all folds d) i = Some fold.
Proof.
  induction folds as [| [k v] r IH]; intros d Hnd Hin; [destruct Hin |].
  cbn [store_all fold_left]. fold (store_all r (Py.dict_set Z.eqb d k v)).
  cbn [fst snd]. cbn [map fst] in Hnd. inversion Hnd as [| ? ? Hk Hr]; subst.
  destruct Hin as [E | Hin].
  - injection E as -> ->. rewrite store_all_get_other by exact Hk.
    apply (dict_get_set_same Z.eqb Z.eqb_eq).
  - now apply IH.
Qed.

Lemma forecasts_loop_get col items acc rows i :
  snd (forecasts_loop col items acc) = Ok rows ->
  Py.dict_get Z.eqb (fst (forecasts_loop col items acc)) i
  = option_map (fun info => set_forecast info
                              (fst (tag_forecast col i (forecast info))))
               (Py.dict_get Z.eqb items i).
Proof.
  intros Hok. apply forecasts_loop_returns in Hok.
  rewrite (forecasts_loop_all_ok _ _ acc Hok). cbn [fst]. clear Hok.
  induction items as [| [k info] r IH]; cbn [map Py.dict_get fst snd]; [reflexivity |].
  destruct (Z.eqb_spec k i) as [-> | Hne]; [reflexivity | exact IH].
Qed.

(** X25: a call of [backtest] that returns leaves, under every fold
    number of the run, the result of this run's fold of that number (its
    forecast carrying the fold column), whatever was stored under the
    number before. *)
Theorem X25_backtest_overwrites_results env ts transforms (w : World) folds w2 :
  for_collect (fold_task env ts transforms) (fold_tasks (this w)) w = (Ok folds, w2) ->
  is_raise (fst (backtest env ts transforms w)) = false ->
  forall i fold,
    In (i, fold) folds ->
    snd (tag_forecast (_fold_column (this w)) i (forecast fold)) = Ok tt /\
    Py.dict_get Z.eqb (_folds (this (snd (backtest env ts transforms w)))) i
    = Some (set_forecast fold
              (fst (tag_forecast (_fold_column (this w)) i (forecast fold)))).
Proof.
  intros Hrun Hok i fold Hin.
  pose proof (for_collect_world _ _ _ _ _ _ _ Hrun) as [Hk Hw2].
  revert Hok. rewrite backtest_steps, validate_features_outcome.
  destruct (mapM _ _) as [us | e0]; [| discriminate].
  rewrite Hrun, store_folds_run.
  set (w3 := mkWorld _ _).
  fold final_queries.
  destruct (_folds (this w3)) as [| it r] eqn:E.
  - rewrite (final_queries_empty w3 E). discriminate.
  - rewrite final_queries_run by (rewrite E; discriminate).
    cbn [fst snd this _folds with_folds].
    destruct (snd (forecasts_loop (_fold_column (this w3)) (_folds (this w3)) []))
      as [rows | e] eqn:El; [| discriminate].
    intros _.
    assert (Hget : Py.dict_get Z.eqb (_folds (this w3)) i = Some fold).
    { unfold w3. cbn [this _folds with_folds].
      apply store_all_get; [| exact Hin].
      rewrite Hk, fold_tasks_keys. apply fold_numbers_NoDup. }
    assert (Hcol : _fold_column (this w3) = _fold_column (this w)).
    { unfold w3. cbn [this _fold_column with_folds]. now rewrite Hw2. }
    split.
    + pose proof (forecasts_loop_returns _ _ _ _ El) as Hall.
      rewrite Forall_forall in Hall.
      assert (Hit : In (i, fold) (_folds (this w3))).
      { revert Hget. generalize (_folds (this w3)).
        induction l as [| [k v] l IH]; cbn [Py.dict_get]; [discriminate |].
        destruct (Z.eqb_spec k i) as [-> | Hne].
        - intros H; injection H as ->. now left.
        - intros H. right. now apply IH. }
      specialize (Hall _ Hit). cbn [fst snd] in Hall. now rewrite <- Hcol.
    + rewrite (forecasts_loop_get _ _ _ _ i El), Hget. cbn [option_map].
      now rewrite Hcol.
Qed.

Lemma X25_backtest_overwrites_witness :
  is_raise (fst (backtest demo_env demo_ts [] demo_world)) = false /\
  exists folds w2,
    for_collect (fold_task demo_env demo_ts []) (fold_tasks (this demo_world)) demo_world
    = (Ok folds, w2) /\
    List.length folds = 2%nat /\
    forall i fold,
      In (i, fold) folds ->
      Py.dict_get Z.eqb (_folds (this (snd (backtest demo_env demo_ts [] demo_world)))) i
      = Some (set_forecast fold
                (fst (tag_forecast "fold_number" i (forecast fold)))).
Proof.
  split; [reflexivity |].
  destruct (for_collect (fold_task demo_env demo_ts []) (fold_tasks (this demo_world))
                        demo_world) as [[folds | e] w2] eqn:E;
    [| vm_compute in E; discriminate].
  exists folds, w2. split; [reflexivity | split].
  - vm_compute in E. injection E as <- _. reflexivity.
  - intros i fold Hin.
    apply (X25_backtest_overwrites_results demo_env demo_ts [] demo_world folds w2 E
             eq_refl i fold Hin).
Defined.

(** X26: with strictly more than [K*H] points every index the planner
    computes is a position of the axis, and every fold has a train range
    of at least [N - K*H >= 1] points: exactly that many under the
    constant policy, and [N - (K-i)*H] for fold [i] under the expanding
    one. *)
Theorem X26_indices_valid_above_minimum model0 h ms k m j self N i b :
  __init__ model0 h ms k m j = Ok self ->
  1 <= h -> k * h < N ->
  nth_error (plan self N) i = Some b ->
  (forall x, In x [min_train_idx b; max_train_idx b; min_test_idx b; max_test_idx b] ->
             0 <= x <= N - 1) /\
  1 <= N - k * h <= range_len (min_train_idx b) (max_train_idx b) /\
  (mode self = constant ->
     range_len (min_train_idx b) (max_train_idx b) = N - k * h) /\
  (mode self = expand ->
     range_len (min_train_idx b) (max_train_idx b) = N - (k - Z.of_nat i) * h).
Proof.
  intros Hinit Hh HN Hb.
  pose proof (plan_indices_valid _ _ _ _ _ _ _ N b Hinit Hh HN
                (nth_error_In _ _ Hb)) as (H1 & H2 & H3).
  apply init_inv in Hinit.
  destruct Hinit as (HK & <- & <- & _ & _ & _ & _ & Hc).
  apply plan_nth in Hb. destruct Hb as [Hi ->].
  split; [| split; [| split]].
  - intros x [<- | [<- | [<- | [<- | []]]]]; lia.
  - unfold range_len, fold_bounds in *. cbn in *.
    destruct (mode self); rewrite Hc in *; nia.
  - intros Hm. rewrite Hm in Hc. unfold range_len, fold_bounds. cbn. rewrite Hc. lia.
  - intros Hm. rewrite Hm in Hc. unfold range_len, fold_bounds. cbn. rewrite Hc. lia.
Qed.

Lemma X26_indices_valid_witness :
  __init__ idle_model 2 demo_metrics 3 "constant" 1 = Ok (demo_cv constant 3 2) /\
  nth_error (plan (demo_cv constant 3 2) 10) 1 = Some (mkBounds 2 5 6 7) /\
  range_len (min_train_idx (mkBounds 2 5 6 7)) (max_train_idx (mkBounds 2 5 6 7))
  = 10 - 3 * 2.
Proof.
  split; [reflexivity | split; [reflexivity |]].
  apply (X26_indices_valid_above_minimum idle_model 2 demo_metrics 3 "constant" 1
           (demo_cv constant 3 2) 10 1%nat (mkBounds 2 5 6 7));
    [reflexivity | lia | lia | reflexivity | reflexivity].
Defined.
